(** * BadLink: the packet-impairment pipeline

    A shallow embedding of the six simulation modules of BadLink
    (packet loss, duplication, out-of-order, jitter, bandwidth, latency)
    and of the part of [NetworkCapture] that drives them, followed by the
    properties of the pipeline.

    Conventions of the embedding.
    - [std::vector], [std::deque] and [std::queue] are lists, front first.
    - [std::chrono::steady_clock::time_point] is an integer number of
      nanoseconds; a [std::chrono::milliseconds] value [d] added to a time
      point advances it by [d * 1000000].
    - [float] and [double] quantities (rates, token counts) are exact
      rationals; NaN and rounding are outside the model.
    - [uint32_t] configuration values are integers in [0, 2^32).
    - The thread-local generators are explicit values threaded through the
      calls that draw from them.
    - Every call that reads the clock takes the instant it reads as an
      argument [now].
    - The capture object ([Capture]) is the record of the members of
      [NetworkCapture]; the answers of the WinDivert driver and of its
      packet helper are arguments of the calls that ask for them.
    - A thread is followed one turn of its loop at a time; [Start] and
      [Stop] are single steps.
    - The host is little-endian: a header field is read lowest byte
      first, [ntohs] and [ntohl] reverse bytes. *)

From Stdlib Require Import List ZArith QArith Bool Lia Lqa Permutation.
From Stdlib Require Import Strings.Byte.
From Stdlib Require Strings.String Numbers.DecimalString.
From AAC_tactics Require Import AAC.
Import ListNotations.

Local Open Scope Z_scope.

(** ** simulation_module.h *)

(** The fields of WinDivert's address record that the repository reads. *)
Record WINDIVERT_ADDRESS := mkAddr {
  Outbound : bool;
  Loopback : bool;
  IfIdx : Z
}.

Definition time_point := Z.
Bind Scope Z_scope with time_point.

Definition milliseconds (ms : Z) : Z := ms * 1000000.

Record SimulatedPacket := mkPacket {
  data : list byte;
  addr : WINDIVERT_ADDRESS;
  timestamp : time_point;
  release_time : time_point
}.

Definition packets := list SimulatedPacket.

(** A value-initialised packet, what [back()] of an empty vector is taken
    to be (the code never asks for it). *)
Definition SimulatedPacket_default : SimulatedPacket :=
  mkPacket [] (mkAddr false false 0) 0 0.

Definition back (v : packets) : SimulatedPacket := last v SimulatedPacket_default.

(** [packet.release_time = t] *)
Definition set_release_time (t : time_point) (p : SimulatedPacket) : SimulatedPacket :=
  mkPacket (data p) (addr p) (timestamp p) t.

(** What identifies a packet across the pipeline: its bytes, the diverter's
    address record and the capture time stamp.  [release_time] is scratch
    space of the delaying modules. *)
Definition identity (p : SimulatedPacket) : list byte * WINDIVERT_ADDRESS * time_point :=
  (data p, addr p, timestamp p).

(** [x] is a packet of the queue [q], or a packet of [batch] on which
    nothing but [release_time] was written. *)
Definition queued_from (batch q : packets) (x : SimulatedPacket) : Prop :=
  In x q \/ exists p, In p batch /\ x = set_release_time (release_time x) p.

Definition total_bytes (v : packets) : Z :=
  fold_right (fun p acc => Z.of_nat (length (data p)) + acc) 0 v.

(** The direction gate in the words of the specification. *)
Definition direction_gate (inbound_enabled outbound_enabled : bool)
    (p : SimulatedPacket) : bool :=
  if Outbound (addr p) then outbound_enabled else inbound_enabled.

(** An original followed by [k] copies of it. *)
Definition with_copies (k : nat) (p : SimulatedPacket) : packets :=
  p :: repeat p k.

(** [std::clamp(v, lo, hi)] on rationals and on integers. *)
Definition clampQ (v lo hi : Q) : Q :=
  if Qlt_le_dec v lo then lo else if Qlt_le_dec hi v then hi else v.

Definition clampZ (v lo hi : Z) : Z :=
  if v <? lo then lo else if hi <? v then hi else v.

(** [u] is [v] with some elements left out, the rest in the same order. *)
Inductive subsequence {A : Type} : list A -> list A -> Prop :=
| subsequence_nil : subsequence [] []
| subsequence_keep (x : A) (u v : list A) :
    subsequence u v -> subsequence (x :: u) (x :: v)
| subsequence_skip (x : A) (u v : list A) :
    subsequence u v -> subsequence u (x :: v).

(** ** random_utils.h *)

Module RandomUtils.

(** The two thread-local generators of [RandomUtils].  [percentage n] is
    the [n]-th value [dist(rng)] returns in [GetPercentage];
    [permutation n] is what the [n]-th [std::shuffle] driven by
    [GetGenerator()] does to its range. *)
Record t := mk {
  percentage : nat -> Q;
  percentage_draws : nat;
  permutation : nat -> packets -> packets;
  generator_uses : nat
}.

Definition GetPercentage (r : t) : Q * t :=
  (percentage r (percentage_draws r),
   mk (percentage r) (S (percentage_draws r)) (permutation r) (generator_uses r)).

(** [std::shuffle(v.begin(), v.end(), RandomUtils::GetGenerator())] *)
Definition shuffle (v : packets) (r : t) : packets * t :=
  (permutation r (generator_uses r) v,
   mk (percentage r) (percentage_draws r) (permutation r) (S (generator_uses r))).

(** The contract of [std::shuffle]: the range is permuted. *)
Definition permutes (r : t) : Prop :=
  forall n v, Permutation (permutation r n v) v.

End RandomUtils.

(** ** packet_loss_module.cpp *)

Module PacketLossModule.

Record t := mk {
  enabled_ : bool;
  inbound_enabled_ : bool;
  outbound_enabled_ : bool;
  loss_rate_ : Q
}.

Definition init : t := mk false true true 0%Q.

Definition SetLossRate (loss_percentage : Q) (m : t) : t :=
  mk (enabled_ m) (inbound_enabled_ m) (outbound_enabled_ m)
     (clampQ loss_percentage 0 100).

Definition SetEnabled (enabled : bool) (m : t) : t :=
  mk enabled (inbound_enabled_ m) (outbound_enabled_ m) (loss_rate_ m).

Definition IsEnabled (m : t) : bool := enabled_ m.

Definition SetInboundEnabled (enabled : bool) (m : t) : t :=
  mk (enabled_ m) enabled (outbound_enabled_ m) (loss_rate_ m).

Definition SetOutboundEnabled (enabled : bool) (m : t) : t :=
  mk (enabled_ m) (inbound_enabled_ m) enabled (loss_rate_ m).

Definition ShouldProcess (m : t) (a : WINDIVERT_ADDRESS) : bool :=
  if Outbound a && negb (outbound_enabled_ m) then false
  else if negb (Outbound a) && negb (inbound_enabled_ m) then false
  else true.

Definition ShouldDrop (m : t) (r : RandomUtils.t) : bool * RandomUtils.t :=
  if Qle_bool (loss_rate_ m) 0 then (false, r)
  else if Qle_bool 100 (loss_rate_ m) then (true, r)
  else let (x, r') := RandomUtils.GetPercentage r in
       (negb (Qle_bool (loss_rate_ m) x), r').

(** The loop over the batch; [&&] evaluates [ShouldDrop] only for a
    packet the gate lets in. *)
Fixpoint survivors (m : t) (batch : packets) (r : RandomUtils.t)
    : packets * RandomUtils.t :=
  match batch with
  | [] => ([], r)
  | packet :: rest =>
      if ShouldProcess m (addr packet) then
        let (drop, r1) := ShouldDrop m r in
        let (out, r2) := survivors m rest r1 in
        if drop then (out, r2) else (packet :: out, r2)
      else
        let (out, r2) := survivors m rest r in
        (packet :: out, r2)
  end.

Definition ProcessBatch (m : t) (batch : packets) (r : RandomUtils.t)
    : packets * RandomUtils.t :=
  if negb (enabled_ m) then (batch, r) else survivors m batch r.

Definition GetReleasablePackets (m : t) : packets := [].

(** The calls that can be made on the module, with what they take. *)
Inductive operation :=
| OpSetLossRate (loss_percentage : Q)
| OpSetEnabled (enabled : bool)
| OpSetInboundEnabled (enabled : bool)
| OpSetOutboundEnabled (enabled : bool).

Definition apply (m : t) (op : operation) : t :=
  match op with
  | OpSetLossRate v => SetLossRate v m
  | OpSetEnabled b => SetEnabled b m
  | OpSetInboundEnabled b => SetInboundEnabled b m
  | OpSetOutboundEnabled b => SetOutboundEnabled b m
  end.

End PacketLossModule.

(** ** duplicate_module.cpp *)

Module DuplicateModule.

Record t := mk {
  enabled_ : bool;
  inbound_enabled_ : bool;
  outbound_enabled_ : bool;
  duplication_rate_ : Q;
  duplicate_count_ : Z
}.

Definition init : t := mk false true true 0%Q 1.

Definition SetDuplicationRate (duplication_percentage : Q) (m : t) : t :=
  mk (enabled_ m) (inbound_enabled_ m) (outbound_enabled_ m)
     (clampQ duplication_percentage 0 100) (duplicate_count_ m).

Definition SetDuplicateCount (count : Z) (m : t) : t :=
  mk (enabled_ m) (inbound_enabled_ m) (outbound_enabled_ m)
     (duplication_rate_ m) (clampZ count 1 5).

Definition SetEnabled (enabled : bool) (m : t) : t :=
  mk enabled (inbound_enabled_ m) (outbound_enabled_ m)
     (duplication_rate_ m) (duplicate_count_ m).

Definition IsEnabled (m : t) : bool := enabled_ m.

Definition SetInboundEnabled (enabled : bool) (m : t) : t :=
  mk (enabled_ m) enabled (outbound_enabled_ m)
     (duplication_rate_ m) (duplicate_count_ m).

Definition SetOutboundEnabled (enabled : bool) (m : t) : t :=
  mk (enabled_ m) (inbound_enabled_ m) enabled
     (duplication_rate_ m) (duplicate_count_ m).

Definition ShouldProcess (m : t) (a : WINDIVERT_ADDRESS) : bool :=
  if Outbound a && negb (outbound_enabled_ m) then false
  else if negb (Outbound a) && negb (inbound_enabled_ m) then false
  else true.

Definition ShouldDuplicate (m : t) (r : RandomUtils.t) : bool * RandomUtils.t :=
  if Qle_bool (duplication_rate_ m) 0 then (false, r)
  else if Qle_bool 100 (duplication_rate_ m) then (true, r)
  else let (x, r') := RandomUtils.GetPercentage r in
       (negb (Qle_bool (duplication_rate_ m) x), r').

(** [for (i = 0; i < count; ++i) output.push_back(copy of output.back())] *)
Fixpoint push_duplicates (count : nat) (output_packets : packets) : packets :=
  match count with
  | O => output_packets
  | S c => push_duplicates c (output_packets ++ [back output_packets])
  end.

(** The loop over the batch, with the output vector built so far. *)
Fixpoint fan_out (m : t) (batch : packets) (output_packets : packets)
    (r : RandomUtils.t) : packets * RandomUtils.t :=
  match batch with
  | [] => (output_packets, r)
  | packet :: rest =>
      let output1 := output_packets ++ [packet] in
      if ShouldProcess m (addr (back output1)) then
        let (dup, r1) := ShouldDuplicate m r in
        if dup then
          fan_out m rest
            (push_duplicates (Z.to_nat (duplicate_count_ m)) output1) r1
        else fan_out m rest output1 r1
      else fan_out m rest output1 r
  end.

Definition ProcessBatch (m : t) (batch : packets) (r : RandomUtils.t)
    : packets * RandomUtils.t :=
  if negb (enabled_ m) then (batch, r) else fan_out m batch [] r.

Definition GetReleasablePackets (m : t) : packets := [].

(** The calls that can be made on the module, with what they take. *)
Inductive operation :=
| OpSetDuplicationRate (duplication_percentage : Q)
| OpSetDuplicateCount (count : Z)
| OpSetEnabled (enabled : bool)
| OpSetInboundEnabled (enabled : bool)
| OpSetOutboundEnabled (enabled : bool).

Definition apply (m : t) (op : operation) : t :=
  match op with
  | OpSetDuplicationRate v => SetDuplicationRate v m
  | OpSetDuplicateCount n => SetDuplicateCount n m
  | OpSetEnabled b => SetEnabled b m
  | OpSetInboundEnabled b => SetInboundEnabled b m
  | OpSetOutboundEnabled b => SetOutboundEnabled b m
  end.

End DuplicateModule.

(** ** out_of_order_module.cpp *)

Module OutOfOrderModule.

Record t := mk {
  enabled_ : bool;
  inbound_enabled_ : bool;
  outbound_enabled_ : bool;
  reorder_rate_ : Q;
  reorder_gap_ : Z;
  packet_buffer_ : packets
}.

Definition init : t := mk false true true 0%Q 3 [].

Definition with_buffer (m : t) (b : packets) : t :=
  mk (enabled_ m) (inbound_enabled_ m) (outbound_enabled_ m)
     (reorder_rate_ m) (reorder_gap_ m) b.

Definition SetReorderRate (reorder_percentage : Q) (m : t) : t :=
  mk (enabled_ m) (inbound_enabled_ m) (outbound_enabled_ m)
     (clampQ reorder_percentage 0 100) (reorder_gap_ m) (packet_buffer_ m).

Definition SetReorderGap (gap : Z) (m : t) : t :=
  mk (enabled_ m) (inbound_enabled_ m) (outbound_enabled_ m)
     (reorder_rate_ m) (clampZ gap 2 10) (packet_buffer_ m).

Definition SetEnabled (enabled : bool) (m : t) : t :=
  mk enabled (inbound_enabled_ m) (outbound_enabled_ m)
     (reorder_rate_ m) (reorder_gap_ m) (packet_buffer_ m).

Definition IsEnabled (m : t) : bool := enabled_ m.

Definition SetInboundEnabled (enabled : bool) (m : t) : t :=
  mk (enabled_ m) enabled (outbound_enabled_ m)
     (reorder_rate_ m) (reorder_gap_ m) (packet_buffer_ m).

Definition SetOutboundEnabled (enabled : bool) (m : t) : t :=
  mk (enabled_ m) (inbound_enabled_ m) enabled
     (reorder_rate_ m) (reorder_gap_ m) (packet_buffer_ m).

Definition ShouldProcess (m : t) (a : WINDIVERT_ADDRESS) : bool :=
  if Outbound a && negb (outbound_enabled_ m) then false
  else if negb (Outbound a) && negb (inbound_enabled_ m) then false
  else true.

Definition ShouldReorder (m : t) (r : RandomUtils.t) : bool * RandomUtils.t :=
  if Qle_bool (reorder_rate_ m) 0 then (false, r)
  else if Qle_bool 100 (reorder_rate_ m) then (true, r)
  else let (x, r') := RandomUtils.GetPercentage r in
       (negb (Qle_bool (reorder_rate_ m) x), r').

Definition ShuffleBuffer (buffer : packets) (r : RandomUtils.t)
    : packets * RandomUtils.t :=
  if (length buffer <=? 1)%nat then (buffer, r)
  else RandomUtils.shuffle buffer r.

(** "Add new packets to buffer": both arms of the test on
    [ShouldProcess] push the packet onto the buffer. *)
Fixpoint add_to_buffer (m : t) (batch : packets) (buffer : packets) : packets :=
  match batch with
  | [] => buffer
  | packet :: rest =>
      if ShouldProcess m (addr packet)
      then add_to_buffer m rest (buffer ++ [packet])
      else add_to_buffer m rest (buffer ++ [packet])
  end.

(** [for (i = 0; i < release_count && !buffer.empty(); ++i)]: move the
    front of the buffer to the output.  Returns the output and what
    stays in the buffer. *)
Fixpoint move_to_output (release_count : Z) (buffer : packets) : packets * packets :=
  match buffer with
  | [] => ([], [])
  | front :: rest =>
      if 0 <? release_count then
        let (out, remaining) := move_to_output (release_count - 1) rest in
        (front :: out, remaining)
      else ([], buffer)
  end.

(** [size_t] is 64 bits wide; the subtraction wraps. *)
Definition size_t_sub (a b : Z) : Z := (a - b) mod 2 ^ 64.

Definition ProcessBatch (m : t) (batch : packets) (r : RandomUtils.t)
    : packets * t * RandomUtils.t :=
  if negb (enabled_ m) then (batch, m, r)
  else
    let buffer := add_to_buffer m batch (packet_buffer_ m) in
    let gap := reorder_gap_ m in
    if gap <=? Z.of_nat (length buffer) then
      let release_count := size_t_sub (Z.of_nat (length buffer)) (gap / 2) in
      let (reorder, r1) := ShouldReorder m r in
      let (buffer1, r2) :=
        if reorder then ShuffleBuffer buffer r1 else (buffer, r1) in
      let (output_packets, remaining) := move_to_output release_count buffer1 in
      (output_packets, with_buffer m remaining, r2)
    else ([], with_buffer m buffer, r).

Definition GetReleasablePackets (m : t) : packets * t :=
  if negb (enabled_ m) then (packet_buffer_ m, with_buffer m [])
  else ([], m).

(** The calls that can be made on the module, with what they take. *)
Inductive operation :=
| OpSetReorderRate (reorder_percentage : Q)
| OpSetReorderGap (gap : Z)
| OpSetEnabled (enabled : bool)
| OpSetInboundEnabled (enabled : bool)
| OpSetOutboundEnabled (enabled : bool)
| OpProcessBatch (batch : packets) (r : RandomUtils.t)
| OpGetReleasablePackets.

Definition apply (m : t) (op : operation) : t :=
  match op with
  | OpSetReorderRate v => SetReorderRate v m
  | OpSetReorderGap gap => SetReorderGap gap m
  | OpSetEnabled b => SetEnabled b m
  | OpSetInboundEnabled b => SetInboundEnabled b m
  | OpSetOutboundEnabled b => SetOutboundEnabled b m
  | OpProcessBatch batch r => snd (fst (ProcessBatch m batch r))
  | OpGetReleasablePackets => snd (GetReleasablePackets m)
  end.

End OutOfOrderModule.

(** ** The release queue of the delaying modules

    [std::priority_queue<SimulatedPacket, std::vector<SimulatedPacket>, C>]
    with [C(a, b) = a.release_time > b.release_time]: [top()] is a packet of
    least release time.  The queue is kept as the list of its packets in
    the order [pop()] would deliver them; among equal release times (an
    order the container leaves open) the earlier push comes first. *)

Module PacketQueue.

Definition t := packets.

Definition empty (q : t) : bool :=
  match q with [] => true | _ => false end.

Fixpoint push (p : SimulatedPacket) (q : t) : t :=
  match q with
  | [] => [p]
  | x :: q' =>
      if release_time p <? release_time x then p :: q
      else x :: push p q'
  end.

Definition top (q : t) : SimulatedPacket := hd SimulatedPacket_default q.

Definition pop (q : t) : t := tl q.

(** Representation invariant: release times ascend along the list. *)
Fixpoint ascending (q : t) : Prop :=
  match q with
  | [] => True
  | x :: q' =>
      Forall (fun y => release_time x <= release_time y) q' /\ ascending q'
  end.

(** [while (!q.empty()) { out.push_back(q.top()); q.pop(); }] *)
Definition flush (q : t) : packets * t := (q, []).

(** [while (!q.empty() && q.top().release_time <= now)
      { out.push_back(q.top()); q.pop(); }] *)
Fixpoint release_due (now : time_point) (q : t) : packets * t :=
  match q with
  | [] => ([], [])
  | x :: q' =>
      if release_time x <=? now then
        let (out, remaining) := release_due now q' in (x :: out, remaining)
      else ([], q)
  end.

End PacketQueue.

(** ** jitter_module.cpp *)

Module JitterModule.

(** The module's own thread-local generator [rng_]: [uniform_int n lo hi]
    is the [n]-th value a [uniform_int_distribution<uint32_t>(lo, hi)]
    draws from it. *)
Record rng := mkRng {
  uniform_int : nat -> Z -> Z -> Z;
  draws : nat
}.

Record t := mk {
  enabled_ : bool;
  inbound_enabled_ : bool;
  outbound_enabled_ : bool;
  min_jitter_ms_ : Z;
  max_jitter_ms_ : Z;
  delayed_packets_ : PacketQueue.t
}.

Definition init : t := mk false true true 0 50 [].

Definition with_delayed (m : t) (q : PacketQueue.t) : t :=
  mk (enabled_ m) (inbound_enabled_ m) (outbound_enabled_ m)
     (min_jitter_ms_ m) (max_jitter_ms_ m) q.

Definition SetJitterRange (min_ms max_ms : Z) (m : t) : t :=
  mk (enabled_ m) (inbound_enabled_ m) (outbound_enabled_ m)
     (Z.min min_ms max_ms) (Z.max min_ms max_ms) (delayed_packets_ m).

Definition SetEnabled (enabled : bool) (m : t) : t :=
  mk enabled (inbound_enabled_ m) (outbound_enabled_ m)
     (min_jitter_ms_ m) (max_jitter_ms_ m) (delayed_packets_ m).

Definition IsEnabled (m : t) : bool := enabled_ m.

Definition SetInboundEnabled (enabled : bool) (m : t) : t :=
  mk (enabled_ m) enabled (outbound_enabled_ m)
     (min_jitter_ms_ m) (max_jitter_ms_ m) (delayed_packets_ m).

Definition SetOutboundEnabled (enabled : bool) (m : t) : t :=
  mk (enabled_ m) (inbound_enabled_ m) enabled
     (min_jitter_ms_ m) (max_jitter_ms_ m) (delayed_packets_ m).

Definition ShouldProcess (m : t) (a : WINDIVERT_ADDRESS) : bool :=
  if Outbound a && negb (outbound_enabled_ m) then false
  else if negb (Outbound a) && negb (inbound_enabled_ m) then false
  else true.

Definition GenerateJitter (m : t) (g : rng) : Z * rng :=
  if min_jitter_ms_ m =? max_jitter_ms_ m then (min_jitter_ms_ m, g)
  else (uniform_int g (draws g) (min_jitter_ms_ m) (max_jitter_ms_ m),
        mkRng (uniform_int g) (S (draws g))).

(** The loop over the batch: returns the immediate packets, the release
    queue and the generator. *)
Fixpoint delay_loop (current_time : time_point) (m : t) (batch : packets)
    (q : PacketQueue.t) (g : rng) : packets * PacketQueue.t * rng :=
  match batch with
  | [] => ([], q, g)
  | packet :: rest =>
      if ShouldProcess m (addr packet) then
        let (jitter_ms, g1) := GenerateJitter m g in
        let packet' :=
          set_release_time (current_time + milliseconds jitter_ms) packet in
        delay_loop current_time m rest (PacketQueue.push packet' q) g1
      else
        match delay_loop current_time m rest q g with
        | (immediate_packets, q', g') => (packet :: immediate_packets, q', g')
        end
  end.

Definition ProcessBatch (now : time_point) (m : t) (batch : packets) (g : rng)
    : packets * t * rng :=
  if negb (enabled_ m) then (batch, m, g)
  else
    match delay_loop now m batch (delayed_packets_ m) g with
    | (immediate_packets, q, g') => (immediate_packets, with_delayed m q, g')
    end.

Definition GetReleasablePackets (now : time_point) (m : t) : packets * t :=
  if negb (enabled_ m) then
    let (ready_packets, q) := PacketQueue.flush (delayed_packets_ m) in
    (ready_packets, with_delayed m q)
  else
    let (ready_packets, q) := PacketQueue.release_due now (delayed_packets_ m) in
    (ready_packets, with_delayed m q).

(** The contract of [std::uniform_int_distribution<uint32_t>(lo, hi)]:
    for [lo <= hi] every draw lies between the two. *)
Definition draws_in_range (g : rng) : Prop :=
  forall n lo hi, lo <= hi -> lo <= uniform_int g n lo hi <= hi.

(** The calls that can be made on the module, with what they take. *)
Inductive operation :=
| OpSetJitterRange (min_ms max_ms : Z)
| OpSetEnabled (enabled : bool)
| OpSetInboundEnabled (enabled : bool)
| OpSetOutboundEnabled (enabled : bool)
| OpProcessBatch (now : time_point) (batch : packets) (g : rng)
| OpGetReleasablePackets (now : time_point).

Definition apply (m : t) (op : operation) : t :=
  match op with
  | OpSetJitterRange lo hi => SetJitterRange lo hi m
  | OpSetEnabled b => SetEnabled b m
  | OpSetInboundEnabled b => SetInboundEnabled b m
  | OpSetOutboundEnabled b => SetOutboundEnabled b m
  | OpProcessBatch now batch g => snd (fst (ProcessBatch now m batch g))
  | OpGetReleasablePackets now => snd (GetReleasablePackets now m)
  end.

(** A packet the jitter loop queued at instant [now]: a packet of the
    batch that passes the gate, with a release time between [now] plus the
    least and [now] plus the greatest jitter. *)
Definition queued_at (now : time_point) (m : t) (batch : packets)
    (x : SimulatedPacket) : Prop :=
  exists p, In p batch /\ ShouldProcess m (addr p) = true
    /\ x = set_release_time (release_time x) p
    /\ now + milliseconds (min_jitter_ms_ m) <= release_time x
       <= now + milliseconds (max_jitter_ms_ m).

End JitterModule.

(** ** latency_module.cpp *)

Module LatencyModule.

(** [latency_] holds a count of milliseconds. *)
Record t := mk {
  enabled_ : bool;
  inbound_enabled_ : bool;
  outbound_enabled_ : bool;
  latency_ : Z;
  delayed_packets_ : PacketQueue.t
}.

Definition init : t := mk false true true 0 [].

Definition with_delayed (m : t) (q : PacketQueue.t) : t :=
  mk (enabled_ m) (inbound_enabled_ m) (outbound_enabled_ m) (latency_ m) q.

Definition SetLatency (latency_ms : Z) (m : t) : t :=
  mk (enabled_ m) (inbound_enabled_ m) (outbound_enabled_ m)
     latency_ms (delayed_packets_ m).

Definition GetLatency (m : t) : Z := latency_ m mod 2 ^ 32.

Definition SetEnabled (enabled : bool) (m : t) : t :=
  mk enabled (inbound_enabled_ m) (outbound_enabled_ m)
     (latency_ m) (delayed_packets_ m).

Definition IsEnabled (m : t) : bool := enabled_ m.

Definition SetInboundEnabled (enabled : bool) (m : t) : t :=
  mk (enabled_ m) enabled (outbound_enabled_ m)
     (latency_ m) (delayed_packets_ m).

Definition SetOutboundEnabled (enabled : bool) (m : t) : t :=
  mk (enabled_ m) (inbound_enabled_ m) enabled
     (latency_ m) (delayed_packets_ m).

Definition ShouldProcess (m : t) (a : WINDIVERT_ADDRESS) : bool :=
  if Outbound a && negb (outbound_enabled_ m) then false
  else if negb (Outbound a) && negb (inbound_enabled_ m) then false
  else true.

(** The loop over the batch: returns the immediate packets and the
    release queue. *)
Fixpoint delay_loop (current_time : time_point) (m : t) (batch : packets)
    (q : PacketQueue.t) : packets * PacketQueue.t :=
  match batch with
  | [] => ([], q)
  | packet :: rest =>
      let should_delay := ShouldProcess m (addr packet) in
      if should_delay then
        let packet' :=
          set_release_time (current_time + milliseconds (latency_ m)) packet in
        delay_loop current_time m rest (PacketQueue.push packet' q)
      else
        let (immediate_packets, q') := delay_loop current_time m rest q in
        (packet :: immediate_packets, q')
  end.

Definition ProcessBatch (now : time_point) (m : t) (batch : packets)
    : packets * t :=
  if negb (enabled_ m) then (batch, m)
  else
    let (immediate_packets, q) := delay_loop now m batch (delayed_packets_ m) in
    (immediate_packets, with_delayed m q).

Definition GetReleasablePackets (now : time_point) (m : t) : packets * t :=
  if negb (enabled_ m) then
    let (ready_packets, q) := PacketQueue.flush (delayed_packets_ m) in
    (ready_packets, with_delayed m q)
  else
    let (ready_packets, q) := PacketQueue.release_due now (delayed_packets_ m) in
    (ready_packets, with_delayed m q).

(** A history of calls on the module, each with the instant it reads
    from the clock. *)
Inductive call :=
| ProcessBatch_at (now : time_point) (batch : packets)
| GetReleasablePackets_at (now : time_point).

Definition perform (m : t) (c : call) : packets * t :=
  match c with
  | ProcessBatch_at now batch => ProcessBatch now m batch
  | GetReleasablePackets_at now => GetReleasablePackets now m
  end.

(** Runs the calls in order; returns each call with what it returned,
    and the module afterwards. *)
Fixpoint run (m : t) (calls : list call) : list (call * packets) * t :=
  match calls with
  | [] => ([], m)
  | c :: rest =>
      let (out, m1) := perform m c in
      let (trace, m2) := run m1 rest in
      ((c, out) :: trace, m2)
  end.

Definition is_release (c : call) : bool :=
  match c with GetReleasablePackets_at _ => true | _ => false end.

Definition instant_of (c : call) : time_point :=
  match c with
  | ProcessBatch_at now _ => now
  | GetReleasablePackets_at now => now
  end.

(** The calls that can be made on the module, with what they take. *)
Inductive operation :=
| OpSetLatency (latency_ms : Z)
| OpSetEnabled (enabled : bool)
| OpSetInboundEnabled (enabled : bool)
| OpSetOutboundEnabled (enabled : bool)
| OpProcessBatch (now : time_point) (batch : packets)
| OpGetReleasablePackets (now : time_point).

Definition apply (m : t) (op : operation) : t :=
  match op with
  | OpSetLatency d => SetLatency d m
  | OpSetEnabled b => SetEnabled b m
  | OpSetInboundEnabled b => SetInboundEnabled b m
  | OpSetOutboundEnabled b => SetOutboundEnabled b m
  | OpProcessBatch now batch => snd (ProcessBatch now m batch)
  | OpGetReleasablePackets now => snd (GetReleasablePackets now m)
  end.

End LatencyModule.

(** The packet [p] as the latency loop queues it at instant [now]. *)
Definition latency_stamp (now : time_point) (m : LatencyModule.t)
    (p : SimulatedPacket) : SimulatedPacket :=
  set_release_time (now + milliseconds (LatencyModule.latency_ m)) p.

(** ** bandwidth_module.cpp *)

Module BandwidthModule.

Record t := mk {
  enabled_ : bool;
  inbound_enabled_ : bool;
  outbound_enabled_ : bool;
  bandwidth_kbps_ : Z;
  last_refill_time_ : time_point;
  available_bytes_ : Q;
  max_burst_bytes_ : Q;
  packet_queue_ : packets
}.

(** The constructor reads the clock. *)
Definition init (now : time_point) : t :=
  mk false true true 1000 now 0%Q 125000%Q [].

Definition with_queue (m : t) (q : packets) : t :=
  mk (enabled_ m) (inbound_enabled_ m) (outbound_enabled_ m)
     (bandwidth_kbps_ m) (last_refill_time_ m) (available_bytes_ m)
     (max_burst_bytes_ m) q.

Definition with_available (m : t) (a : Q) : t :=
  mk (enabled_ m) (inbound_enabled_ m) (outbound_enabled_ m)
     (bandwidth_kbps_ m) (last_refill_time_ m) a
     (max_burst_bytes_ m) (packet_queue_ m).

Definition SetBandwidthLimit (kbps : Z) (m : t) : t :=
  mk (enabled_ m) (inbound_enabled_ m) (outbound_enabled_ m)
     kbps (last_refill_time_ m) (available_bytes_ m)
     ((inject_Z kbps * 1000) / 8)%Q (packet_queue_ m).

Definition GetBandwidthLimit (m : t) : Z := bandwidth_kbps_ m.

Definition SetEnabled (now : time_point) (enabled : bool) (m : t) : t :=
  if enabled then
    mk enabled (inbound_enabled_ m) (outbound_enabled_ m)
       (bandwidth_kbps_ m) now (max_burst_bytes_ m / 2)%Q
       (max_burst_bytes_ m) (packet_queue_ m)
  else
    mk enabled (inbound_enabled_ m) (outbound_enabled_ m)
       (bandwidth_kbps_ m) (last_refill_time_ m) (available_bytes_ m)
       (max_burst_bytes_ m) (packet_queue_ m).

Definition IsEnabled (m : t) : bool := enabled_ m.

Definition SetInboundEnabled (enabled : bool) (m : t) : t :=
  mk (enabled_ m) enabled (outbound_enabled_ m)
     (bandwidth_kbps_ m) (last_refill_time_ m) (available_bytes_ m)
     (max_burst_bytes_ m) (packet_queue_ m).

Definition SetOutboundEnabled (enabled : bool) (m : t) : t :=
  mk (enabled_ m) (inbound_enabled_ m) enabled
     (bandwidth_kbps_ m) (last_refill_time_ m) (available_bytes_ m)
     (max_burst_bytes_ m) (packet_queue_ m).

Definition ShouldProcess (m : t) (a : WINDIVERT_ADDRESS) : bool :=
  if Outbound a && negb (outbound_enabled_ m) then false
  else if negb (Outbound a) && negb (inbound_enabled_ m) then false
  else true.

(** [std::min(a, b)] *)
Definition std_min (a b : Q) : Q := if Qlt_le_dec b a then b else a.

(** [std::chrono::duration<double>(elapsed).count()] *)
Definition elapsed_seconds (last now : time_point) : Q :=
  (inject_Z (now - last) / 1000000000)%Q.

Definition bytes_per_second (m : t) : Q :=
  ((inject_Z (bandwidth_kbps_ m) * 1000) / 8)%Q.

Definition bytes_to_add (now : time_point) (m : t) : Q :=
  (bytes_per_second m * elapsed_seconds (last_refill_time_ m) now)%Q.

Definition RefillTokenBucket (now : time_point) (m : t) : t :=
  mk (enabled_ m) (inbound_enabled_ m) (outbound_enabled_ m)
     (bandwidth_kbps_ m) now
     (std_min (available_bytes_ m + bytes_to_add now m) (max_burst_bytes_ m))
     (max_burst_bytes_ m) (packet_queue_ m).

Definition packet_size (p : SimulatedPacket) : Q :=
  inject_Z (Z.of_nat (length (data p))).

Definition ConsumeTokens (bytes : Q) (available : Q) : bool * Q :=
  if Qle_bool bytes available then (true, (available - bytes)%Q)
  else (false, available).

(** "Add new packets to queue": returns the packets sent on at once and
    the queue. *)
Fixpoint add_to_queue (m : t) (batch : packets) (q : packets) : packets * packets :=
  match batch with
  | [] => ([], q)
  | packet :: rest =>
      if ShouldProcess m (addr packet) then add_to_queue m rest (q ++ [packet])
      else
        let (output_packets, q') := add_to_queue m rest q in
        (packet :: output_packets, q')
  end.

(** [while (!queue.empty()) { if (ConsumeTokens(front.size)) pop else break }]:
    returns the packets released, the tokens that remain and the queue
    that remains. *)
Fixpoint process_queue (available : Q) (q : packets) : packets * Q * packets :=
  match q with
  | [] => ([], available, [])
  | front_packet :: rest =>
      let (ok, available') := ConsumeTokens (packet_size front_packet) available in
      if ok then
        match process_queue available' rest with
        | (out, a, remaining) => (front_packet :: out, a, remaining)
        end
      else ([], available, q)
  end.

Definition ProcessBatch (now : time_point) (m : t) (batch : packets)
    : packets * t :=
  if negb (enabled_ m) then (batch, m)
  else
    let m1 := RefillTokenBucket now m in
    let (passed, q) := add_to_queue m1 batch (packet_queue_ m1) in
    match process_queue (available_bytes_ m1) q with
    | (released, a, remaining) =>
        (passed ++ released, with_queue (with_available m1 a) remaining)
    end.

Definition GetReleasablePackets (now : time_point) (m : t) : packets * t :=
  if negb (enabled_ m) then (packet_queue_ m, with_queue m [])
  else
    let m1 := RefillTokenBucket now m in
    match process_queue (available_bytes_ m1) (packet_queue_ m1) with
    | (released, a, remaining) =>
        (released, with_queue (with_available m1 a) remaining)
    end.

(** A history of calls on the module, each with the instant it reads
    from the clock. *)
Inductive call :=
| ProcessBatch_at (now : time_point) (batch : packets)
| GetReleasablePackets_at (now : time_point).

Definition perform (m : t) (c : call) : packets * t :=
  match c with
  | ProcessBatch_at now batch => ProcessBatch now m batch
  | GetReleasablePackets_at now => GetReleasablePackets now m
  end.

Definition instant_of (c : call) : time_point :=
  match c with
  | ProcessBatch_at now _ => now
  | GetReleasablePackets_at now => now
  end.

(** Runs the calls in order; returns each call with what it returned,
    and the module afterwards. *)
Fixpoint run (m : t) (calls : list call) : list (call * packets) * t :=
  match calls with
  | [] => ([], m)
  | c :: rest =>
      let (out, m1) := perform m c in
      let (trace, m2) := run m1 rest in
      ((c, out) :: trace, m2)
  end.

(** The calls read a clock that does not run backwards, all of them
    between [from] and [until]. *)
Fixpoint chronological (from until : time_point) (calls : list call) : Prop :=
  match calls with
  | [] => from <= until
  | c :: rest => from <= instant_of c /\ chronological (instant_of c) until rest
  end.

(** Bytes of all the packets the calls of a history returned. *)
Definition emitted_bytes (trace : list (call * packets)) : Z :=
  fold_right (fun co acc => total_bytes (snd co) + acc) 0 trace.

(** Bytes of the packets handed to [ProcessBatch] that the direction
    gate of [m] turns away. *)
Definition gated_out_bytes (m : t) (calls : list call) : Z :=
  fold_right
    (fun c acc =>
       match c with
       | ProcessBatch_at _ batch =>
           total_bytes (filter (fun p => negb (ShouldProcess m (addr p))) batch) + acc
       | GetReleasablePackets_at _ => acc
       end) 0 calls.

(** The bounds on the bucket and the tie between burst and rate. *)
Definition tokens_in_range (m : t) : Prop :=
  (0 <= available_bytes_ m)%Q /\ (available_bytes_ m <= max_burst_bytes_ m)%Q.

Definition burst_is_one_second (m : t) : Prop :=
  0 <= bandwidth_kbps_ m
  /\ (max_burst_bytes_ m == inject_Z (bandwidth_kbps_ m) * 125)%Q.

(** The operations that read or write the bucket. *)
Inductive operation :=
| OpSetBandwidthLimit (kbps : Z)
| OpSetEnabled (now : time_point) (enabled : bool)
| OpProcessBatch (now : time_point) (batch : packets)
| OpGetReleasablePackets (now : time_point)
| OpRefillTokenBucket (now : time_point).

Definition apply (op : operation) (m : t) : t :=
  match op with
  | OpSetBandwidthLimit kbps => SetBandwidthLimit kbps m
  | OpSetEnabled now enabled => SetEnabled now enabled m
  | OpProcessBatch now batch => snd (ProcessBatch now m batch)
  | OpGetReleasablePackets now => snd (GetReleasablePackets now m)
  | OpRefillTokenBucket now => RefillTokenBucket now m
  end.




(** The packets of a call's batch that the direction gate of [m] turns
    away, and those of a history that it lets into the queue, in the
    order they were handed in. *)
Definition bypassing (m : t) (c : call) : packets :=
  match c with
  | ProcessBatch_at _ batch => filter (fun p => negb (ShouldProcess m (addr p))) batch
  | GetReleasablePackets_at _ => []
  end.

Definition gated_in (m : t) (calls : list call) : packets :=
  flat_map
    (fun c =>
       match c with
       | ProcessBatch_at _ batch => filter (fun p => ShouldProcess m (addr p)) batch
       | GetReleasablePackets_at _ => []
       end) calls.

(** A history on a module that stays enabled at one rate: the two batch
    calls and the setters that can be called meanwhile. *)
Inductive step :=
| Batch_call (c : call)
| SetEnabled_at (now : time_point) (enabled : bool)
| SetBandwidthLimit_to (kbps : Z)
| SetInboundEnabled_to (enabled : bool)
| SetOutboundEnabled_to (enabled : bool).

Definition perform_step (m : t) (s : step) : packets * t :=
  match s with
  | Batch_call c => perform m c
  | SetEnabled_at now enabled => ([], SetEnabled now enabled m)
  | SetBandwidthLimit_to kbps => ([], SetBandwidthLimit kbps m)
  | SetInboundEnabled_to enabled => ([], SetInboundEnabled enabled m)
  | SetOutboundEnabled_to enabled => ([], SetOutboundEnabled enabled m)
  end.

(** Runs the steps in order; returns each step with what it returned,
    and the module afterwards. *)
Fixpoint run_steps (m : t) (steps : list step) : list (step * packets) * t :=
  match steps with
  | [] => ([], m)
  | s :: rest =>
      let (out, m1) := perform_step m s in
      let (trace, m2) := run_steps m1 rest in
      ((s, out) :: trace, m2)
  end.

(** Bytes of all the packets the steps of a history returned. *)
Definition emitted_by_steps (trace : list (step * packets)) : Z :=
  fold_right (fun so acc => total_bytes (snd so) + acc) 0 trace.

(** Bytes of the packets handed to [ProcessBatch] that failed the
    direction gate as it stood at that call. *)
Fixpoint bypassed_bytes (m : t) (steps : list step) : Z :=
  match steps with
  | [] => 0
  | s :: rest =>
      match s with
      | Batch_call c => total_bytes (bypassing m c)
      | _ => 0
      end + bypassed_bytes (snd (perform_step m s)) rest
  end.

(** The number of [SetEnabled(true)] calls, each of which reseeds the
    bucket. *)
Definition reseeds (steps : list step) : nat :=
  length (filter (fun s => match s with
                           | SetEnabled_at _ true => true
                           | _ => false
                           end) steps).

(** The instant a step reads from the clock, if it reads it. *)
Definition instant_of_step (s : step) : option time_point :=
  match s with
  | Batch_call c => Some (instant_of c)
  | SetEnabled_at now _ => Some now
  | _ => None
  end.

(** The steps read a clock that does not run backwards, all of them
    between [from] and [until]. *)
Fixpoint chronological_steps (from until : time_point) (steps : list step) : Prop :=
  match steps with
  | [] => from <= until
  | s :: rest =>
      match instant_of_step s with
      | Some now => from <= now /\ chronological_steps now until rest
      | None => chronological_steps from until rest
      end
  end.

(** The step leaves the stage enabled and the rate at [R]. *)
Definition keeps_rate (R : Z) (s : step) : Prop :=
  match s with
  | SetEnabled_at _ enabled => enabled = true
  | SetBandwidthLimit_to kbps => kbps = R
  | _ => True
  end.

End BandwidthModule.

(** ** network_capture.cpp *)

Module NetworkCapture.

(** The modules the dispatcher owns and its two flags.  The diverter
    handle, the observation ring and the counters play no part in what
    follows. *)
Record t := mk {
  is_capturing_ : bool;
  should_stop_ : bool;
  latency_module_ : LatencyModule.t;
  packet_loss_module_ : PacketLossModule.t;
  duplicate_module_ : DuplicateModule.t;
  out_of_order_module_ : OutOfOrderModule.t;
  jitter_module_ : JitterModule.t;
  bandwidth_module_ : BandwidthModule.t
}.

Definition init (now : time_point) : t :=
  mk false false LatencyModule.init PacketLossModule.init DuplicateModule.init
     OutOfOrderModule.init JitterModule.init (BandwidthModule.init now).

(** The generators of the thread that runs a capture worker. *)
Record generators := mkGen {
  utils : RandomUtils.t;
  jitter_rng : JitterModule.rng
}.

(** The instants the three clock-reading modules see during one batch. *)
Record instants := mkInstants {
  at_jitter : time_point;
  at_bandwidth : time_point;
  at_latency : time_point
}.

Definition with_out_of_order (c : t) (m : OutOfOrderModule.t) : t :=
  mk (is_capturing_ c) (should_stop_ c) (latency_module_ c)
     (packet_loss_module_ c) (duplicate_module_ c) m (jitter_module_ c)
     (bandwidth_module_ c).

Definition with_jitter (c : t) (m : JitterModule.t) : t :=
  mk (is_capturing_ c) (should_stop_ c) (latency_module_ c)
     (packet_loss_module_ c) (duplicate_module_ c) (out_of_order_module_ c) m
     (bandwidth_module_ c).

Definition with_bandwidth (c : t) (m : BandwidthModule.t) : t :=
  mk (is_capturing_ c) (should_stop_ c) (latency_module_ c)
     (packet_loss_module_ c) (duplicate_module_ c) (out_of_order_module_ c)
     (jitter_module_ c) m.

Definition with_latency (c : t) (m : LatencyModule.t) : t :=
  mk (is_capturing_ c) (should_stop_ c) m
     (packet_loss_module_ c) (duplicate_module_ c) (out_of_order_module_ c)
     (jitter_module_ c) (bandwidth_module_ c).

(** [CaptureThreadBatch], from "Apply simulation effects in order" down
    to the batch that is handed to [WinDivertSendEx]. *)
Definition apply_simulation_effects (clk : instants) (c : t)
    (sim_packets : packets) (g : generators) : packets * t * generators :=
  (* 1. Packet loss *)
  let '(sim1, r1) :=
    if PacketLossModule.IsEnabled (packet_loss_module_ c)
    then PacketLossModule.ProcessBatch (packet_loss_module_ c) sim_packets (utils g)
    else (sim_packets, utils g) in
  (* 2. Duplicate *)
  let '(sim2, r2) :=
    if DuplicateModule.IsEnabled (duplicate_module_ c)
    then DuplicateModule.ProcessBatch (duplicate_module_ c) sim1 r1
    else (sim1, r1) in
  (* 3. Out of order *)
  let '(sim3, ooo, r3) :=
    if OutOfOrderModule.IsEnabled (out_of_order_module_ c)
    then OutOfOrderModule.ProcessBatch (out_of_order_module_ c) sim2 r2
    else (sim2, out_of_order_module_ c, r2) in
  (* 4. Jitter *)
  let '(sim4, jit, j4) :=
    if JitterModule.IsEnabled (jitter_module_ c)
    then JitterModule.ProcessBatch (at_jitter clk) (jitter_module_ c) sim3 (jitter_rng g)
    else (sim3, jitter_module_ c, jitter_rng g) in
  (* 5. Bandwidth limiting *)
  let '(sim5, bw) :=
    if BandwidthModule.IsEnabled (bandwidth_module_ c)
    then BandwidthModule.ProcessBatch (at_bandwidth clk) (bandwidth_module_ c) sim4
    else (sim4, bandwidth_module_ c) in
  (* 6. Latency *)
  let '(sim6, lat) :=
    if LatencyModule.IsEnabled (latency_module_ c)
    then LatencyModule.ProcessBatch (at_latency clk) (latency_module_ c) sim5
    else (sim5, latency_module_ c) in
  (sim6,
   mk (is_capturing_ c) (should_stop_ c) lat (packet_loss_module_ c)
      (duplicate_module_ c) ooo jit bw,
   mkGen r3 j4).

(** [Stop], once the worker threads have been joined: the four calls
    under "Flush any remaining delayed packets", whose results are
    dropped, and the flags.  [clk] holds the instants the calls read. *)
Definition Stop (clk : instants) (c : t) : t :=
  if negb (is_capturing_ c) then c
  else
    let '(_, lat) :=
      LatencyModule.GetReleasablePackets (at_latency clk) (latency_module_ c) in
    let '(_, jit) :=
      JitterModule.GetReleasablePackets (at_jitter clk) (jitter_module_ c) in
    let '(_, bw) :=
      BandwidthModule.GetReleasablePackets (at_bandwidth clk) (bandwidth_module_ c) in
    let '(_, ooo) :=
      OutOfOrderModule.GetReleasablePackets (out_of_order_module_ c) in
    mk false true lat (packet_loss_module_ c) (duplicate_module_ c) ooo jit bw.

(** The packets held inside the modules. *)
Definition buffered (c : t) : packets :=
  OutOfOrderModule.packet_buffer_ (out_of_order_module_ c)
  ++ JitterModule.delayed_packets_ (jitter_module_ c)
  ++ LatencyModule.delayed_packets_ (latency_module_ c)
  ++ BandwidthModule.packet_queue_ (bandwidth_module_ c).

End NetworkCapture.

(** ** The pipeline in the words of the specification

    "run the batch through the enabled stages in the canonical order
    loss, duplicate, reorder, jitter, bandwidth, latency". *)

Module Pipeline.

Inductive stage := Loss | Duplicate | Reorder | Jitter | Bandwidth | Latency.

Definition canonical_order : list stage :=
  [Loss; Duplicate; Reorder; Jitter; Bandwidth; Latency].

Definition state : Type :=
  (packets * NetworkCapture.t * NetworkCapture.generators)%type.

Definition is_enabled (c : NetworkCapture.t) (s : stage) : bool :=
  match s with
  | Loss => PacketLossModule.enabled_ (NetworkCapture.packet_loss_module_ c)
  | Duplicate => DuplicateModule.enabled_ (NetworkCapture.duplicate_module_ c)
  | Reorder => OutOfOrderModule.enabled_ (NetworkCapture.out_of_order_module_ c)
  | Jitter => JitterModule.enabled_ (NetworkCapture.jitter_module_ c)
  | Bandwidth => BandwidthModule.enabled_ (NetworkCapture.bandwidth_module_ c)
  | Latency => LatencyModule.enabled_ (NetworkCapture.latency_module_ c)
  end.

(** One stage's [process_batch], acting on its own slot of the
    dispatcher and on the generator it draws from. *)
Definition process_batch (clk : NetworkCapture.instants) (s : stage)
    (st : state) : state :=
  let '(batch, c, g) := st in
  let r := NetworkCapture.utils g in
  let j := NetworkCapture.jitter_rng g in
  match s with
  | Loss =>
      let '(out, r') :=
        PacketLossModule.ProcessBatch (NetworkCapture.packet_loss_module_ c) batch r in
      (out, c, NetworkCapture.mkGen r' j)
  | Duplicate =>
      let '(out, r') :=
        DuplicateModule.ProcessBatch (NetworkCapture.duplicate_module_ c) batch r in
      (out, c, NetworkCapture.mkGen r' j)
  | Reorder =>
      let '(out, m, r') :=
        OutOfOrderModule.ProcessBatch (NetworkCapture.out_of_order_module_ c) batch r in
      (out, NetworkCapture.with_out_of_order c m, NetworkCapture.mkGen r' j)
  | Jitter =>
      let '(out, m, j') :=
        JitterModule.ProcessBatch (NetworkCapture.at_jitter clk)
          (NetworkCapture.jitter_module_ c) batch j in
      (out, NetworkCapture.with_jitter c m, NetworkCapture.mkGen r j')
  | Bandwidth =>
      let '(out, m) :=
        BandwidthModule.ProcessBatch (NetworkCapture.at_bandwidth clk)
          (NetworkCapture.bandwidth_module_ c) batch in
      (out, NetworkCapture.with_bandwidth c m, g)
  | Latency =>
      let '(out, m) :=
        LatencyModule.ProcessBatch (NetworkCapture.at_latency clk)
          (NetworkCapture.latency_module_ c) batch in
      (out, NetworkCapture.with_latency c m, g)
  end.

(** A disabled stage is skipped: the batch goes on as it is. *)
Definition step (clk : NetworkCapture.instants) (st : state) (s : stage) : state :=
  let '(_, c, _) := st in
  if is_enabled c s then process_batch clk s st else st.

Definition run (clk : NetworkCapture.instants) (order : list stage)
    (st : state) : state :=
  fold_left (step clk) order st.

End Pipeline.

(** ** Concrete packets, generators and module states

    Used to run the definitions on small inputs. *)

Module Sample.

Definition payload (n : nat) : list byte := repeat x00 n.

Definition inbound_packet (n : nat) (captured : time_point) : SimulatedPacket :=
  mkPacket (payload n) (mkAddr false false 1) captured 0.

Definition outbound_packet (n : nat) (captured : time_point) : SimulatedPacket :=
  mkPacket (payload n) (mkAddr true false 1) captured 0.

Definition five_packets : packets :=
  [inbound_packet 1 0; inbound_packet 2 0; inbound_packet 3 0;
   inbound_packet 4 0; inbound_packet 5 0].

(** A generator whose percentages are all 50 and whose shuffle reverses. *)
Definition utils : RandomUtils.t :=
  RandomUtils.mk (fun _ => 50%Q) 0 (fun _ v => rev v) 0.

(** A jitter generator that always draws the lower bound. *)
Definition jitter_rng : JitterModule.rng :=
  JitterModule.mkRng (fun _ lo _ => lo) 0.

Definition generators : NetworkCapture.generators :=
  NetworkCapture.mkGen utils jitter_rng.

Definition at_instant (now : time_point) : NetworkCapture.instants :=
  NetworkCapture.mkInstants now now now.

Definition loss (rate : Q) : PacketLossModule.t :=
  PacketLossModule.SetLossRate rate
    (PacketLossModule.SetEnabled true PacketLossModule.init).

Definition duplicate (copies : Z) : DuplicateModule.t :=
  DuplicateModule.SetDuplicateCount copies
    (DuplicateModule.SetDuplicationRate 100
       (DuplicateModule.SetEnabled true DuplicateModule.init)).

Definition reorder (rate : Q) (gap : Z) : OutOfOrderModule.t :=
  OutOfOrderModule.SetReorderGap gap
    (OutOfOrderModule.SetReorderRate rate
       (OutOfOrderModule.SetEnabled true OutOfOrderModule.init)).

Definition latency (delay_ms : Z) : LatencyModule.t :=
  LatencyModule.SetLatency delay_ms
    (LatencyModule.SetEnabled true LatencyModule.init).

Definition jitter (min_ms max_ms : Z) : JitterModule.t :=
  JitterModule.SetJitterRange min_ms max_ms
    (JitterModule.SetEnabled true JitterModule.init).

(** A bandwidth module constructed and enabled at instant 0. *)
Definition bandwidth (kbps : Z) : BandwidthModule.t :=
  BandwidthModule.SetEnabled 0 true
    (BandwidthModule.SetBandwidthLimit kbps (BandwidthModule.init 0)).

(** A bandwidth module at 1 kbps that shapes inbound traffic only. *)
Definition inbound_only_bandwidth : BandwidthModule.t :=
  BandwidthModule.SetOutboundEnabled false (bandwidth 1).


(** Fifty full-size packets are offered three times at instant 0, with
    [SetEnabled(true)] called again before the second and the third
    offer. *)
Definition fifty_packets : packets := repeat (inbound_packet 1500 0) 50.

Definition reseeding_steps : list BandwidthModule.step :=
  [BandwidthModule.Batch_call (BandwidthModule.ProcessBatch_at 0 fifty_packets);
   BandwidthModule.SetEnabled_at 0 true;
   BandwidthModule.Batch_call (BandwidthModule.ProcessBatch_at 0 fifty_packets);
   BandwidthModule.SetEnabled_at 0 true;
   BandwidthModule.Batch_call (BandwidthModule.ProcessBatch_at 0 fifty_packets)].

(** A reorder module with gap 3 that is told to leave inbound traffic
    alone. *)
Definition outbound_only_reorder : OutOfOrderModule.t :=
  OutOfOrderModule.SetInboundEnabled false (reorder 0 3).

(** A dispatcher that is capturing, with one second of latency enabled
    and every other module as constructed. *)
Definition capturing_with_latency : NetworkCapture.t :=
  NetworkCapture.mk true false (latency 1000) PacketLossModule.init
    DuplicateModule.init OutOfOrderModule.init JitterModule.init
    (BandwidthModule.init 0).

(** The same dispatcher after its worker has processed one packet at
    instant 0. *)
Definition capturing_after_one_packet : NetworkCapture.t :=
  snd (fst (NetworkCapture.apply_simulation_effects (at_instant 0)
              capturing_with_latency [inbound_packet 60 0] generators)).

End Sample.

(** ** network_capture.h, network_capture.cpp: what is recorded of a packet *)

Module Winsock.

(** [ntohs] and [ntohl] on the little-endian hosts WinDivert runs on:
    they reverse the bytes of their argument. *)
Definition ntohs (x : Z) : Z :=
  Z.lor (Z.shiftl (Z.land x 255) 8) (Z.land (Z.shiftr x 8) 255).

Definition ntohl (x : Z) : Z :=
  Z.lor (Z.lor (Z.shiftl (Z.land x 255) 24)
               (Z.shiftl (Z.land (Z.shiftr x 8) 255) 16))
        (Z.lor (Z.shiftl (Z.land (Z.shiftr x 16) 255) 8)
               (Z.land (Z.shiftr x 24) 255)).

(** The integer such a host reads from the bytes of a header field,
    lowest address first, and the four bytes [memcpy] copies out of a
    [uint32_t]. *)
Definition load (bytes : list Z) : Z :=
  fold_right (fun b acc => b + 256 * acc) 0 bytes.

Definition store32 (w : Z) : list Z :=
  [Z.land w 255; Z.land (Z.shiftr w 8) 255;
   Z.land (Z.shiftr w 16) 255; Z.land (Z.shiftr w 24) 255].

Definition octet (b : Z) : Prop := 0 <= b < 256.

End Winsock.

(** [std::variant<IPv4Address, IPv6Address>]; an [IPv6Address] holds four
    [uint32_t]. *)
Inductive IPAddress :=
| IPv4Address (addr : Z)
| IPv6Address (addr : list Z).

Module Display.

Import Stdlib.Strings.String.

(** [std::format("{}", n)] for an unsigned [n]. *)
Definition decimal (n : Z) : string :=
  DecimalString.NilZero.string_of_uint (N.to_uint (Z.to_N n)).

(** [IPv4Address::ToString] *)
Definition IPv4Address_ToString (addr : Z) : string :=
  decimal (Z.land (Z.shiftr addr 24) 255) ++ "." ++
  decimal (Z.land (Z.shiftr addr 16) 255) ++ "." ++
  decimal (Z.land (Z.shiftr addr 8) 255) ++ "." ++
  decimal (Z.land addr 255).

(** [std::memcpy(in6.s6_addr, addr.data(), sizeof(addr))]: the sixteen
    bytes handed to [inet_ntop]. *)
Definition s6_addr (addr : list Z) : list Z := flat_map Winsock.store32 addr.

(** [IPv6Address::ToString]; [inet_ntop] is the system's, [None] is its
    failure. *)
Definition IPv6Address_ToString (inet_ntop : list Z -> option string)
    (addr : list Z) : string :=
  match inet_ntop (s6_addr addr) with
  | Some buffer => buffer
  | None => "::"
  end.

(** Four numbers in dotted decimal. *)
Definition dotted_quad (a b c d : Z) : string :=
  decimal a ++ "." ++ decimal b ++ "." ++ decimal c ++ "." ++ decimal d.

Definition Already_capturing : string := "Already capturing".
Definition Failed_to_open (error : Z) : string :=
  "Failed to open WinDivert: " ++ decimal error.
Definition Failed_to_set_queue_length : string := "Failed to set queue length".
Definition Failed_to_set_queue_time : string := "Failed to set queue time".
Definition Failed_to_set_queue_size : string := "Failed to set queue size".
Definition WinDivertRecvEx_failed (error : Z) : string :=
  "WinDivertRecvEx failed: " ++ decimal error.
Definition Unknown_error : string := "Unknown error".

(** [s.empty()] *)
Definition empty (s : string) : bool :=
  match s with EmptyString => true | _ => false end.

End Display.

(** The header fields the repository reads, with the values the host
    reads from the packet's memory. *)
Record WINDIVERT_IPHDR := mkIPHDR {
  ip_Length : Z;
  ip_Protocol : Z;
  ip_SrcAddr : Z;
  ip_DstAddr : Z
}.

Record WINDIVERT_IPV6HDR := mkIPV6HDR {
  ipv6_Length : Z;
  ipv6_NextHdr : Z;
  ipv6_SrcAddr : list Z;
  ipv6_DstAddr : list Z
}.

Record WINDIVERT_TCPHDR := mkTCPHDR {
  tcp_SrcPort : Z;
  tcp_DstPort : Z
}.

Record WINDIVERT_UDPHDR := mkUDPHDR {
  udp_SrcPort : Z;
  udp_DstPort : Z
}.

(** The pointers [WinDivertHelperParsePacket] sets; [None] is [nullptr]. *)
Record parsed_headers := mkHeaders {
  ip_header : option WINDIVERT_IPHDR;
  ipv6_header : option WINDIVERT_IPV6HDR;
  tcp_header : option WINDIVERT_TCPHDR;
  udp_header : option WINDIVERT_UDPHDR
}.

(** [WinDivertHelperParsePacket] on the bytes it is given. *)
Definition WinDivertHelperParsePacket := list byte -> parsed_headers.

Record PacketInfo := mkInfo {
  src_addr : IPAddress;
  dst_addr : IPAddress;
  src_port : Z;
  dst_port : Z;
  protocol : Z;
  length_ : Z;
  info_timestamp : time_point;
  outbound : bool;
  loopback : bool;
  if_idx : Z;
  endpoint_id : Z;
  ip_version : Z
}.

(** [NetworkCapture::ParsePacket]; [now] is the instant it reads. *)
Definition ParsePacket (parse : WinDivertHelperParsePacket) (now : time_point)
    (packet_data : list byte) (a : WINDIVERT_ADDRESS) : PacketInfo :=
  let h := parse packet_data in
  let '(version, src, dst, proto) :=
    match ip_header h with
    | Some ip =>
        (4, IPv4Address (Winsock.ntohl (ip_SrcAddr ip)),
         IPv4Address (Winsock.ntohl (ip_DstAddr ip)), ip_Protocol ip)
    | None =>
        match ipv6_header h with
        | Some ip6 =>
            (6, IPv6Address (map Winsock.ntohl (ipv6_SrcAddr ip6)),
             IPv6Address (map Winsock.ntohl (ipv6_DstAddr ip6)), ipv6_NextHdr ip6)
        | None => (0, IPv4Address 0, IPv4Address 0, 0)
        end
    end in
  let '(sport, dport) :=
    match tcp_header h with
    | Some tcp => (Winsock.ntohs (tcp_SrcPort tcp), Winsock.ntohs (tcp_DstPort tcp))
    | None =>
        match udp_header h with
        | Some udp => (Winsock.ntohs (udp_SrcPort udp), Winsock.ntohs (udp_DstPort udp))
        | None => (0, 0)
        end
    end in
  mkInfo src dst sport dport proto (Z.of_nat (length packet_data) mod 2 ^ 32) now
         (Outbound a) (Loopback a) (IfIdx a) 0 version.

(** ** network_capture.cpp: the capture object *)

Module Capture.

Definition HANDLE := Z.

Record CaptureParameters := mkParams {
  queue_length : Z;
  queue_time : Z;
  queue_size : Z;
  batch_size : Z;
  worker_threads : Z;
  packet_buffer_size : Z;
  visual_packet_buffer : Z;
  ring_packet_buffer : Z;
  mtu_size : Z;
  max_packet_size : Z
}.

Definition CaptureParameters_default : CaptureParameters :=
  mkParams 8192 2000 4194304 10 1 16384 1000 1024 1500 65535.

(** The six [std::atomic<uint64_t>] counters. *)
Record statistics := mkStatistics {
  packets_captured_ : Z;
  packets_dropped_ : Z;
  packets_injected_ : Z;
  bytes_captured_ : Z;
  batch_count_ : Z;
  total_batch_packets_ : Z
}.

Definition fetch_add (x d : Z) : Z := (x + d) mod 2 ^ 64.

(** The members of [NetworkCapture].  [modules_] holds the two flags and
    the six modules; a [std::jthread] member is its [joinable()];
    [capture_threads_] is the size of the vector; [divert_handle_] is
    [None] for [INVALID_HANDLE_VALUE]. *)
Record t := mk {
  modules_ : NetworkCapture.t;
  capture_threads_ : Z;
  latency_thread_ : bool;
  jitter_thread_ : bool;
  bandwidth_thread_ : bool;
  divert_handle_ : option HANDLE;
  current_params_ : CaptureParameters;
  packets_ : list PacketInfo;
  max_packets_ : Z;
  statistics_ : statistics;
  last_error_ : String.string
}.

(** The constructor; [now] is the instant the bandwidth module reads. *)
Definition init (now : time_point) : t :=
  mk (NetworkCapture.init now) 0 false false false None
     CaptureParameters_default [] 1024 (mkStatistics 0 0 0 0 0 0)
     String.EmptyString.

Definition with_modules (c : t) (m : NetworkCapture.t) : t :=
  mk m (capture_threads_ c) (latency_thread_ c) (jitter_thread_ c)
     (bandwidth_thread_ c) (divert_handle_ c) (current_params_ c)
     (packets_ c) (max_packets_ c) (statistics_ c) (last_error_ c).

Definition with_statistics (c : t) (s : statistics) : t :=
  mk (modules_ c) (capture_threads_ c) (latency_thread_ c) (jitter_thread_ c)
     (bandwidth_thread_ c) (divert_handle_ c) (current_params_ c)
     (packets_ c) (max_packets_ c) s (last_error_ c).

Definition with_packets (c : t) (q : list PacketInfo) : t :=
  mk (modules_ c) (capture_threads_ c) (latency_thread_ c) (jitter_thread_ c)
     (bandwidth_thread_ c) (divert_handle_ c) (current_params_ c)
     q (max_packets_ c) (statistics_ c) (last_error_ c).

Definition with_threads (c : t) (latency jitter bandwidth : bool) : t :=
  mk (modules_ c) (capture_threads_ c) latency jitter bandwidth
     (divert_handle_ c) (current_params_ c)
     (packets_ c) (max_packets_ c) (statistics_ c) (last_error_ c).

Definition with_handle (c : t) (h : option HANDLE) : t :=
  mk (modules_ c) (capture_threads_ c) (latency_thread_ c) (jitter_thread_ c)
     (bandwidth_thread_ c) h (current_params_ c)
     (packets_ c) (max_packets_ c) (statistics_ c) (last_error_ c).

Definition IsCapturing (c : t) : bool := NetworkCapture.is_capturing_ (modules_ c).

(** [SetError] *)
Definition SetError (error : String.string) (c : t) : t :=
  mk (modules_ c) (capture_threads_ c) (latency_thread_ c) (jitter_thread_ c)
     (bandwidth_thread_ c) (divert_handle_ c) (current_params_ c)
     (packets_ c) (max_packets_ c) (statistics_ c) error.

(** [GetLastErrorMessage] *)
Definition GetLastErrorMessage (c : t) : option String.string :=
  if Display.empty (last_error_ c) then None else Some (last_error_ c).

(** [SetMaxPackets] *)
Definition SetMaxPackets (max : Z) (c : t) : t :=
  mk (modules_ c) (capture_threads_ c) (latency_thread_ c) (jitter_thread_ c)
     (bandwidth_thread_ c) (divert_handle_ c) (current_params_ c)
     (packets_ c) max (statistics_ c) (last_error_ c).

(** [GetPackets]: hands the ring out and clears it. *)
Definition GetPackets (c : t) : list PacketInfo * t :=
  (packets_ c, with_packets c []).

(** [GetStats]; the average is a [double], here an exact rational. *)
Definition avg_batch_size (c : t) : Q :=
  let total_packets := total_batch_packets_ (statistics_ c) in
  let batches := batch_count_ (statistics_ c) in
  if 0 <? batches then (inject_Z total_packets / inject_Z batches)%Q else 0%Q.

(** *** The answers of the driver *)

(** What the WinDivert calls of [Start] answer: a handle or the code
    [GetLastError] gives, and whether each [WinDivertSetParam] succeeds. *)
Record driver := mkDriver {
  WinDivertOpen : HANDLE + Z;
  set_QUEUE_LENGTH : bool;
  set_QUEUE_TIME : bool;
  set_QUEUE_SIZE : bool
}.

(** [Start]: the value it returns, [inl tt] for success, and the object
    afterwards. *)
Definition Start (env : driver) (params : CaptureParameters) (c : t)
    : (unit + String.string) * t :=
  if IsCapturing c then (inr Display.Already_capturing, c)
  else
    (* Store parameters *)
    let c1 :=
      mk (modules_ c) (capture_threads_ c) (latency_thread_ c) (jitter_thread_ c)
         (bandwidth_thread_ c) (divert_handle_ c) params
         (packets_ c) (ring_packet_buffer params) (statistics_ c) (last_error_ c) in
    match WinDivertOpen env with
    | inr error => (inr (Display.Failed_to_open error), with_handle c1 None)
    | inl h =>
        if negb (set_QUEUE_LENGTH env) then
          (inr Display.Failed_to_set_queue_length, with_handle c1 None)
        else if negb (set_QUEUE_TIME env) then
          (inr Display.Failed_to_set_queue_time, with_handle c1 None)
        else if negb (set_QUEUE_SIZE env) then
          (inr Display.Failed_to_set_queue_size, with_handle c1 None)
        else
          let m := modules_ c1 in
          (* Reset state, start capture threads *)
          let m1 :=
            NetworkCapture.mk true false
              (NetworkCapture.latency_module_ m) (NetworkCapture.packet_loss_module_ m)
              (NetworkCapture.duplicate_module_ m) (NetworkCapture.out_of_order_module_ m)
              (NetworkCapture.jitter_module_ m) (NetworkCapture.bandwidth_module_ m) in
          (inl tt,
           mk m1 (capture_threads_ c1 + worker_threads params)
              (if LatencyModule.IsEnabled (NetworkCapture.latency_module_ m)
               then true else latency_thread_ c1)
              (if JitterModule.IsEnabled (NetworkCapture.jitter_module_ m)
               then true else jitter_thread_ c1)
              (if BandwidthModule.IsEnabled (NetworkCapture.bandwidth_module_ m)
               then true else bandwidth_thread_ c1)
              (Some h) params (packets_ c1) (max_packets_ c1)
              (mkStatistics 0 0 0 0 0 0) (last_error_ c1))
    end.

(** [Stop], once the threads it joins have come to rest.  The four flush
    calls and the two flags are [NetworkCapture.Stop]. *)
Definition Stop (clk : NetworkCapture.instants) (c : t) : t :=
  if negb (IsCapturing c) then c
  else
    mk (NetworkCapture.Stop clk (modules_ c)) 0 false false false None
       (current_params_ c) (packets_ c) (max_packets_ c) (statistics_ c)
       (last_error_ c).

(** *** The control methods *)

Definition on_latency (f : LatencyModule.t -> LatencyModule.t) (c : t) : t :=
  with_modules c
    (NetworkCapture.with_latency (modules_ c)
       (f (NetworkCapture.latency_module_ (modules_ c)))).

Definition on_jitter (f : JitterModule.t -> JitterModule.t) (c : t) : t :=
  with_modules c
    (NetworkCapture.with_jitter (modules_ c)
       (f (NetworkCapture.jitter_module_ (modules_ c)))).

Definition on_bandwidth (f : BandwidthModule.t -> BandwidthModule.t) (c : t) : t :=
  with_modules c
    (NetworkCapture.with_bandwidth (modules_ c)
       (f (NetworkCapture.bandwidth_module_ (modules_ c)))).

Definition on_out_of_order (f : OutOfOrderModule.t -> OutOfOrderModule.t) (c : t) : t :=
  with_modules c
    (NetworkCapture.with_out_of_order (modules_ c)
       (f (NetworkCapture.out_of_order_module_ (modules_ c)))).

Definition on_packet_loss (f : PacketLossModule.t -> PacketLossModule.t) (c : t) : t :=
  let m := modules_ c in
  with_modules c
    (NetworkCapture.mk (NetworkCapture.is_capturing_ m) (NetworkCapture.should_stop_ m)
       (NetworkCapture.latency_module_ m) (f (NetworkCapture.packet_loss_module_ m))
       (NetworkCapture.duplicate_module_ m) (NetworkCapture.out_of_order_module_ m)
       (NetworkCapture.jitter_module_ m) (NetworkCapture.bandwidth_module_ m)).

Definition on_duplicate (f : DuplicateModule.t -> DuplicateModule.t) (c : t) : t :=
  let m := modules_ c in
  with_modules c
    (NetworkCapture.mk (NetworkCapture.is_capturing_ m) (NetworkCapture.should_stop_ m)
       (NetworkCapture.latency_module_ m) (NetworkCapture.packet_loss_module_ m)
       (f (NetworkCapture.duplicate_module_ m)) (NetworkCapture.out_of_order_module_ m)
       (NetworkCapture.jitter_module_ m) (NetworkCapture.bandwidth_module_ m)).

Definition SetLatencyEnabled (enabled : bool) (c : t) : t :=
  let c1 := on_latency (LatencyModule.SetEnabled enabled) c in
  if enabled && IsCapturing c1 && negb (latency_thread_ c1)
  then with_threads c1 true (jitter_thread_ c1) (bandwidth_thread_ c1)
  else c1.

Definition SetJitterEnabled (enabled : bool) (c : t) : t :=
  let c1 := on_jitter (JitterModule.SetEnabled enabled) c in
  if enabled && IsCapturing c1 && negb (jitter_thread_ c1)
  then with_threads c1 (latency_thread_ c1) true (bandwidth_thread_ c1)
  else c1.

(** [now] is the instant [BandwidthModule::SetEnabled] reads. *)
Definition SetBandwidthEnabled (now : time_point) (enabled : bool) (c : t) : t :=
  let c1 := on_bandwidth (BandwidthModule.SetEnabled now enabled) c in
  if enabled && IsCapturing c1 && negb (bandwidth_thread_ c1)
  then with_threads c1 (latency_thread_ c1) (jitter_thread_ c1) true
  else c1.

Definition SetPacketLossEnabled (enabled : bool) : t -> t :=
  on_packet_loss (PacketLossModule.SetEnabled enabled).

Definition SetDuplicateEnabled (enabled : bool) : t -> t :=
  on_duplicate (DuplicateModule.SetEnabled enabled).

Definition SetOutOfOrderEnabled (enabled : bool) : t -> t :=
  on_out_of_order (OutOfOrderModule.SetEnabled enabled).

(** *** One turn of a worker's loop *)

(** "Store packet info for monitoring": the block under [packets_mutex_]. *)
Definition store_packet_info (info : PacketInfo) (c : t) : t :=
  let pushed := packets_ c ++ [info] in
  if max_packets_ c <? Z.of_nat (length pushed) then
    let s := statistics_ c in
    with_statistics (with_packets c (tl pushed))
      (mkStatistics (packets_captured_ s) (fetch_add (packets_dropped_ s) 1)
         (packets_injected_ s) (bytes_captured_ s) (batch_count_ s)
         (total_batch_packets_ s))
  else with_packets c pushed.

(** "Update statistics" for one converted packet. *)
Definition count_captured (packet_len : Z) (c : t) : t :=
  let s := statistics_ c in
  with_statistics c
    (mkStatistics (fetch_add (packets_captured_ s) 1) (packets_dropped_ s)
       (packets_injected_ s) (fetch_add (bytes_captured_ s) packet_len)
       (batch_count_ s) (total_batch_packets_ s)).

(** "Update batch statistics". *)
Definition count_batch (num_packets : Z) (c : t) : t :=
  let s := statistics_ c in
  with_statistics c
    (mkStatistics (packets_captured_ s) (packets_dropped_ s)
       (packets_injected_ s) (bytes_captured_ s)
       (fetch_add (batch_count_ s) 1)
       (fetch_add (total_batch_packets_ s) num_packets)).

Definition count_injected (n : Z) (c : t) : t :=
  let s := statistics_ c in
  with_statistics c
    (mkStatistics (packets_captured_ s) (packets_dropped_ s)
       (fetch_add (packets_injected_ s) n) (bytes_captured_ s)
       (batch_count_ s) (total_batch_packets_ s)).

(** The length the loop reads off the headers. *)
Definition packet_len_of (h : parsed_headers) : Z :=
  match ip_header h with
  | Some ip => Winsock.ntohs (ip_Length ip)
  | None =>
      match ipv6_header h with
      | Some ip6 => Winsock.ntohs (ipv6_Length ip6) + 40
      | None => 0
      end
  end.

(** "Convert received packets to SimulatedPackets": the loop over the
    addresses [WinDivertRecvEx] filled in, [i] the index of the first,
    [packet_ptr] an offset into [packet_buffer].  [clock i] is the instant
    [ParsePacket] reads for packet [i].  Reads are within the buffer;
    what the code does beyond it is not modelled. *)
Fixpoint convert (parse : WinDivertHelperParsePacket) (clock : nat -> time_point)
    (current_time : time_point) (packet_buffer : list byte) (recv_len : Z)
    (addr_buffer : list WINDIVERT_ADDRESS) (i : nat)
    (packet_ptr : nat) (bytes_processed : Z) (c : t) : packets * t :=
  match addr_buffer with
  | [] => ([], c)
  | a :: rest =>
      let given := Z.to_nat ((recv_len - bytes_processed) mod 2 ^ 32) in
      let h := parse (firstn given (skipn packet_ptr packet_buffer)) in
      let packet_len := packet_len_of h in
      if 0 <? packet_len then
        let bytes := firstn (Z.to_nat packet_len) (skipn packet_ptr packet_buffer) in
        let info := ParsePacket parse (clock i) bytes a in
        let c1 := store_packet_info info c in
        let sim_packet := mkPacket bytes a current_time 0 in
        let c2 := count_captured packet_len c1 in
        let (sim_packets, c3) :=
          convert parse clock current_time packet_buffer recv_len rest (S i)
            (packet_ptr + Z.to_nat packet_len)
            ((bytes_processed + packet_len) mod 2 ^ 32) c2 in
        (sim_packet :: sim_packets, c3)
      else
        convert parse clock current_time packet_buffer recv_len rest (S i)
          packet_ptr bytes_processed c
  end.

(** What [WinDivertRecvEx] wrote when it succeeds: the buffer, the length
    received and one address per packet. *)
Record received := mkReceived {
  packet_buffer : list byte;
  recv_len : Z;
  addr_buffer : list WINDIVERT_ADDRESS
}.

(** What is handed to [WinDivertSendEx]. *)
Record sent := mkSent {
  send_buffer : list byte;
  send_addrs : list WINDIVERT_ADDRESS
}.

(** "Rebuild packet buffer for sending". *)
Definition rebuild (sim_packets : packets) : sent :=
  mkSent (flat_map data sim_packets) (map addr sim_packets).

(** One turn of the loop of [CaptureThreadBatch] in which
    [WinDivertRecvEx] succeeds: what is handed to [WinDivertSendEx], if
    anything, and the object afterwards.  [send_ok] is what
    [WinDivertSendEx] answers. *)
Definition CaptureThreadBatch (parse : WinDivertHelperParsePacket)
    (clock : nat -> time_point) (current_time : time_point)
    (clk : NetworkCapture.instants) (send_ok : bool) (r : received)
    (c : t) (g : NetworkCapture.generators)
    : option sent * t * NetworkCapture.generators :=
  match addr_buffer r with
  | [] => (None, c, g)
  | _ =>
      let c1 := count_batch (Z.of_nat (length (addr_buffer r))) c in
      let (sim_packets, c2) :=
        convert parse clock current_time (packet_buffer r) (recv_len r)
          (addr_buffer r) 0 0 0 c1 in
      let '(out, m, g') :=
        NetworkCapture.apply_simulation_effects clk (modules_ c2) sim_packets g in
      let c3 := with_modules c2 m in
      match out with
      | [] => (None, c3, g')
      | _ =>
          (Some (rebuild out),
           if send_ok then count_injected (Z.of_nat (length out)) c3 else c3,
           g')
      end
  end.

(** The turn in which [WinDivertRecvEx] fails with [error]: whether the
    loop goes on, and the object afterwards. *)
Definition ERROR_NO_DATA : Z := 232.

Definition CaptureThreadBatch_failed (error : Z) (c : t) : bool * t :=
  if NetworkCapture.should_stop_ (modules_ c) || (error =? ERROR_NO_DATA)
  then (false, c)
  else (true, SetError (Display.WinDivertRecvEx_failed error) c).

(** *** One turn of a release thread's loop, after its sleep *)

Definition send_released (releasable : packets) (c : t) : option sent * t :=
  match releasable, divert_handle_ c with
  | _ :: _, Some _ =>
      (Some (rebuild releasable), count_injected (Z.of_nat (length releasable)) c)
  | _, _ => (None, c)
  end.

Definition LatencyReleaseThread (now : time_point) (c : t) : option sent * t :=
  let (releasable, m) :=
    LatencyModule.GetReleasablePackets now
      (NetworkCapture.latency_module_ (modules_ c)) in
  send_released releasable
    (with_modules c (NetworkCapture.with_latency (modules_ c) m)).

Definition JitterReleaseThread (now : time_point) (c : t) : option sent * t :=
  let (releasable, m) :=
    JitterModule.GetReleasablePackets now
      (NetworkCapture.jitter_module_ (modules_ c)) in
  send_released releasable
    (with_modules c (NetworkCapture.with_jitter (modules_ c) m)).

Definition BandwidthReleaseThread (now : time_point) (c : t) : option sent * t :=
  let (releasable, m) :=
    BandwidthModule.GetReleasablePackets now
      (NetworkCapture.bandwidth_module_ (modules_ c)) in
  send_released releasable
    (with_modules c (NetworkCapture.with_bandwidth (modules_ c) m)).

End Capture.

(** *** The calls that can be made on the object and the turns of its threads *)

Module CaptureCalls.

Inductive operation :=
| OpStart (env : Capture.driver) (params : Capture.CaptureParameters)
| OpStop (clk : NetworkCapture.instants)
| OpSetLatencyEnabled (enabled : bool)
| OpSetLatency (latency_ms : Z)
| OpSetLatencyInbound (enabled : bool)
| OpSetLatencyOutbound (enabled : bool)
| OpSetPacketLossEnabled (enabled : bool)
| OpSetPacketLossRate (loss_percentage : Q)
| OpSetPacketLossInbound (enabled : bool)
| OpSetPacketLossOutbound (enabled : bool)
| OpSetDuplicateEnabled (enabled : bool)
| OpSetDuplicateRate (duplicate_percentage : Q)
| OpSetDuplicateCount (count : Z)
| OpSetDuplicateInbound (enabled : bool)
| OpSetDuplicateOutbound (enabled : bool)
| OpSetOutOfOrderEnabled (enabled : bool)
| OpSetOutOfOrderRate (reorder_percentage : Q)
| OpSetReorderGap (gap : Z)
| OpSetOutOfOrderInbound (enabled : bool)
| OpSetOutOfOrderOutbound (enabled : bool)
| OpSetJitterEnabled (enabled : bool)
| OpSetJitterRange (min_ms max_ms : Z)
| OpSetJitterInbound (enabled : bool)
| OpSetJitterOutbound (enabled : bool)
| OpSetBandwidthEnabled (now : time_point) (enabled : bool)
| OpSetBandwidthLimit (kbps : Z)
| OpSetBandwidthInbound (enabled : bool)
| OpSetBandwidthOutbound (enabled : bool)
| OpSetMaxPackets (max : Z)
| OpGetPackets
| OpCaptureThreadBatch (parse : WinDivertHelperParsePacket)
    (clock : nat -> time_point) (current_time : time_point)
    (clk : NetworkCapture.instants) (send_ok : bool) (r : Capture.received)
    (g : NetworkCapture.generators)
| OpCaptureThreadBatch_failed (error : Z)
| OpLatencyReleaseThread (now : time_point)
| OpJitterReleaseThread (now : time_point)
| OpBandwidthReleaseThread (now : time_point).

Definition apply (c : Capture.t) (op : operation) : Capture.t :=
  match op with
  | OpStart env params => snd (Capture.Start env params c)
  | OpStop clk => Capture.Stop clk c
  | OpSetLatencyEnabled b => Capture.SetLatencyEnabled b c
  | OpSetLatency ms => Capture.on_latency (LatencyModule.SetLatency ms) c
  | OpSetLatencyInbound b => Capture.on_latency (LatencyModule.SetInboundEnabled b) c
  | OpSetLatencyOutbound b => Capture.on_latency (LatencyModule.SetOutboundEnabled b) c
  | OpSetPacketLossEnabled b => Capture.SetPacketLossEnabled b c
  | OpSetPacketLossRate v => Capture.on_packet_loss (PacketLossModule.SetLossRate v) c
  | OpSetPacketLossInbound b =>
      Capture.on_packet_loss (PacketLossModule.SetInboundEnabled b) c
  | OpSetPacketLossOutbound b =>
      Capture.on_packet_loss (PacketLossModule.SetOutboundEnabled b) c
  | OpSetDuplicateEnabled b => Capture.SetDuplicateEnabled b c
  | OpSetDuplicateRate v => Capture.on_duplicate (DuplicateModule.SetDuplicationRate v) c
  | OpSetDuplicateCount n => Capture.on_duplicate (DuplicateModule.SetDuplicateCount n) c
  | OpSetDuplicateInbound b => Capture.on_duplicate (DuplicateModule.SetInboundEnabled b) c
  | OpSetDuplicateOutbound b =>
      Capture.on_duplicate (DuplicateModule.SetOutboundEnabled b) c
  | OpSetOutOfOrderEnabled b => Capture.SetOutOfOrderEnabled b c
  | OpSetOutOfOrderRate v =>
      Capture.on_out_of_order (OutOfOrderModule.SetReorderRate v) c
  | OpSetReorderGap n => Capture.on_out_of_order (OutOfOrderModule.SetReorderGap n) c
  | OpSetOutOfOrderInbound b =>
      Capture.on_out_of_order (OutOfOrderModule.SetInboundEnabled b) c
  | OpSetOutOfOrderOutbound b =>
      Capture.on_out_of_order (OutOfOrderModule.SetOutboundEnabled b) c
  | OpSetJitterEnabled b => Capture.SetJitterEnabled b c
  | OpSetJitterRange lo hi => Capture.on_jitter (JitterModule.SetJitterRange lo hi) c
  | OpSetJitterInbound b => Capture.on_jitter (JitterModule.SetInboundEnabled b) c
  | OpSetJitterOutbound b => Capture.on_jitter (JitterModule.SetOutboundEnabled b) c
  | OpSetBandwidthEnabled now b => Capture.SetBandwidthEnabled now b c
  | OpSetBandwidthLimit kbps =>
      Capture.on_bandwidth (BandwidthModule.SetBandwidthLimit kbps) c
  | OpSetBandwidthInbound b =>
      Capture.on_bandwidth (BandwidthModule.SetInboundEnabled b) c
  | OpSetBandwidthOutbound b =>
      Capture.on_bandwidth (BandwidthModule.SetOutboundEnabled b) c
  | OpSetMaxPackets max => Capture.SetMaxPackets max c
  | OpGetPackets => snd (Capture.GetPackets c)
  | OpCaptureThreadBatch parse clock current_time clk send_ok r g =>
      snd (fst (Capture.CaptureThreadBatch parse clock current_time clk send_ok r c g))
  | OpCaptureThreadBatch_failed error => snd (Capture.CaptureThreadBatch_failed error c)
  | OpLatencyReleaseThread now => snd (Capture.LatencyReleaseThread now c)
  | OpJitterReleaseThread now => snd (Capture.JitterReleaseThread now c)
  | OpBandwidthReleaseThread now => snd (Capture.BandwidthReleaseThread now c)
  end.

(** Every call and turn but [Stop] and [SetOutOfOrderEnabled]. *)
Definition leaves_reorder_switch (op : operation) : bool :=
  match op with
  | OpStop _ | OpSetOutOfOrderEnabled _ => false
  | _ => true
  end.

(** While a capture runs the handle is open, the stop flag is down and
    each enabled delaying module has its release thread; while none runs
    there is no handle and no thread. *)
Definition threads_follow_modules (c : Capture.t) : Prop :=
  let m := Capture.modules_ c in
  if Capture.IsCapturing c then
    Capture.divert_handle_ c <> None
    /\ NetworkCapture.should_stop_ m = false
    /\ (LatencyModule.enabled_ (NetworkCapture.latency_module_ m) = true ->
        Capture.latency_thread_ c = true)
    /\ (JitterModule.enabled_ (NetworkCapture.jitter_module_ m) = true ->
        Capture.jitter_thread_ c = true)
    /\ (BandwidthModule.enabled_ (NetworkCapture.bandwidth_module_ m) = true ->
        Capture.bandwidth_thread_ c = true)
  else
    Capture.divert_handle_ c = None
    /\ Capture.capture_threads_ c = 0
    /\ Capture.latency_thread_ c = false
    /\ Capture.jitter_thread_ c = false
    /\ Capture.bandwidth_thread_ c = false.

(** The helper reads the length of the first packet of what it is given
    off that packet's header: [parse] does so for the packets [pks] laid
    end to end. *)
Definition frames (parse : WinDivertHelperParsePacket) (pks : list (list byte)) : Prop :=
  forall done p todo,
    pks = done ++ p :: todo ->
    Capture.packet_len_of (parse (concat (p :: todo))) = Z.of_nat (length p).

End CaptureCalls.

(** ** main.cpp *)

Module Main.

Record SimulationSettings := mkSettings {
  packet_loss_enabled : bool;
  packet_loss_inbound : bool;
  packet_loss_outbound : bool;
  packet_loss_rate : Q;
  latency_enabled : bool;
  latency_inbound : bool;
  latency_outbound : bool;
  latency_ms : Z;
  duplicate_enabled : bool;
  duplicate_inbound : bool;
  duplicate_outbound : bool;
  duplicate_rate : Q;
  duplicate_count : Z;
  out_of_order_enabled : bool;
  out_of_order_inbound : bool;
  out_of_order_outbound : bool;
  out_of_order_rate : Q;
  reorder_gap : Z;
  jitter_enabled : bool;
  jitter_inbound : bool;
  jitter_outbound : bool;
  jitter_min_ms : Z;
  jitter_max_ms : Z;
  bandwidth_enabled : bool;
  bandwidth_inbound : bool;
  bandwidth_outbound : bool;
  bandwidth_kbps : Z
}.

Definition SimulationSettings_default : SimulationSettings :=
  mkSettings false true true 0%Q
             false true true 0
             false true true 0%Q 1
             false true true 0%Q 3
             false true true 0 50
             false true true 1000.

(** The members of [ApplicationState] that [ToggleCapture] and the packet
    update of [RenderUI] touch; [params] is [config.params]. *)
Record ApplicationState := mkState {
  capture : option Capture.t;
  state_packets : list PacketInfo;
  capture_error : String.string;
  params : Capture.CaptureParameters;
  simulation : SimulationSettings
}.

(** An [int] passed for a [uint32_t]. *)
Definition to_uint32 (x : Z) : Z := x mod 2 ^ 32.

(** "Apply current simulation settings": the calls of [ToggleCapture]
    after a successful [Start], in their order.  [now] is the instant
    [SetBandwidthEnabled] reads. *)
Definition apply_settings (now : time_point) (s : SimulationSettings)
    (c : Capture.t) : Capture.t :=
  fold_left CaptureCalls.apply
    [CaptureCalls.OpSetPacketLossEnabled (packet_loss_enabled s);
     CaptureCalls.OpSetPacketLossRate (packet_loss_rate s);
     CaptureCalls.OpSetPacketLossInbound (packet_loss_inbound s);
     CaptureCalls.OpSetPacketLossOutbound (packet_loss_outbound s);
     CaptureCalls.OpSetLatencyEnabled (latency_enabled s);
     CaptureCalls.OpSetLatency (to_uint32 (latency_ms s));
     CaptureCalls.OpSetLatencyInbound (latency_inbound s);
     CaptureCalls.OpSetLatencyOutbound (latency_outbound s);
     CaptureCalls.OpSetDuplicateEnabled (duplicate_enabled s);
     CaptureCalls.OpSetDuplicateRate (duplicate_rate s);
     CaptureCalls.OpSetDuplicateCount (to_uint32 (duplicate_count s));
     CaptureCalls.OpSetDuplicateInbound (duplicate_inbound s);
     CaptureCalls.OpSetDuplicateOutbound (duplicate_outbound s);
     CaptureCalls.OpSetOutOfOrderEnabled (out_of_order_enabled s);
     CaptureCalls.OpSetOutOfOrderRate (out_of_order_rate s);
     CaptureCalls.OpSetReorderGap (to_uint32 (reorder_gap s));
     CaptureCalls.OpSetOutOfOrderInbound (out_of_order_inbound s);
     CaptureCalls.OpSetOutOfOrderOutbound (out_of_order_outbound s);
     CaptureCalls.OpSetJitterEnabled (jitter_enabled s);
     CaptureCalls.OpSetJitterRange (to_uint32 (jitter_min_ms s))
                                   (to_uint32 (jitter_max_ms s));
     CaptureCalls.OpSetJitterInbound (jitter_inbound s);
     CaptureCalls.OpSetJitterOutbound (jitter_outbound s);
     CaptureCalls.OpSetBandwidthEnabled now (bandwidth_enabled s);
     CaptureCalls.OpSetBandwidthLimit (to_uint32 (bandwidth_kbps s));
     CaptureCalls.OpSetBandwidthInbound (bandwidth_inbound s);
     CaptureCalls.OpSetBandwidthOutbound (bandwidth_outbound s)] c.

(** [error.value_or("Unknown error")] *)
Definition value_or (error : option String.string) (alternative : String.string)
    : String.string :=
  match error with Some e => e | None => alternative end.

(** [ToggleCapture].  [env] is what the driver answers to [Start],
    [constructed] the instant a [NetworkCapture] made here reads, [now] the
    one [SetBandwidthEnabled] reads, [clk] those [Stop] reads. *)
Definition ToggleCapture (env : Capture.driver) (constructed now : time_point)
    (clk : NetworkCapture.instants) (state : ApplicationState) : ApplicationState :=
  let is_capturing :=
    match capture state with
    | Some c => Capture.IsCapturing c
    | None => false
    end in
  if negb is_capturing then
    let c0 :=
      match capture state with
      | Some c => c
      | None => Capture.init constructed
      end in
    let (result, c1) := Capture.Start env (params state) c0 in
    match result with
    | inr _ =>
        mkState (Some c1) (state_packets state)
                (value_or (Capture.GetLastErrorMessage c1) Display.Unknown_error)
                (params state) (simulation state)
    | inl _ =>
        mkState (Some (apply_settings now (simulation state) c1))
                (state_packets state) String.EmptyString
                (params state) (simulation state)
    end
  else
    match capture state with
    | Some c =>
        mkState (Some (Capture.Stop clk c)) [] String.EmptyString
                (params state) (simulation state)
    | None => state
    end.

(** "Update captured packets if capturing", the last block of [RenderUI]. *)
Definition update_packets (state : ApplicationState) : ApplicationState :=
  match capture state with
  | Some c =>
      if Capture.IsCapturing c then
        let (new_packets, c') := Capture.GetPackets c in
        let all := state_packets state ++ new_packets in
        let n := Capture.visual_packet_buffer (params state) in
        mkState (Some c')
          (if n <? Z.of_nat (length all)
           then skipn (Z.to_nat (Z.of_nat (length all) - n)) all
           else all)
          (capture_error state) (params state) (simulation state)
      else state
  | None => state
  end.

End Main.

(** ** Concrete sessions *)

Module Scenario.

(** A driver that opens and takes every parameter, and one that refuses
    to open with [ERROR_ACCESS_DENIED]. *)
Definition willing : Capture.driver := Capture.mkDriver (inl 1) true true true.

Definition access_denied : Capture.driver := Capture.mkDriver (inr 5) true true true.

(** A helper for packets whose first byte is their length: it finds an
    IPv4 header whose length field holds that byte in network order. *)
Definition length_prefixed : WinDivertHelperParsePacket :=
  fun bytes =>
    match bytes with
    | [] => mkHeaders None None None None
    | b :: _ =>
        mkHeaders (Some (mkIPHDR (Z.shiftl (Z.of_N (Byte.to_N b)) 8) 0 0 0))
                  None None None
    end.

Definition two_packets : list (list byte) := [[x03; x0a; x0b]; [x02; x0c]].

Definition two_addresses : list WINDIVERT_ADDRESS :=
  [mkAddr false false 1; mkAddr true false 1].

Definition two_received : Capture.received :=
  Capture.mkReceived (concat two_packets ++ repeat x00 8) 5 two_addresses.

(** A capture started on a fresh object, and the same with latency of one
    second switched on. *)
Definition started : Capture.t :=
  snd (Capture.Start willing Capture.CaptureParameters_default (Capture.init 0)).

Definition started_with_latency : Capture.t :=
  Capture.on_latency (LatencyModule.SetLatency 1000)
    (Capture.SetLatencyEnabled true started).

(** ... after a worker has taken one packet at instant 0. *)
Definition holding_one_packet : Capture.t :=
  snd (fst (Capture.CaptureThreadBatch length_prefixed (fun _ => 0) 0
              (Sample.at_instant 0) true
              (Capture.mkReceived [x03; x0a; x0b] 3 [mkAddr false false 1])
              started_with_latency Sample.generators)).

(** A capture whose reorder module took one packet from a worker and was
    then switched off. *)
Definition reorder_switched_off : Capture.t :=
  Capture.SetOutOfOrderEnabled false
    (snd (fst (Capture.CaptureThreadBatch length_prefixed (fun _ => 0) 0
                 (Sample.at_instant 0) true
                 (Capture.mkReceived [x03; x0a; x0b] 3 [mkAddr false false 1])
                 (Capture.SetOutOfOrderEnabled true started) Sample.generators))).

End Scenario.

(** * Properties *)

(** ** The direction gate *)

Lemma loss_ShouldProcess_gate (m : PacketLossModule.t) (p : SimulatedPacket) :
  PacketLossModule.ShouldProcess m (addr p) =
  direction_gate (PacketLossModule.inbound_enabled_ m)
                 (PacketLossModule.outbound_enabled_ m) p.
Proof.
  unfold PacketLossModule.ShouldProcess, direction_gate.
  destruct (Outbound (addr p)), (PacketLossModule.outbound_enabled_ m),
    (PacketLossModule.inbound_enabled_ m); reflexivity.
Qed.

Lemma duplicate_ShouldProcess_gate (m : DuplicateModule.t) (p : SimulatedPacket) :
  DuplicateModule.ShouldProcess m (addr p) =
  direction_gate (DuplicateModule.inbound_enabled_ m)
                 (DuplicateModule.outbound_enabled_ m) p.
Proof.
  unfold DuplicateModule.ShouldProcess, direction_gate.
  destruct (Outbound (addr p)), (DuplicateModule.outbound_enabled_ m),
    (DuplicateModule.inbound_enabled_ m); reflexivity.
Qed.

Lemma reorder_ShouldProcess_gate (m : OutOfOrderModule.t) (p : SimulatedPacket) :
  OutOfOrderModule.ShouldProcess m (addr p) =
  direction_gate (OutOfOrderModule.inbound_enabled_ m)
                 (OutOfOrderModule.outbound_enabled_ m) p.
Proof.
  unfold OutOfOrderModule.ShouldProcess, direction_gate.
  destruct (Outbound (addr p)), (OutOfOrderModule.outbound_enabled_ m),
    (OutOfOrderModule.inbound_enabled_ m); reflexivity.
Qed.

Lemma jitter_ShouldProcess_gate (m : JitterModule.t) (p : SimulatedPacket) :
  JitterModule.ShouldProcess m (addr p) =
  direction_gate (JitterModule.inbound_enabled_ m)
                 (JitterModule.outbound_enabled_ m) p.
Proof.
  unfold JitterModule.ShouldProcess, direction_gate.
  destruct (Outbound (addr p)), (JitterModule.outbound_enabled_ m),
    (JitterModule.inbound_enabled_ m); reflexivity.
Qed.

Lemma latency_ShouldProcess_gate (m : LatencyModule.t) (p : SimulatedPacket) :
  LatencyModule.ShouldProcess m (addr p) =
  direction_gate (LatencyModule.inbound_enabled_ m)
                 (LatencyModule.outbound_enabled_ m) p.
Proof.
  unfold LatencyModule.ShouldProcess, direction_gate.
  destruct (Outbound (addr p)), (LatencyModule.outbound_enabled_ m),
    (LatencyModule.inbound_enabled_ m); reflexivity.
Qed.

Lemma bandwidth_ShouldProcess_gate (m : BandwidthModule.t) (p : SimulatedPacket) :
  BandwidthModule.ShouldProcess m (addr p) =
  direction_gate (BandwidthModule.inbound_enabled_ m)
                 (BandwidthModule.outbound_enabled_ m) p.
Proof.
  unfold BandwidthModule.ShouldProcess, direction_gate.
  destruct (Outbound (addr p)), (BandwidthModule.outbound_enabled_ m),
    (BandwidthModule.inbound_enabled_ m); reflexivity.
Qed.

(** ** Rates and clamping *)

Lemma clampQ_range (v : Q) : (0 <= clampQ v 0 100 <= 100)%Q.
Proof.
  unfold clampQ.
  destruct (Qlt_le_dec v 0); [split; lra|].
  destruct (Qlt_le_dec 100 v); split; lra.
Qed.

Lemma clampZ_id (v lo hi : Z) : lo <= v <= hi -> clampZ v lo hi = v.
Proof.
  intros H. unfold clampZ.
  destruct (Z.ltb_spec v lo); [lia|].
  destruct (Z.ltb_spec hi v); [lia|reflexivity].
Qed.

Lemma clampZ_range (v lo hi : Z) : lo <= hi -> lo <= clampZ v lo hi <= hi.
Proof.
  intros H. unfold clampZ.
  destruct (Z.ltb_spec v lo); [lia|].
  destruct (Z.ltb_spec hi v); lia.
Qed.

Lemma Qle_bool_false (x y : Q) : (y < x)%Q -> Qle_bool x y = false.
Proof.
  intros H. destruct (Qle_bool x y) eqn:E; [|reflexivity].
  apply Qle_bool_iff in E. lra.
Qed.

Lemma Qle_bool_true (x y : Q) : (x <= y)%Q -> Qle_bool x y = true.
Proof. intros H. now apply Qle_bool_iff. Qed.

(** ** Packet loss *)

Lemma ShouldDrop_never (m : PacketLossModule.t) (r : RandomUtils.t) :
  (PacketLossModule.loss_rate_ m <= 0)%Q ->
  PacketLossModule.ShouldDrop m r = (false, r).
Proof.
  intros H. unfold PacketLossModule.ShouldDrop.
  now rewrite (Qle_bool_true _ _ H).
Qed.

Lemma ShouldDrop_always (m : PacketLossModule.t) (r : RandomUtils.t) :
  (100 <= PacketLossModule.loss_rate_ m)%Q ->
  PacketLossModule.ShouldDrop m r = (true, r).
Proof.
  intros H. unfold PacketLossModule.ShouldDrop.
  rewrite Qle_bool_false by lra.
  now rewrite (Qle_bool_true _ _ H).
Qed.

Lemma survivors_rate_zero (m : PacketLossModule.t) (batch : packets)
    (r : RandomUtils.t) :
  (PacketLossModule.loss_rate_ m <= 0)%Q ->
  PacketLossModule.survivors m batch r = (batch, r).
Proof.
  intros H. induction batch as [|p rest IH]; simpl; [reflexivity|].
  rewrite (ShouldDrop_never m r H), IH.
  now destruct (PacketLossModule.ShouldProcess m (addr p)).
Qed.

Lemma survivors_rate_full (m : PacketLossModule.t) (batch : packets)
    (r : RandomUtils.t) :
  (100 <= PacketLossModule.loss_rate_ m)%Q ->
  Forall (fun p => PacketLossModule.ShouldProcess m (addr p) = true) batch ->
  PacketLossModule.survivors m batch r = ([], r).
Proof.
  intros H Hall. induction Hall as [|p rest Hp _ IH]; simpl; [reflexivity|].
  now rewrite Hp, (ShouldDrop_always m r H), IH.
Qed.

(** A packet the gate turns away survives the loss stage whatever the
    rate, and the stage never adds a packet. *)
Lemma survivors_keep_gated_out (m : PacketLossModule.t) (batch : packets)
    (r : RandomUtils.t) :
  filter (fun p => negb (PacketLossModule.ShouldProcess m (addr p)))
         (fst (PacketLossModule.survivors m batch r))
  = filter (fun p => negb (PacketLossModule.ShouldProcess m (addr p))) batch.
Proof.
  revert r. induction batch as [|p rest IH]; intros r; simpl; [reflexivity|].
  destruct (PacketLossModule.ShouldProcess m (addr p)) eqn:G; simpl.
  - destruct (PacketLossModule.ShouldDrop m r) as [drop r1].
    specialize (IH r1).
    destruct (PacketLossModule.survivors m rest r1) as [out r2]; simpl in *.
    destruct drop; simpl; [exact IH|]. now rewrite G.
  - specialize (IH r).
    destruct (PacketLossModule.survivors m rest r) as [out r2]; simpl in *.
    now rewrite G, IH.
Qed.

(** C5.  The enabled loss stage at the two ends of its rate.  With a rate
    of 0 (the least the clamp allows) the output holds the same packets as
    the input; with a rate of 100 a batch whose packets all pass the
    direction gate leaves nothing, and the generator is returned as it
    came: no sample is drawn. *)
Theorem loss_rate_boundaries
    (m : PacketLossModule.t) (batch : packets) (r : RandomUtils.t)
    (Henabled : PacketLossModule.enabled_ m = true) :
  ((PacketLossModule.loss_rate_ m <= 0)%Q ->
     Permutation (fst (PacketLossModule.ProcessBatch m batch r)) batch)
  /\
  ((PacketLossModule.loss_rate_ m == 100)%Q ->
     Forall (fun p => direction_gate (PacketLossModule.inbound_enabled_ m)
                        (PacketLossModule.outbound_enabled_ m) p = true) batch ->
     PacketLossModule.ProcessBatch m batch r = ([], r)).
Proof.
  unfold PacketLossModule.ProcessBatch. rewrite Henabled. simpl. split.
  - intros H. now rewrite survivors_rate_zero.
  - intros H Hgate. apply survivors_rate_full; [lra|].
    eapply Forall_impl; [|exact Hgate].
    intros p Hp. simpl in Hp. now rewrite loss_ShouldProcess_gate.
Qed.

Lemma loss_rate_boundaries_witness :
  Permutation
    (fst (PacketLossModule.ProcessBatch (Sample.loss 0)
            [Sample.inbound_packet 60 0; Sample.outbound_packet 40 0] Sample.utils))
    [Sample.inbound_packet 60 0; Sample.outbound_packet 40 0]
  /\ PacketLossModule.ProcessBatch (Sample.loss 100)
       [Sample.inbound_packet 60 0; Sample.outbound_packet 40 0] Sample.utils
     = ([], Sample.utils).
Proof.
  split.
  - apply (proj1 (loss_rate_boundaries (Sample.loss 0)
             [Sample.inbound_packet 60 0; Sample.outbound_packet 40 0]
             Sample.utils eq_refl)).
    apply Qle_bool_iff. reflexivity.
  - apply (proj2 (loss_rate_boundaries (Sample.loss 100)
             [Sample.inbound_packet 60 0; Sample.outbound_packet 40 0]
             Sample.utils eq_refl)).
    + apply Qeq_bool_iff. reflexivity.
    + repeat constructor.
Defined.

(** ** Duplication *)

Lemma push_duplicates_repeat (n : nat) (out : packets) (p : SimulatedPacket) :
  DuplicateModule.push_duplicates n (out ++ [p]) = out ++ p :: repeat p n.
Proof.
  revert out. induction n as [|n IH]; intros out; simpl; [reflexivity|].
  unfold back. rewrite last_last.
  rewrite IH. now rewrite <- app_assoc.
Qed.

Lemma fan_out_rate_full (m : DuplicateModule.t) (batch out : packets)
    (r : RandomUtils.t) :
  (100 <= DuplicateModule.duplication_rate_ m)%Q ->
  Forall (fun p => DuplicateModule.ShouldProcess m (addr p) = true) batch ->
  DuplicateModule.fan_out m batch out r
  = (out ++ flat_map (with_copies (Z.to_nat (DuplicateModule.duplicate_count_ m))) batch, r).
Proof.
  intros Hrate Hall. revert out.
  induction Hall as [|p rest Hp _ IH]; intros out; simpl.
  - now rewrite app_nil_r.
  - unfold back at 1. rewrite last_last, Hp.
    unfold DuplicateModule.ShouldDuplicate.
    rewrite Qle_bool_false by lra. rewrite (Qle_bool_true _ _ Hrate).
    rewrite push_duplicates_repeat, IH.
    unfold with_copies at 2. now rewrite <- app_assoc.
Qed.

Lemma length_flat_map_with_copies (k : nat) (batch : packets) :
  length (flat_map (with_copies k) batch) = (S k * length batch)%nat.
Proof.
  induction batch as [|p rest IH]; simpl; [lia|].
  rewrite length_app, repeat_length, IH. lia.
Qed.

(** The duplicate stage never removes a packet and copies only packets
    that pass the gate. *)
Lemma fan_out_keep_gated_out (m : DuplicateModule.t) (batch out : packets)
    (r : RandomUtils.t) :
  filter (fun p => negb (DuplicateModule.ShouldProcess m (addr p)))
         (fst (DuplicateModule.fan_out m batch out r))
  = filter (fun p => negb (DuplicateModule.ShouldProcess m (addr p))) (out ++ batch).
Proof.
  revert out r. induction batch as [|p rest IH]; intros out r; simpl.
  - now rewrite app_nil_r.
  - unfold back at 1. rewrite last_last.
    replace (out ++ p :: rest) with ((out ++ [p]) ++ rest)
      by now rewrite <- app_assoc.
    destruct (DuplicateModule.ShouldProcess m (addr p)) eqn:G.
    + destruct (DuplicateModule.ShouldDuplicate m r) as [dup r1].
      destruct dup; [|apply IH].
      rewrite IH, push_duplicates_repeat.
      rewrite !filter_app. f_equal. f_equal. simpl. rewrite G. simpl.
      induction (Z.to_nat (DuplicateModule.duplicate_count_ m)) as [|n IHn];
        simpl; [reflexivity|]. now rewrite G.
    + apply IH.
Qed.

(** C6.  The enabled duplicate stage at rate 100 with [k] copies, [k] in
    1..5: a batch of [n] packets that all pass the direction gate comes out
    as [(k+1) * n] packets, each original in input order followed at once
    by [k] packets equal to it in every field. *)
Theorem duplicate_fan_out
    (m : DuplicateModule.t) (k : Z) (batch : packets) (r : RandomUtils.t)
    (Henabled : DuplicateModule.enabled_ m = true)
    (Hrate : (DuplicateModule.duplication_rate_ m == 100)%Q)
    (Hcopies : DuplicateModule.duplicate_count_ m = k)
    (Hk : 1 <= k <= 5)
    (Hgate : Forall (fun p => direction_gate (DuplicateModule.inbound_enabled_ m)
                        (DuplicateModule.outbound_enabled_ m) p = true) batch) :
  fst (DuplicateModule.ProcessBatch m batch r)
    = flat_map (fun p => p :: repeat p (Z.to_nat k)) batch
  /\ Z.of_nat (length (fst (DuplicateModule.ProcessBatch m batch r)))
     = (k + 1) * Z.of_nat (length batch).
Proof.
  unfold DuplicateModule.ProcessBatch. rewrite Henabled. simpl.
  rewrite fan_out_rate_full; [|lra|].
  - rewrite Hcopies. simpl. split; [reflexivity|].
    fold (with_copies (Z.to_nat k)).
    rewrite length_flat_map_with_copies. lia.
  - eapply Forall_impl; [|exact Hgate].
    intros p Hp. simpl in Hp. now rewrite duplicate_ShouldProcess_gate.
Qed.

Lemma duplicate_fan_out_witness :
  fst (DuplicateModule.ProcessBatch (Sample.duplicate 2)
         [Sample.inbound_packet 60 0; Sample.outbound_packet 40 0] Sample.utils)
  = [Sample.inbound_packet 60 0; Sample.inbound_packet 60 0; Sample.inbound_packet 60 0;
     Sample.outbound_packet 40 0; Sample.outbound_packet 40 0; Sample.outbound_packet 40 0]
  /\ Z.of_nat (length (fst (DuplicateModule.ProcessBatch (Sample.duplicate 2)
         [Sample.inbound_packet 60 0; Sample.outbound_packet 40 0] Sample.utils)))
     = (2 + 1) * 2.
Proof.
  apply (duplicate_fan_out (Sample.duplicate 2) 2
           [Sample.inbound_packet 60 0; Sample.outbound_packet 40 0] Sample.utils).
  - reflexivity.
  - apply Qeq_bool_iff. reflexivity.
  - reflexivity.
  - lia.
  - repeat constructor.
Defined.

(** ** Reordering *)

Lemma add_to_buffer_app (m : OutOfOrderModule.t) (batch buffer : packets) :
  OutOfOrderModule.add_to_buffer m batch buffer = buffer ++ batch.
Proof.
  revert buffer. induction batch as [|p rest IH]; intros buffer; simpl.
  - now rewrite app_nil_r.
  - rewrite !IH, <- app_assoc.
    now destruct (OutOfOrderModule.ShouldProcess m (addr p)).
Qed.

Lemma move_to_output_firstn_skipn (count : Z) (buffer : packets) :
  OutOfOrderModule.move_to_output count buffer
  = (firstn (Z.to_nat count) buffer, skipn (Z.to_nat count) buffer).
Proof.
  revert count. induction buffer as [|p rest IH]; intros count; simpl.
  - now rewrite firstn_nil, skipn_nil.
  - destruct (Z.ltb_spec 0 count) as [Hpos|Hneg].
    + rewrite IH.
      replace (Z.to_nat count) with (S (Z.to_nat (count - 1))) by lia.
      reflexivity.
    + replace (Z.to_nat count) with O by lia. reflexivity.
Qed.

Lemma ShouldReorder_generator (m : OutOfOrderModule.t) (r : RandomUtils.t) :
  RandomUtils.permutation (snd (OutOfOrderModule.ShouldReorder m r))
    = RandomUtils.permutation r
  /\ RandomUtils.generator_uses (snd (OutOfOrderModule.ShouldReorder m r))
    = RandomUtils.generator_uses r.
Proof.
  unfold OutOfOrderModule.ShouldReorder.
  destruct (Qle_bool (OutOfOrderModule.reorder_rate_ m) 0); [now split|].
  destruct (Qle_bool 100 (OutOfOrderModule.reorder_rate_ m)); now split.
Qed.

Lemma ShuffleBuffer_permutation (buffer : packets) (r : RandomUtils.t) :
  (forall n v, Permutation (RandomUtils.permutation r n v) v) ->
  Permutation (fst (OutOfOrderModule.ShuffleBuffer buffer r)) buffer.
Proof.
  intros H. unfold OutOfOrderModule.ShuffleBuffer.
  destruct (length buffer <=? 1)%nat; simpl; [reflexivity|apply H].
Qed.

(** What an enabled [ProcessBatch] does once the buffer has reached the
    gap, by the outcome of the trial. *)
Lemma reorder_release_by_trial (m : OutOfOrderModule.t) (batch : packets)
    (r r1 : RandomUtils.t) (trial : bool) :
  OutOfOrderModule.enabled_ m = true ->
  2 <= OutOfOrderModule.reorder_gap_ m <= 10 ->
  Z.of_nat (length (OutOfOrderModule.packet_buffer_ m ++ batch)) < 2 ^ 64 ->
  OutOfOrderModule.reorder_gap_ m
  <= Z.of_nat (length (OutOfOrderModule.packet_buffer_ m ++ batch)) ->
  OutOfOrderModule.ShouldReorder m r = (trial, r1) ->
  let buffer := OutOfOrderModule.packet_buffer_ m ++ batch in
  let released :=
    Z.to_nat (Z.of_nat (length buffer) - OutOfOrderModule.reorder_gap_ m / 2) in
  let order :=
    if trial then RandomUtils.permutation r1 (RandomUtils.generator_uses r1) buffer
    else buffer in
  fst (fst (OutOfOrderModule.ProcessBatch m batch r)) = firstn released order
  /\ OutOfOrderModule.packet_buffer_ (snd (fst (OutOfOrderModule.ProcessBatch m batch r)))
     = skipn released order.
Proof.
  intros Henabled Hgap Hsize Hge E buffer released order.
  unfold OutOfOrderModule.ProcessBatch.
  rewrite Henabled. cbn [negb]. rewrite add_to_buffer_app. fold buffer.
  apply Z.leb_le in Hge. fold buffer in Hge. rewrite Hge. apply Z.leb_le in Hge.
  assert (Hhalf : 0 <= OutOfOrderModule.reorder_gap_ m / 2
                  <= OutOfOrderModule.reorder_gap_ m).
  { split; [apply Z.div_pos; lia|]. apply Z.div_le_upper_bound; lia. }
  assert (Hcount : OutOfOrderModule.size_t_sub (Z.of_nat (length buffer))
                     (OutOfOrderModule.reorder_gap_ m / 2)
                   = Z.of_nat (length buffer) - OutOfOrderModule.reorder_gap_ m / 2).
  { unfold OutOfOrderModule.size_t_sub. apply Z.mod_small. subst buffer. lia. }
  rewrite Hcount, E. fold released.
  destruct trial.
  - assert (Hshuf : OutOfOrderModule.ShuffleBuffer buffer r1
                    = RandomUtils.shuffle buffer r1).
    { unfold OutOfOrderModule.ShuffleBuffer.
      destruct (Nat.leb_spec (length buffer) 1); [lia|reflexivity]. }
    rewrite Hshuf. unfold RandomUtils.shuffle.
    rewrite move_to_output_firstn_skipn. now split.
  - rewrite move_to_output_firstn_skipn. now split.
Qed.

(** C7.  The enabled reorder stage.  With the incoming packets appended
    to the buffer, of length [L]: when [L] is at least the gap, the stage
    emits the first [L - gap/2] entries of the buffer and keeps the rest.
    The entries are taken in shuffled order when the Bernoulli trial at
    the reorder rate succeeds and in arrival order when it fails: the
    trial fails at a rate of 0 or less, succeeds at a rate of 100 or more,
    and in between succeeds exactly when the percentage drawn is below the
    rate.  The shuffled order is what the generator's next shuffle makes
    of the buffer, a permutation of it.  When [L] is below the gap the
    stage emits nothing and keeps everything. *)
Theorem reorder_release_window
    (m : OutOfOrderModule.t) (batch : packets) (r : RandomUtils.t)
    (Henabled : OutOfOrderModule.enabled_ m = true)
    (Hgap : 2 <= OutOfOrderModule.reorder_gap_ m <= 10)
    (Hsize : Z.of_nat (length (OutOfOrderModule.packet_buffer_ m ++ batch)) < 2 ^ 64)
    (Hshuffle : RandomUtils.permutes r) :
  let buffer := OutOfOrderModule.packet_buffer_ m ++ batch in
  let L := Z.of_nat (length buffer) in
  let gap := OutOfOrderModule.reorder_gap_ m in
  let output := fst (fst (OutOfOrderModule.ProcessBatch m batch r)) in
  let kept :=
    OutOfOrderModule.packet_buffer_ (snd (fst (OutOfOrderModule.ProcessBatch m batch r))) in
  let rate := OutOfOrderModule.reorder_rate_ m in
  let sample := RandomUtils.percentage r (RandomUtils.percentage_draws r) in
  let shuffled := RandomUtils.permutation r (RandomUtils.generator_uses r) buffer in
  let released := Z.to_nat (L - gap / 2) in
  (gap <= L ->
     Z.of_nat (length output) = L - gap / 2
     /\ Permutation shuffled buffer
     /\ ((rate <= 0)%Q ->
         output = firstn released buffer /\ kept = skipn released buffer)
     /\ ((100 <= rate)%Q ->
         output = firstn released shuffled /\ kept = skipn released shuffled)
     /\ ((0 < rate)%Q -> (rate < 100)%Q -> (sample < rate)%Q ->
         output = firstn released shuffled /\ kept = skipn released shuffled)
     /\ ((0 < rate)%Q -> (rate < 100)%Q -> (rate <= sample)%Q ->
         output = firstn released buffer /\ kept = skipn released buffer))
  /\ (L < gap -> output = [] /\ kept = buffer).
Proof.
  intros buffer L gap output kept rate sample shuffled released.
  split.
  - intros Hge.
    assert (Hhalf : 0 <= gap / 2 <= gap).
    { subst gap. split; [apply Z.div_pos; lia|].
      apply Z.div_le_upper_bound; lia. }
    assert (Hperm : Permutation shuffled buffer) by apply Hshuffle.
    (* the trial, by the rate and the percentage drawn *)
    assert (Hzero : (rate <= 0)%Q -> OutOfOrderModule.ShouldReorder m r = (false, r)).
    { intros H. unfold OutOfOrderModule.ShouldReorder. fold rate.
      now rewrite (Qle_bool_true _ _ H). }
    assert (Hfull : (100 <= rate)%Q -> OutOfOrderModule.ShouldReorder m r = (true, r)).
    { intros H. unfold OutOfOrderModule.ShouldReorder. fold rate.
      rewrite (Qle_bool_false rate 0) by lra. now rewrite (Qle_bool_true _ _ H). }
    assert (Hdraw : (0 < rate)%Q -> (rate < 100)%Q ->
              OutOfOrderModule.ShouldReorder m r
              = (negb (Qle_bool rate sample), snd (RandomUtils.GetPercentage r))).
    { intros H0 H100. unfold OutOfOrderModule.ShouldReorder. fold rate.
      rewrite (Qle_bool_false rate 0) by lra.
      rewrite (Qle_bool_false 100 rate) by lra. reflexivity. }
    assert (Hlength : Z.of_nat (length output) = L - gap / 2).
    { destruct (OutOfOrderModule.ShouldReorder m r) as [trial r1] eqn:E.
      destruct (reorder_release_by_trial m batch r r1 trial Henabled Hgap Hsize Hge E)
        as [Hout _].
      subst output. rewrite Hout, length_firstn.
      destruct trial.
      - pose proof (ShouldReorder_generator m r) as [Hp Hg].
        rewrite E in Hp, Hg. cbn [snd] in Hp, Hg. rewrite Hp, Hg.
        fold buffer. fold shuffled. rewrite (Permutation_length Hperm).
        fold L. fold gap. lia.
      - fold buffer. fold L. fold gap. lia. }
    split; [exact Hlength|]. split; [exact Hperm|].
    split; [|split; [|split]].
    + intros H.
      exact (reorder_release_by_trial m batch r r false Henabled Hgap Hsize Hge
               (Hzero H)).
    + intros H.
      exact (reorder_release_by_trial m batch r r true Henabled Hgap Hsize Hge
               (Hfull H)).
    + intros H0 H100 Hlt.
      assert (E : OutOfOrderModule.ShouldReorder m r
                  = (true, snd (RandomUtils.GetPercentage r)))
        by (rewrite (Hdraw H0 H100); now rewrite (Qle_bool_false rate sample Hlt)).
      exact (reorder_release_by_trial m batch r _ true Henabled Hgap Hsize Hge E).
    + intros H0 H100 Hle.
      assert (E : OutOfOrderModule.ShouldReorder m r
                  = (false, snd (RandomUtils.GetPercentage r)))
        by (rewrite (Hdraw H0 H100); now rewrite (Qle_bool_true rate sample Hle)).
      exact (reorder_release_by_trial m batch r _ false Henabled Hgap Hsize Hge E).
  - intros Hlt. subst output kept. unfold OutOfOrderModule.ProcessBatch.
    rewrite Henabled. cbn [negb]. rewrite add_to_buffer_app.
    fold buffer. fold L. fold gap.
    apply Z.leb_gt in Hlt. rewrite Hlt. now split.
Qed.

Lemma reorder_release_window_witness :
  (* five packets arrive at an empty buffer with gap 4 and rate 50, and
     the percentage drawn is 50, which is not below the rate: three leave
     in arrival order and two stay *)
  fst (fst (OutOfOrderModule.ProcessBatch (Sample.reorder 50 4)
              Sample.five_packets Sample.utils))
    = [Sample.inbound_packet 1 0; Sample.inbound_packet 2 0; Sample.inbound_packet 3 0]
  /\ OutOfOrderModule.packet_buffer_
       (snd (fst (OutOfOrderModule.ProcessBatch (Sample.reorder 50 4)
                    Sample.five_packets Sample.utils)))
    = [Sample.inbound_packet 4 0; Sample.inbound_packet 5 0].
Proof.
  assert (Hshuffle : RandomUtils.permutes Sample.utils).
  { intros n v. simpl. symmetry. apply Permutation_rev. }
  assert (Hgap : 2 <= OutOfOrderModule.reorder_gap_ (Sample.reorder 50 4) <= 10)
    by (simpl; unfold clampZ; simpl; lia).
  assert (Hsize : Z.of_nat (length (OutOfOrderModule.packet_buffer_
                     (Sample.reorder 50 4) ++ Sample.five_packets)) < 2 ^ 64)
    by (simpl; lia).
  pose proof (reorder_release_window (Sample.reorder 50 4) Sample.five_packets
                Sample.utils eq_refl Hgap Hsize Hshuffle) as [Hemit _].
  destruct Hemit as (_ & _ & _ & _ & _ & Hfifo); [simpl; unfold clampZ; simpl; lia|].
  apply Hfifo; vm_compute; first [reflexivity | discriminate].
Defined.

(** ** The order of the stages *)

(** Unfolds the next stage of [Pipeline.run] as far as the stage's own
    [ProcessBatch], which stays folded. *)
Ltac step_pipeline :=
  cbn [fold_left Pipeline.step Pipeline.is_enabled Pipeline.process_batch
       NetworkCapture.packet_loss_module_ NetworkCapture.duplicate_module_
       NetworkCapture.out_of_order_module_ NetworkCapture.jitter_module_
       NetworkCapture.bandwidth_module_ NetworkCapture.latency_module_
       NetworkCapture.utils NetworkCapture.jitter_rng
       NetworkCapture.with_out_of_order NetworkCapture.with_jitter
       NetworkCapture.with_bandwidth NetworkCapture.with_latency].

(** Names what the first stage call in the goal returns. *)
Ltac name_stage_result :=
  match goal with
  | |- context [PacketLossModule.ProcessBatch ?m ?b ?r] =>
      destruct (PacketLossModule.ProcessBatch m b r) as [? ?]
  | |- context [DuplicateModule.ProcessBatch ?m ?b ?r] =>
      destruct (DuplicateModule.ProcessBatch m b r) as [? ?]
  | |- context [OutOfOrderModule.ProcessBatch ?m ?b ?r] =>
      destruct (OutOfOrderModule.ProcessBatch m b r) as [[? ?] ?]
  | |- context [JitterModule.ProcessBatch ?t ?m ?b ?g] =>
      destruct (JitterModule.ProcessBatch t m b g) as [[? ?] ?]
  | |- context [BandwidthModule.ProcessBatch ?t ?m ?b] =>
      destruct (BandwidthModule.ProcessBatch t m b) as [? ?]
  | |- context [LatencyModule.ProcessBatch ?t ?m ?b] =>
      destruct (LatencyModule.ProcessBatch t m b) as [? ?]
  end.

(** C4.  For every batch, what the capture worker makes of it equals
    stepping it through the stages in the order loss, duplicate, reorder,
    jitter, bandwidth, latency, each stage applied with its
    [process_batch] when enabled and skipped when not. *)
Theorem capture_worker_runs_canonical_order
    (clk : NetworkCapture.instants) (c : NetworkCapture.t)
    (batch : packets) (g : NetworkCapture.generators) :
  NetworkCapture.apply_simulation_effects clk c batch g
  = Pipeline.run clk Pipeline.canonical_order (batch, c, g).
Proof.
  destruct c as [cap stop lat loss dup ooo jit bw]. destruct g as [r j].
  unfold NetworkCapture.apply_simulation_effects, Pipeline.run,
    Pipeline.canonical_order.
  unfold PacketLossModule.IsEnabled, DuplicateModule.IsEnabled,
    OutOfOrderModule.IsEnabled, JitterModule.IsEnabled,
    BandwidthModule.IsEnabled, LatencyModule.IsEnabled.
  cbn [NetworkCapture.packet_loss_module_ NetworkCapture.duplicate_module_
       NetworkCapture.out_of_order_module_ NetworkCapture.jitter_module_
       NetworkCapture.bandwidth_module_ NetworkCapture.latency_module_
       NetworkCapture.utils NetworkCapture.jitter_rng].
  destruct (PacketLossModule.enabled_ loss) eqn:E1,
    (DuplicateModule.enabled_ dup) eqn:E2,
    (OutOfOrderModule.enabled_ ooo) eqn:E3,
    (JitterModule.enabled_ jit) eqn:E4,
    (BandwidthModule.enabled_ bw) eqn:E5,
    (LatencyModule.enabled_ lat) eqn:E6;
    repeat (repeat first [ progress step_pipeline
                         | progress rewrite ?E1, ?E2, ?E3, ?E4, ?E5, ?E6 ];
            try name_stage_result);
    reflexivity.
Qed.

(** ** The release queue *)

Lemma push_permutation (p : SimulatedPacket) (q : PacketQueue.t) :
  Permutation (PacketQueue.push p q) (p :: q).
Proof.
  induction q as [|x q IH]; simpl; [reflexivity|].
  destruct (release_time p <? release_time x); [reflexivity|].
  rewrite IH. apply perm_swap.
Qed.

Lemma push_In (p x : SimulatedPacket) (q : PacketQueue.t) :
  In x (PacketQueue.push p q) <-> x = p \/ In x q.
Proof.
  split; intros H.
  - apply (Permutation_in _ (push_permutation p q)) in H.
    destruct H as [H|H]; [left; now symmetry|now right].
  - apply (Permutation_in _ (Permutation_sym (push_permutation p q))).
    destruct H as [H|H]; [left; now symmetry|now right].
Qed.

Lemma push_ascending (p : SimulatedPacket) (q : PacketQueue.t) :
  PacketQueue.ascending q -> PacketQueue.ascending (PacketQueue.push p q).
Proof.
  induction q as [|x q IH]; intros Hq; simpl.
  - split; [constructor|exact I].
  - destruct Hq as [Hx Hq].
    destruct (Z.ltb_spec (release_time p) (release_time x)) as [Hlt|Hge].
    + simpl. split; [|now split].
      constructor; [lia|].
      eapply Forall_impl; [|exact Hx]. intros y Hy. simpl in Hy. lia.
    + simpl. split; [|now apply IH].
      apply Forall_forall. intros y Hy. apply push_In in Hy.
      destruct Hy as [->|Hy]; [lia|].
      rewrite Forall_forall in Hx. now apply Hx.
Qed.

Section ReleaseDue.

(** The instant a release reads from the clock. *)
Variable now : time_point.

Lemma release_due_app (q : PacketQueue.t) :
  fst (PacketQueue.release_due now q) ++ snd (PacketQueue.release_due now q) = q.
Proof.
  induction q as [|x q IH]; simpl; [reflexivity|].
  destruct (release_time x <=? now); [|reflexivity].
  destruct (PacketQueue.release_due now q) as [out rest]. simpl in *.
  now rewrite IH.
Qed.

Lemma release_due_only_due (q : PacketQueue.t) :
  Forall (fun x => release_time x <= now) (fst (PacketQueue.release_due now q)).
Proof.
  induction q as [|x q IH]; simpl; [constructor|].
  destruct (Z.leb_spec (release_time x) now); [|constructor].
  destruct (PacketQueue.release_due now q) as [out rest]. simpl in *.
  now constructor.
Qed.

Lemma release_due_keeps_later (q : PacketQueue.t) :
  PacketQueue.ascending q ->
  Forall (fun x => now < release_time x) (snd (PacketQueue.release_due now q)).
Proof.
  induction q as [|x q IH]; intros Hq; simpl; [constructor|].
  destruct Hq as [Hx Hq].
  destruct (Z.leb_spec (release_time x) now) as [Hle|Hgt].
  - specialize (IH Hq).
    destruct (PacketQueue.release_due now q) as [out rest]. exact IH.
  - simpl. constructor; [exact Hgt|].
    eapply Forall_impl; [|exact Hx]. intros y Hy. simpl in Hy. lia.
Qed.

Lemma release_due_ascending (q : PacketQueue.t) :
  PacketQueue.ascending q ->
  PacketQueue.ascending (snd (PacketQueue.release_due now q)).
Proof.
  induction q as [|x q IH]; intros Hq; simpl; [exact I|].
  destruct (release_time x <=? now).
  - destruct Hq as [_ Hq]. specialize (IH Hq).
    destruct (PacketQueue.release_due now q) as [out rest]. exact IH.
  - exact Hq.
Qed.

(** A packet waiting in the queue leaves it in a release exactly when its
    release time has come. *)
Lemma release_due_In (q : PacketQueue.t) (x : SimulatedPacket) :
  PacketQueue.ascending q -> In x q ->
  (release_time x <= now ->
     In x (fst (PacketQueue.release_due now q))
     /\ ~ In x (snd (PacketQueue.release_due now q)))
  /\ (now < release_time x ->
     ~ In x (fst (PacketQueue.release_due now q))
     /\ In x (snd (PacketQueue.release_due now q))).
Proof.
  intros Hq Hin.
  pose proof (release_due_app q) as Happ.
  pose proof (release_due_only_due q) as Hdue.
  pose proof (release_due_keeps_later q Hq) as Hlater.
  rewrite Forall_forall in Hdue, Hlater.
  rewrite <- Happ in Hin. apply in_app_or in Hin.
  split; intros Ht.
  - assert (Hnot : ~ In x (snd (PacketQueue.release_due now q))).
    { intros H. apply Hlater in H. lia. }
    split; [|exact Hnot]. destruct Hin as [H|H]; [exact H|contradiction].
  - assert (Hnot : ~ In x (fst (PacketQueue.release_due now q))).
    { intros H. apply Hdue in H. lia. }
    split; [exact Hnot|]. destruct Hin as [H|H]; [contradiction|exact H].
Qed.

End ReleaseDue.

(** ** Latency *)

Lemma latency_delay_loop_immediate (now : time_point) (m : LatencyModule.t)
    (batch : packets) (q : PacketQueue.t) :
  fst (LatencyModule.delay_loop now m batch q)
  = filter (fun p => negb (LatencyModule.ShouldProcess m (addr p))) batch.
Proof.
  revert q. induction batch as [|p rest IH]; intros q; simpl; [reflexivity|].
  destruct (LatencyModule.ShouldProcess m (addr p)); simpl; [apply IH|].
  specialize (IH q).
  destruct (LatencyModule.delay_loop now m rest q) as [imm q']. simpl in *.
  now rewrite IH.
Qed.

Lemma latency_delay_loop_queue (now : time_point) (m : LatencyModule.t)
    (batch : packets) (q : PacketQueue.t) :
  Permutation (snd (LatencyModule.delay_loop now m batch q))
    (q ++ map (latency_stamp now m)
            (filter (fun p => LatencyModule.ShouldProcess m (addr p)) batch)).
Proof.
  revert q. induction batch as [|p rest IH]; intros q; simpl.
  - now rewrite app_nil_r.
  - destruct (LatencyModule.ShouldProcess m (addr p)); simpl.
    + rewrite IH, push_permutation.
      fold (latency_stamp now m p).
      apply Permutation_cons_app. reflexivity.
    + specialize (IH q).
      destruct (LatencyModule.delay_loop now m rest q) as [imm q']. exact IH.
Qed.

Lemma latency_delay_loop_ascending (now : time_point) (m : LatencyModule.t)
    (batch : packets) (q : PacketQueue.t) :
  PacketQueue.ascending q ->
  PacketQueue.ascending (snd (LatencyModule.delay_loop now m batch q)).
Proof.
  revert q. induction batch as [|p rest IH]; intros q Hq; simpl; [exact Hq|].
  destruct (LatencyModule.ShouldProcess m (addr p)); simpl.
  - apply IH. now apply push_ascending.
  - specialize (IH q Hq).
    destruct (LatencyModule.delay_loop now m rest q) as [imm q']. exact IH.
Qed.

(** What one call keeps true of an enabled latency module: it stays
    enabled with the same delay, its queue stays ascending, and a packet
    waiting in the queue is still there unless the call is a release at or
    after the packet's release time, which hands it out. *)
Lemma latency_perform_waiting (m : LatencyModule.t) (c : LatencyModule.call)
    (x : SimulatedPacket) :
  LatencyModule.enabled_ m = true ->
  PacketQueue.ascending (LatencyModule.delayed_packets_ m) ->
  In x (LatencyModule.delayed_packets_ m) ->
  let out := fst (LatencyModule.perform m c) in
  let m' := snd (LatencyModule.perform m c) in
  LatencyModule.enabled_ m' = true
  /\ LatencyModule.latency_ m' = LatencyModule.latency_ m
  /\ PacketQueue.ascending (LatencyModule.delayed_packets_ m')
  /\ (LatencyModule.is_release c = false -> In x (LatencyModule.delayed_packets_ m'))
  /\ (LatencyModule.is_release c = true ->
      LatencyModule.instant_of c < release_time x ->
      ~ In x out /\ In x (LatencyModule.delayed_packets_ m'))
  /\ (LatencyModule.is_release c = true ->
      release_time x <= LatencyModule.instant_of c ->
      In x out /\ ~ In x (LatencyModule.delayed_packets_ m')).
Proof.
  intros Hen Hq Hin. destruct c as [now batch|now]; simpl.
  - unfold LatencyModule.ProcessBatch. rewrite Hen. simpl.
    pose proof (latency_delay_loop_queue now m batch (LatencyModule.delayed_packets_ m)) as Hperm.
    pose proof (latency_delay_loop_ascending now m batch _ Hq) as Hasc.
    destruct (LatencyModule.delay_loop now m batch _) as [imm q']. simpl in *.
    repeat split; try assumption; try discriminate.
    intros _. apply (Permutation_in _ (Permutation_sym Hperm)).
    apply in_or_app. now left.
  - unfold LatencyModule.GetReleasablePackets. rewrite Hen. simpl.
    pose proof (release_due_In now _ x Hq Hin) as [Hdue Hlater].
    pose proof (release_due_ascending now _ Hq) as Hasc.
    destruct (PacketQueue.release_due now _) as [out q']. simpl in *.
    split; [exact Hen|]. split; [reflexivity|]. split; [exact Hasc|].
    split; [discriminate|]. split; intros _ Ht.
    + now apply Hlater.
    + now apply Hdue.
Qed.

(** Through any history whose releases all come before the packet's
    release time, the packet waits: no release hands it out and it is in
    the queue at the end. *)
Lemma latency_run_waiting (calls : list LatencyModule.call) (m : LatencyModule.t)
    (x : SimulatedPacket) :
  LatencyModule.enabled_ m = true ->
  PacketQueue.ascending (LatencyModule.delayed_packets_ m) ->
  In x (LatencyModule.delayed_packets_ m) ->
  Forall (fun c => LatencyModule.is_release c = true ->
                   LatencyModule.instant_of c < release_time x) calls ->
  let trace := fst (LatencyModule.run m calls) in
  let m' := snd (LatencyModule.run m calls) in
  LatencyModule.enabled_ m' = true
  /\ PacketQueue.ascending (LatencyModule.delayed_packets_ m')
  /\ In x (LatencyModule.delayed_packets_ m')
  /\ Forall (fun co => LatencyModule.is_release (fst co) = true -> ~ In x (snd co)) trace.
Proof.
  revert m. induction calls as [|c rest IH]; intros m Hen Hq Hin Hcalls; simpl.
  - repeat split; auto.
  - inversion Hcalls as [|c' rest' Hc Hrest]; subst.
    pose proof (latency_perform_waiting m c x Hen Hq Hin)
      as (Hen' & _ & Hq' & Hproc & Hearly & _).
    destruct (LatencyModule.perform m c) as [out m1]. simpl in *.
    assert (Hin' : In x (LatencyModule.delayed_packets_ m1)).
    { destruct (LatencyModule.is_release c) eqn:E.
      - now apply Hearly; [|apply Hc].
      - now apply Hproc. }
    specialize (IH m1 Hen' Hq' Hin' Hrest).
    destruct (LatencyModule.run m1 rest) as [trace m2]. simpl in *.
    destruct IH as (H1 & H2 & H3 & H4).
    repeat split; auto.
    constructor; [|exact H4]. simpl. intros Hrel.
    now apply Hearly; [|apply Hc].
Qed.

(** C8.  The latency stage, enabled throughout with a delay of [D]
    milliseconds.  A packet that passes the direction gate and enters
    [ProcessBatch] at instant [t] is given the release time [t + D] and put
    in the queue, not in the output.  Whatever calls follow, as long as
    every release among them reads an instant before [t + D], none of those
    releases returns the packet; the first release that reads an instant at
    or after [t + D] returns it and leaves the queue without it. *)
Theorem latency_release_time
    (m : LatencyModule.t) (D : Z) (t : time_point) (batch : packets)
    (p : SimulatedPacket) (calls : list LatencyModule.call) (now : time_point)
    (Henabled : LatencyModule.enabled_ m = true)
    (Hdelay : LatencyModule.latency_ m = D)
    (Hqueue : PacketQueue.ascending (LatencyModule.delayed_packets_ m))
    (Hp : In p batch)
    (Hgate : direction_gate (LatencyModule.inbound_enabled_ m)
               (LatencyModule.outbound_enabled_ m) p = true)
    (Hearly : Forall (fun c => LatencyModule.is_release c = true ->
                 LatencyModule.instant_of c < t + milliseconds D) calls)
    (Hnow : t + milliseconds D <= now) :
  let p' := set_release_time (t + milliseconds D) p in
  let m1 := snd (LatencyModule.ProcessBatch t m batch) in
  let trace := fst (LatencyModule.run m1 calls) in
  let m2 := snd (LatencyModule.run m1 calls) in
  ~ In p' (fst (LatencyModule.ProcessBatch t m batch))
  /\ In p' (LatencyModule.delayed_packets_ m1)
  /\ Forall (fun co => LatencyModule.is_release (fst co) = true -> ~ In p' (snd co)) trace
  /\ In p' (fst (LatencyModule.GetReleasablePackets now m2))
  /\ ~ In p' (LatencyModule.delayed_packets_
                (snd (LatencyModule.GetReleasablePackets now m2))).
Proof.
  intros p' m1 trace m2.
  assert (Hgate' : LatencyModule.ShouldProcess m (addr p) = true)
    by now rewrite latency_ShouldProcess_gate.
  assert (Hm1 : LatencyModule.enabled_ m1 = true
                /\ PacketQueue.ascending (LatencyModule.delayed_packets_ m1)
                /\ In p' (LatencyModule.delayed_packets_ m1)
                /\ ~ In p' (fst (LatencyModule.ProcessBatch t m batch))).
  { subst m1. unfold LatencyModule.ProcessBatch. rewrite Henabled. simpl.
    pose proof (latency_delay_loop_immediate t m batch
                  (LatencyModule.delayed_packets_ m)) as Himm.
    pose proof (latency_delay_loop_queue t m batch
                  (LatencyModule.delayed_packets_ m)) as Hperm.
    pose proof (latency_delay_loop_ascending t m batch _ Hqueue) as Hasc.
    destruct (LatencyModule.delay_loop t m batch _) as [imm q']. simpl in *.
    repeat split; auto.
    - apply (Permutation_in _ (Permutation_sym Hperm)).
      apply in_or_app. right.
      subst p'. rewrite <- Hdelay. fold (latency_stamp t m p).
      apply in_map. apply filter_In. now split.
    - rewrite Himm. intros Hin. apply filter_In in Hin.
      destruct Hin as [_ Hin]. subst p'. simpl in Hin.
      now rewrite Hgate' in Hin. }
  destruct Hm1 as (Hen1 & Hasc1 & Hin1 & Hnot).
  pose proof (latency_run_waiting calls m1 p' Hen1 Hasc1 Hin1 Hearly)
    as (Hen2 & Hasc2 & Hin2 & Htrace).
  fold m2 in Hen2, Hasc2, Hin2. fold trace in Htrace.
  pose proof (latency_perform_waiting m2 (LatencyModule.GetReleasablePackets_at now)
                p' Hen2 Hasc2 Hin2) as (_ & _ & _ & _ & _ & Hlast).
  simpl in Hlast. specialize (Hlast eq_refl Hnow).
  repeat split; try assumption; apply Hlast.
Qed.

Lemma latency_release_time_witness :
  (* one packet at instant 0 with 100 ms of latency: a release at 99 ms
     returns nothing, the release at 110 ms returns the packet *)
  fst (LatencyModule.run
         (snd (LatencyModule.ProcessBatch 0 (Sample.latency 100)
                 [Sample.inbound_packet 60 0]))
         [LatencyModule.GetReleasablePackets_at 99000000])
    = [(LatencyModule.GetReleasablePackets_at 99000000, [])]
  /\ In (set_release_time 100000000 (Sample.inbound_packet 60 0))
       (fst (LatencyModule.GetReleasablePackets 110000000
          (snd (LatencyModule.run
                  (snd (LatencyModule.ProcessBatch 0 (Sample.latency 100)
                          [Sample.inbound_packet 60 0]))
                  [LatencyModule.GetReleasablePackets_at 99000000])))).
Proof.
  split; [reflexivity|].
  assert (Hearly : Forall (fun c => LatencyModule.is_release c = true ->
                     LatencyModule.instant_of c < 0 + milliseconds 100)
                     [LatencyModule.GetReleasablePackets_at 99000000]).
  { constructor; [|constructor]. intros _. simpl. unfold milliseconds. lia. }
  assert (Hnow : 0 + milliseconds 100 <= 110000000)
    by (unfold milliseconds; lia).
  exact (proj1 (proj2 (proj2 (proj2
    (latency_release_time (Sample.latency 100) 100 0 [Sample.inbound_packet 60 0]
       (Sample.inbound_packet 60 0) [LatencyModule.GetReleasablePackets_at 99000000]
       110000000 eq_refl eq_refl I (or_introl eq_refl) eq_refl Hearly Hnow))))).
Defined.

(** ** Bandwidth: the token bucket *)

Local Open Scope Q_scope.

Lemma std_min_spec (a b : Q) :
  BandwidthModule.std_min a b <= a /\ BandwidthModule.std_min a b <= b
  /\ (BandwidthModule.std_min a b == a \/ BandwidthModule.std_min a b == b).
Proof.
  unfold BandwidthModule.std_min.
  destruct (Qlt_le_dec b a); repeat split; lra.
Qed.

Lemma inject_Z_nonneg (z : Z) : (0 <= z)%Z -> 0 <= inject_Z z.
Proof. intros H. change 0 with (inject_Z 0). now rewrite <- Zle_Qle. Qed.

Lemma elapsed_seconds_nonneg (last now : time_point) :
  (last <= now)%Z -> 0 <= BandwidthModule.elapsed_seconds last now.
Proof.
  intros H. unfold BandwidthModule.elapsed_seconds.
  assert (H0 : 0 <= inject_Z (now - last)) by (apply inject_Z_nonneg; lia).
  revert H0. generalize (inject_Z (now - last)). intros x Hx.
  apply Qle_shift_div_l; lra.
Qed.

Lemma elapsed_seconds_add (a b c : time_point) :
  BandwidthModule.elapsed_seconds a c
  == BandwidthModule.elapsed_seconds a b + BandwidthModule.elapsed_seconds b c.
Proof.
  unfold BandwidthModule.elapsed_seconds.
  replace (c - a)%Z with ((b - a) + (c - b))%Z by lia.
  rewrite inject_Z_plus. field.
Qed.

Lemma bytes_to_add_rate (now : time_point) (m : BandwidthModule.t) :
  BandwidthModule.bytes_to_add now m
  == inject_Z (BandwidthModule.bandwidth_kbps_ m) * 125
     * BandwidthModule.elapsed_seconds (BandwidthModule.last_refill_time_ m) now.
Proof.
  unfold BandwidthModule.bytes_to_add, BandwidthModule.bytes_per_second. field.
Qed.

Lemma bytes_to_add_nonneg (now : time_point) (m : BandwidthModule.t) :
  (0 <= BandwidthModule.bandwidth_kbps_ m)%Z ->
  (BandwidthModule.last_refill_time_ m <= now)%Z ->
  0 <= BandwidthModule.bytes_to_add now m.
Proof.
  intros Hk Ht. rewrite bytes_to_add_rate.
  pose proof (inject_Z_nonneg _ Hk).
  pose proof (elapsed_seconds_nonneg _ _ Ht).
  apply Qmult_le_0_compat; [|assumption].
  apply Qmult_le_0_compat; [assumption|lra].
Qed.

Lemma total_bytes_app (u v : packets) :
  (total_bytes (u ++ v) = total_bytes u + total_bytes v)%Z.
Proof.
  induction u as [|p u IH]; simpl; [reflexivity|].
  fold (total_bytes (u ++ v)). fold (total_bytes u). lia.
Qed.


(** The release loop: what leaves and what stays make up the queue, the
    tokens spent are the bytes released, and the balance stays at or above
    zero. *)
Lemma process_queue_spec (available : Q) (q : packets) :
  let out := fst (fst (BandwidthModule.process_queue available q)) in
  let a := snd (fst (BandwidthModule.process_queue available q)) in
  let rest := snd (BandwidthModule.process_queue available q) in
  out ++ rest = q
  /\ a == available - inject_Z (total_bytes out)
  /\ (0 <= available -> 0 <= a)
  /\ (out <> [] -> 0 <= a).
Proof.
  revert available. induction q as [|p q IH]; intros available; simpl.
  - repeat split; try lra; try tauto. unfold inject_Z. lra.
  - unfold BandwidthModule.ConsumeTokens.
    destruct (Qle_bool (BandwidthModule.packet_size p) available) eqn:E.
    + apply Qle_bool_iff in E.
      specialize (IH (available - BandwidthModule.packet_size p)).
      destruct (BandwidthModule.process_queue _ q) as [[out a] rest].
      simpl in *. destruct IH as (Happ & Ha & Hpos & _).
      assert (Hge : 0 <= a) by (apply Hpos; lra).
      repeat split; auto.
      * now rewrite Happ.
      * fold (total_bytes out). rewrite inject_Z_plus.
        unfold BandwidthModule.packet_size in Ha. lra.
    + simpl. repeat split; try tauto. unfold inject_Z; lra.
Qed.

Lemma add_to_queue_spec (m : BandwidthModule.t) (batch q : packets) :
  BandwidthModule.add_to_queue m batch q
  = (filter (fun p => negb (BandwidthModule.ShouldProcess m (addr p))) batch,
     q ++ filter (fun p => BandwidthModule.ShouldProcess m (addr p)) batch).
Proof.
  revert q. induction batch as [|p rest IH]; intros q; simpl.
  - now rewrite app_nil_r.
  - destruct (BandwidthModule.ShouldProcess m (addr p)); simpl.
    + rewrite IH. now rewrite <- app_assoc.
    + now rewrite IH.
Qed.

Lemma RefillTokenBucket_spec (now : time_point) (m : BandwidthModule.t) :
  let m' := BandwidthModule.RefillTokenBucket now m in
  BandwidthModule.available_bytes_ m' <= BandwidthModule.max_burst_bytes_ m
  /\ BandwidthModule.available_bytes_ m'
     <= BandwidthModule.available_bytes_ m + BandwidthModule.bytes_to_add now m
  /\ (0 <= BandwidthModule.available_bytes_ m ->
      0 <= BandwidthModule.max_burst_bytes_ m ->
      0 <= BandwidthModule.bytes_to_add now m ->
      0 <= BandwidthModule.available_bytes_ m').
Proof.
  simpl.
  destruct (std_min_spec
              (BandwidthModule.available_bytes_ m + BandwidthModule.bytes_to_add now m)
              (BandwidthModule.max_burst_bytes_ m)) as (H1 & H2 & [H3|H3]);
    repeat split; try assumption; intros; lra.
Qed.


Lemma burst_nonneg (m : BandwidthModule.t) :
  BandwidthModule.burst_is_one_second m -> 0 <= BandwidthModule.max_burst_bytes_ m.
Proof.
  intros [Hk Hb]. rewrite Hb.
  pose proof (inject_Z_nonneg _ Hk).
  apply Qmult_le_0_compat; [assumption|lra].
Qed.





Lemma refill_in_range (now : time_point) (m : BandwidthModule.t) :
  BandwidthModule.burst_is_one_second m ->
  0 <= BandwidthModule.available_bytes_ m ->
  (BandwidthModule.last_refill_time_ m <= now)%Z ->
  BandwidthModule.tokens_in_range (BandwidthModule.RefillTokenBucket now m).
Proof.
  intros Hburst Hlow Hclock.
  pose proof (RefillTokenBucket_spec now m) as (Hup & _ & Hpos).
  split; [|exact Hup].
  apply Hpos; [assumption|now apply burst_nonneg|].
  apply bytes_to_add_nonneg; [apply Hburst|assumption].
Qed.





(** ** Bandwidth: shaping *)

Lemma gated_out_bytes_flags (m m' : BandwidthModule.t) (calls : list BandwidthModule.call) :
  BandwidthModule.inbound_enabled_ m' = BandwidthModule.inbound_enabled_ m ->
  BandwidthModule.outbound_enabled_ m' = BandwidthModule.outbound_enabled_ m ->
  BandwidthModule.gated_out_bytes m' calls = BandwidthModule.gated_out_bytes m calls.
Proof.
  intros Hi Ho. induction calls as [|c rest IH]; simpl; [reflexivity|].
  rewrite IH. destruct c; [|reflexivity].
  unfold BandwidthModule.ShouldProcess. now rewrite Hi, Ho.
Qed.


(** One call on an enabled module: the bytes returned and the balance
    left add up to the balance after the refill and the bytes that went
    round the bucket. *)
Lemma bandwidth_perform_account (m : BandwidthModule.t) (c : BandwidthModule.call) :
  BandwidthModule.enabled_ m = true ->
  let out := fst (BandwidthModule.perform m c) in
  let m' := snd (BandwidthModule.perform m c) in
  let refilled := BandwidthModule.RefillTokenBucket (BandwidthModule.instant_of c) m in
  BandwidthModule.enabled_ m' = true
  /\ BandwidthModule.inbound_enabled_ m' = BandwidthModule.inbound_enabled_ m
  /\ BandwidthModule.outbound_enabled_ m' = BandwidthModule.outbound_enabled_ m
  /\ BandwidthModule.bandwidth_kbps_ m' = BandwidthModule.bandwidth_kbps_ m
  /\ BandwidthModule.max_burst_bytes_ m' = BandwidthModule.max_burst_bytes_ m
  /\ BandwidthModule.last_refill_time_ m' = BandwidthModule.instant_of c
  /\ inject_Z (total_bytes out) + BandwidthModule.available_bytes_ m'
     == BandwidthModule.available_bytes_ refilled
        + inject_Z (BandwidthModule.gated_out_bytes m [c])
  /\ (0 <= BandwidthModule.available_bytes_ refilled ->
      0 <= BandwidthModule.available_bytes_ m').
Proof.
  intros Hen. destruct c as [now batch|now]; simpl.
  - unfold BandwidthModule.ProcessBatch. rewrite Hen. simpl negb. cbv iota.
    set (m1 := BandwidthModule.RefillTokenBucket now m).
    rewrite add_to_queue_spec.
    match goal with |- context [BandwidthModule.process_queue ?a ?q] =>
      pose proof (process_queue_spec a q) as (_ & Ha & Hpos & _);
      destruct (BandwidthModule.process_queue a q) as [[out a'] rest]
    end. simpl in *.
    repeat split; try assumption.
    rewrite total_bytes_app, inject_Z_plus, Ha, Z.add_0_r.
    replace (filter (fun p => negb (BandwidthModule.ShouldProcess m1 (addr p))) batch)
      with (filter (fun p => negb (BandwidthModule.ShouldProcess m (addr p))) batch)
      by reflexivity.
    generalize (inject_Z (total_bytes out)).
    generalize (inject_Z (total_bytes
      (filter (fun p => negb (BandwidthModule.ShouldProcess m (addr p))) batch))).
    intros x y. lra.
  - unfold BandwidthModule.GetReleasablePackets. rewrite Hen. simpl negb. cbv iota.
    set (m1 := BandwidthModule.RefillTokenBucket now m).
    match goal with |- context [BandwidthModule.process_queue ?a ?q] =>
      pose proof (process_queue_spec a q) as (_ & Ha & Hpos & _);
      destruct (BandwidthModule.process_queue a q) as [[out a'] rest]
    end. simpl in *.
    repeat split; try assumption.
    rewrite Ha. generalize (inject_Z (total_bytes out)). intros x.
    unfold inject_Z. lra.
Qed.

Lemma gated_out_bytes_cons (m : BandwidthModule.t) (c : BandwidthModule.call)
    (rest : list BandwidthModule.call) :
  (BandwidthModule.gated_out_bytes m (c :: rest)
   = BandwidthModule.gated_out_bytes m [c] + BandwidthModule.gated_out_bytes m rest)%Z.
Proof. destruct c; simpl; lia. Qed.

(** Over a history of calls on an enabled module, the bytes returned and
    the balance left at the end are covered by the balance at the start,
    the refill the elapsed time allows, and the bytes that went round the
    bucket. *)
Lemma bandwidth_run_account (calls : list BandwidthModule.call) :
  forall (m : BandwidthModule.t) (until : time_point),
  BandwidthModule.enabled_ m = true ->
  BandwidthModule.burst_is_one_second m ->
  0 <= BandwidthModule.available_bytes_ m ->
  BandwidthModule.chronological (BandwidthModule.last_refill_time_ m) until calls ->
  let trace := fst (BandwidthModule.run m calls) in
  let m' := snd (BandwidthModule.run m calls) in
  (BandwidthModule.last_refill_time_ m <= BandwidthModule.last_refill_time_ m' <= until)%Z
  /\ 0 <= BandwidthModule.available_bytes_ m'
  /\ inject_Z (BandwidthModule.emitted_bytes trace) + BandwidthModule.available_bytes_ m'
     <= BandwidthModule.available_bytes_ m
        + inject_Z (BandwidthModule.bandwidth_kbps_ m) * 125
          * BandwidthModule.elapsed_seconds (BandwidthModule.last_refill_time_ m)
              (BandwidthModule.last_refill_time_ m')
        + inject_Z (BandwidthModule.gated_out_bytes m calls).
Proof.
  induction calls as [|c rest IH]; intros m until Hen Hburst Hlow Hchron.
  - simpl in *. split; [lia|]. split; [assumption|].
    unfold BandwidthModule.elapsed_seconds. rewrite Z.sub_diag.
    unfold inject_Z at 1 3 4. unfold Qdiv. lra.
  - destruct Hchron as [Hnow Hrest]. cbn [BandwidthModule.run].
    pose proof (bandwidth_perform_account m c Hen)
      as (Hen1 & Hin1 & Hout1 & Hk1 & Hb1 & Hlast1 & Hacc & Hpos).
    pose proof (refill_in_range (BandwidthModule.instant_of c) m Hburst Hlow Hnow)
      as [Hr0 Hr1].
    pose proof (RefillTokenBucket_spec (BandwidthModule.instant_of c) m)
      as (_ & Hradd & _).
    rewrite bytes_to_add_rate in Hradd.
    destruct (BandwidthModule.perform m c) as [out m1]. cbn [fst snd] in *.
    assert (Hburst1 : BandwidthModule.burst_is_one_second m1).
    { unfold BandwidthModule.burst_is_one_second. rewrite Hk1, Hb1. exact Hburst. }
    rewrite <- Hlast1 in Hrest.
    specialize (IH m1 until Hen1 Hburst1 (Hpos Hr0) Hrest).
    destruct (BandwidthModule.run m1 rest) as [trace m2]. cbn [fst snd] in *.
    destruct IH as (Htime & Hend & Hsum).
    rewrite Hk1, (gated_out_bytes_flags m m1 rest Hin1 Hout1) in Hsum.
    split; [lia|]. split; [assumption|].
    unfold BandwidthModule.emitted_bytes. cbn [fold_right snd].
    fold (BandwidthModule.emitted_bytes trace).
    rewrite (gated_out_bytes_cons m c rest), !inject_Z_plus.
    rewrite (elapsed_seconds_add (BandwidthModule.last_refill_time_ m)
               (BandwidthModule.instant_of c) (BandwidthModule.last_refill_time_ m2)).
    rewrite Hlast1 in Hsum.
    revert Hacc Hsum Hradd.
    generalize (inject_Z (total_bytes out)).
    generalize (inject_Z (BandwidthModule.emitted_bytes trace)).
    generalize (inject_Z (BandwidthModule.gated_out_bytes m [c])).
    generalize (inject_Z (BandwidthModule.gated_out_bytes m rest)).
    generalize (inject_Z (BandwidthModule.bandwidth_kbps_ m)).
    generalize (BandwidthModule.elapsed_seconds (BandwidthModule.last_refill_time_ m)
                  (BandwidthModule.instant_of c)).
    generalize (BandwidthModule.elapsed_seconds (BandwidthModule.instant_of c)
                  (BandwidthModule.last_refill_time_ m2)).
    generalize (BandwidthModule.available_bytes_
                  (BandwidthModule.RefillTokenBucket (BandwidthModule.instant_of c) m)).
    intros aR e2 e1 K g2 g1 em o Hacc Hsum Hradd. lra.
Qed.






Lemma emitted_by_steps_cons (s : BandwidthModule.step) (out : packets)
    (trace : list (BandwidthModule.step * packets)) :
  BandwidthModule.emitted_by_steps ((s, out) :: trace)
  = (total_bytes out + BandwidthModule.emitted_by_steps trace)%Z.
Proof. reflexivity. Qed.



(** A history of batch calls alone returns the same bytes whether it is
    run as calls or as steps. *)
Lemma run_steps_of_calls (calls : list BandwidthModule.call) (m : BandwidthModule.t) :
  BandwidthModule.emitted_by_steps
    (fst (BandwidthModule.run_steps m (map BandwidthModule.Batch_call calls)))
  = BandwidthModule.emitted_bytes (fst (BandwidthModule.run m calls))
  /\ snd (BandwidthModule.run_steps m (map BandwidthModule.Batch_call calls))
     = snd (BandwidthModule.run m calls)
  /\ (forall from until,
        BandwidthModule.chronological_steps from until
          (map BandwidthModule.Batch_call calls)
        <-> BandwidthModule.chronological from until calls).
Proof.
  revert m. induction calls as [|c rest IH]; intros m.
  - repeat split; intros H; exact H.
  - cbn [map BandwidthModule.run_steps BandwidthModule.run BandwidthModule.perform_step].
    destruct (BandwidthModule.perform m c) as [out m1].
    destruct (IH m1) as (IH1 & IH2 & IH3).
    destruct (BandwidthModule.run_steps m1 (map BandwidthModule.Batch_call rest))
      as [trace m2].
    destruct (BandwidthModule.run m1 rest) as [trace' m2'].
    cbn [fst snd] in *.
    split; [|split; [exact IH2|]].
    + rewrite emitted_by_steps_cons, IH1. reflexivity.
    + intros from until.
      cbn [BandwidthModule.chronological_steps BandwidthModule.instant_of_step
           BandwidthModule.chronological].
      rewrite IH3. reflexivity.
Qed.

(** The bound without the reseeding term fails once [SetEnabled(true)] is
    called on the enabled stage: at 1200 kbps three offers of 75000 bytes
    at one instant, with the call before the second and the third, all
    come straight out, 225000 bytes against a burst of 150000. *)
Lemma bandwidth_bound_exceeded_by_reseeding :
  BandwidthModule.chronological_steps 0 0 Sample.reseeding_steps
  /\ Forall (BandwidthModule.keeps_rate 1200) Sample.reseeding_steps
  /\ BandwidthModule.bypassed_bytes (Sample.bandwidth 1200) Sample.reseeding_steps = 0%Z
  /\ BandwidthModule.reseeds Sample.reseeding_steps = 2%nat
  /\ BandwidthModule.emitted_by_steps
       (fst (BandwidthModule.run_steps (Sample.bandwidth 1200) Sample.reseeding_steps))
     = 225000%Z
  /\ inject_Z 1200 * 125 * BandwidthModule.elapsed_seconds 0 0
     + BandwidthModule.max_burst_bytes_ (Sample.bandwidth 1200) == 150000.
Proof.
  split; [simpl; lia|]. split; [repeat constructor|].
  split; [vm_compute; reflexivity|]. split; [reflexivity|].
  split; [vm_compute; reflexivity|].
  apply Qeq_bool_iff. vm_compute. reflexivity.
Qed.




Local Close Scope Q_scope.

(** ** Conservation of packets *)

Lemma filter_split_permutation (f : SimulatedPacket -> bool) (v : packets) :
  Permutation (filter (fun p => negb (f p)) v ++ filter f v) v.
Proof.
  induction v as [|p v IH]; simpl; [constructor|].
  destruct (f p); simpl.
  - symmetry. apply Permutation_cons_app. now symmetry.
  - now constructor.
Qed.

Lemma jitter_delay_loop_conserves (now : time_point) (m : JitterModule.t)
    (batch : packets) (q : PacketQueue.t) (g : JitterModule.rng) :
  let immediate := fst (fst (JitterModule.delay_loop now m batch q g)) in
  let q' := snd (fst (JitterModule.delay_loop now m batch q g)) in
  Permutation (map identity (immediate ++ q')) (map identity (batch ++ q)).
Proof.
  revert q g. induction batch as [|p rest IH]; intros q g; simpl.
  - reflexivity.
  - destruct (JitterModule.ShouldProcess m (addr p)).
    + destruct (JitterModule.GenerateJitter m g) as [jitter_ms g1].
      rewrite IH. rewrite !map_app.
      rewrite (Permutation_map identity (push_permutation _ q)). simpl.
      symmetry. apply Permutation_cons_app. reflexivity.
    + specialize (IH q g).
      destruct (JitterModule.delay_loop now m rest q g) as [[imm q'] g'].
      simpl in *. now constructor.
Qed.

Lemma jitter_delay_loop_immediate (now : time_point) (m : JitterModule.t)
    (batch : packets) (q : PacketQueue.t) (g : JitterModule.rng) :
  fst (fst (JitterModule.delay_loop now m batch q g))
  = filter (fun p => negb (JitterModule.ShouldProcess m (addr p))) batch.
Proof.
  revert q g. induction batch as [|p rest IH]; intros q g; simpl; [reflexivity|].
  destruct (JitterModule.ShouldProcess m (addr p)); simpl.
  - destruct (JitterModule.GenerateJitter m g) as [jitter_ms g1]. apply IH.
  - specialize (IH q g).
    destruct (JitterModule.delay_loop now m rest q g) as [[imm q'] g'].
    simpl in *. now rewrite IH.
Qed.

Lemma latency_delay_loop_conserves (now : time_point) (m : LatencyModule.t)
    (batch : packets) (q : PacketQueue.t) :
  let immediate := fst (LatencyModule.delay_loop now m batch q) in
  let q' := snd (LatencyModule.delay_loop now m batch q) in
  Permutation (map identity (immediate ++ q')) (map identity (batch ++ q)).
Proof.
  simpl. rewrite latency_delay_loop_immediate.
  rewrite !map_app.
  rewrite (Permutation_map identity (latency_delay_loop_queue now m batch q)).
  rewrite map_app, map_map.
  change (map (fun x : SimulatedPacket => identity (latency_stamp now m x)))
    with (map identity).
  rewrite <- !map_app. apply Permutation_map.
  rewrite (Permutation_app_comm q), app_assoc.
  apply Permutation_app_tail. apply filter_split_permutation.
Qed.

Lemma survivors_never_add (m : PacketLossModule.t) (batch : packets)
    (r : RandomUtils.t) :
  exists dropped,
    Permutation (fst (PacketLossModule.survivors m batch r) ++ dropped) batch.
Proof.
  revert r. induction batch as [|p rest IH]; intros r; simpl.
  - exists []. constructor.
  - destruct (PacketLossModule.ShouldProcess m (addr p)).
    + destruct (PacketLossModule.ShouldDrop m r) as [drop r1].
      destruct (IH r1) as [dropped Hd].
      destruct (PacketLossModule.survivors m rest r1) as [out r2]. simpl in *.
      destruct drop; simpl.
      * exists (p :: dropped). symmetry. apply Permutation_cons_app. now symmetry.
      * exists dropped. now constructor.
    + destruct (IH r) as [dropped Hd].
      destruct (PacketLossModule.survivors m rest r) as [out r2]. simpl in *.
      exists dropped. now constructor.
Qed.

Lemma fan_out_never_removes (m : DuplicateModule.t) (batch out : packets)
    (r : RandomUtils.t) :
  exists copies,
    Permutation (fst (DuplicateModule.fan_out m batch out r)) (out ++ batch ++ copies)
    /\ Forall (fun c => In c batch) copies.
Proof.
  revert out r. induction batch as [|p rest IH]; intros out r; simpl.
  - exists []. split; [now rewrite app_nil_r|constructor].
  - unfold back at 1. rewrite last_last.
    assert (Hweak : forall copies, Forall (fun c => In c rest) copies ->
                      Forall (fun c => p = c \/ In c rest) copies).
    { intros copies H. eapply Forall_impl; [|exact H]. intros c Hc. now right. }
    destruct (DuplicateModule.ShouldProcess m (addr p)).
    + destruct (DuplicateModule.ShouldDuplicate m r) as [dup r1]. destruct dup.
      * rewrite push_duplicates_repeat.
        destruct (IH (out ++ p :: repeat p (Z.to_nat (DuplicateModule.duplicate_count_ m))) r1)
          as [copies [Hperm Hin]].
        exists (repeat p (Z.to_nat (DuplicateModule.duplicate_count_ m)) ++ copies).
        split.
        -- rewrite Hperm, <- !app_assoc. apply Permutation_app_head. simpl.
           constructor. rewrite !app_assoc. apply Permutation_app_tail.
           apply Permutation_app_comm.
        -- apply Forall_app. split; [|now apply Hweak].
           apply Forall_forall. intros c Hc. apply repeat_spec in Hc. now left.
      * destruct (IH (out ++ [p]) r1) as [copies [Hperm Hin]].
        exists copies. split; [|now apply Hweak].
        now rewrite Hperm, <- app_assoc.
    + destruct (IH (out ++ [p]) r) as [copies [Hperm Hin]].
      exists copies. split; [|now apply Hweak].
      now rewrite Hperm, <- app_assoc.
Qed.

Lemma queued_from_push (batch q : packets) (p x : SimulatedPacket) (t : time_point) :
  queued_from batch (PacketQueue.push (set_release_time t p) q) x ->
  queued_from (p :: batch) q x.
Proof.
  intros [Hin|[p0 [Hp0 Hx]]].
  - apply push_In in Hin. destruct Hin as [->|Hin]; [|now left].
    right. exists p. split; [now left|reflexivity].
  - right. exists p0. split; [now right|exact Hx].
Qed.

Lemma queued_from_skip (batch q : packets) (p x : SimulatedPacket) :
  queued_from batch q x -> queued_from (p :: batch) q x.
Proof.
  intros [Hin|[p0 [Hp0 Hx]]]; [now left|].
  right. exists p0. split; [now right|exact Hx].
Qed.

Lemma jitter_delay_loop_members (now : time_point) (m : JitterModule.t)
    (batch : packets) (q : PacketQueue.t) (g : JitterModule.rng) :
  Forall (fun x => In x batch) (fst (fst (JitterModule.delay_loop now m batch q g)))
  /\ Forall (queued_from batch q) (snd (fst (JitterModule.delay_loop now m batch q g))).
Proof.
  revert q g. induction batch as [|p rest IH]; intros q g; simpl.
  - split; [constructor|]. apply Forall_forall. intros x Hx. now left.
  - destruct (JitterModule.ShouldProcess m (addr p)).
    + destruct (JitterModule.GenerateJitter m g) as [jitter_ms g1].
      destruct (IH (PacketQueue.push
                      (set_release_time (now + milliseconds jitter_ms) p) q) g1)
        as [Himm Hq].
      split.
      * eapply Forall_impl; [|exact Himm]. intros x Hx. now right.
      * eapply Forall_impl; [|exact Hq]. intros x Hx.
        eapply queued_from_push. exact Hx.
    + destruct (IH q g) as [Himm Hq].
      destruct (JitterModule.delay_loop now m rest q g) as [[imm q'] g'].
      simpl in *. split.
      * constructor; [now left|].
        eapply Forall_impl; [|exact Himm]. intros x Hx. now right.
      * eapply Forall_impl; [|exact Hq]. intros x Hx. now apply queued_from_skip.
Qed.

Lemma latency_delay_loop_members (now : time_point) (m : LatencyModule.t)
    (batch : packets) (q : PacketQueue.t) :
  Forall (fun x => In x batch) (fst (LatencyModule.delay_loop now m batch q))
  /\ Forall (queued_from batch q) (snd (LatencyModule.delay_loop now m batch q)).
Proof.
  revert q. induction batch as [|p rest IH]; intros q; simpl.
  - split; [constructor|]. apply Forall_forall. intros x Hx. now left.
  - destruct (LatencyModule.ShouldProcess m (addr p)).
    + destruct (IH (PacketQueue.push
                      (set_release_time (now + milliseconds (LatencyModule.latency_ m)) p) q))
        as [Himm Hq].
      split.
      * eapply Forall_impl; [|exact Himm]. intros x Hx. now right.
      * eapply Forall_impl; [|exact Hq]. intros x Hx.
        eapply queued_from_push. exact Hx.
    + destruct (IH q) as [Himm Hq].
      destruct (LatencyModule.delay_loop now m rest q) as [imm q'].
      simpl in *. split.
      * constructor; [now left|].
        eapply Forall_impl; [|exact Himm]. intros x Hx. now right.
      * eapply Forall_impl; [|exact Hq]. intros x Hx. now apply queued_from_skip.
Qed.

Lemma queued_from_refl (batch q : packets) : Forall (queued_from batch q) q.
Proof. apply Forall_forall. intros x Hx. now left. Qed.

Lemma In_refl_Forall (v : packets) : Forall (fun x => In x v) v.
Proof. apply Forall_forall. auto. Qed.

Lemma reorder_conserves (m : OutOfOrderModule.t) (batch : packets) (r : RandomUtils.t) :
  RandomUtils.permutes r ->
  Permutation
    (fst (fst (OutOfOrderModule.ProcessBatch m batch r))
     ++ OutOfOrderModule.packet_buffer_ (snd (fst (OutOfOrderModule.ProcessBatch m batch r))))
    (batch ++ OutOfOrderModule.packet_buffer_ m)
  /\ fst (OutOfOrderModule.GetReleasablePackets m)
     ++ OutOfOrderModule.packet_buffer_ (snd (OutOfOrderModule.GetReleasablePackets m))
     = OutOfOrderModule.packet_buffer_ m.
Proof.
  intros Hshuffle. split.
  - unfold OutOfOrderModule.ProcessBatch.
    destruct (OutOfOrderModule.enabled_ m); simpl; [|reflexivity].
    rewrite add_to_buffer_app.
    destruct (_ <=? _); simpl; [|apply Permutation_app_comm].
    destruct (ShouldReorder_generator m r) as [Hp _].
    destruct (OutOfOrderModule.ShouldReorder m r) as [reorder r1]. simpl in Hp.
    assert (Hr1 : forall n v, Permutation (RandomUtils.permutation r1 n v) v)
      by (intros n v; rewrite Hp; apply Hshuffle).
    destruct reorder.
    + pose proof (ShuffleBuffer_permutation
                    (OutOfOrderModule.packet_buffer_ m ++ batch) r1 Hr1) as Hperm.
      destruct (OutOfOrderModule.ShuffleBuffer _ r1) as [buffer1 r2]. simpl in Hperm.
      rewrite move_to_output_firstn_skipn. simpl.
      rewrite firstn_skipn, Hperm. apply Permutation_app_comm.
    + rewrite move_to_output_firstn_skipn. simpl.
      rewrite firstn_skipn. apply Permutation_app_comm.
  - unfold OutOfOrderModule.GetReleasablePackets.
    destruct (OutOfOrderModule.enabled_ m); simpl; [reflexivity|apply app_nil_r].
Qed.

Lemma jitter_conserves (now : time_point) (m : JitterModule.t) (batch : packets)
    (g : JitterModule.rng) :
  (Permutation
     (map identity
        (fst (fst (JitterModule.ProcessBatch now m batch g))
         ++ JitterModule.delayed_packets_ (snd (fst (JitterModule.ProcessBatch now m batch g)))))
     (map identity (batch ++ JitterModule.delayed_packets_ m))
   /\ Forall (fun x => In x batch) (fst (fst (JitterModule.ProcessBatch now m batch g)))
   /\ Forall (queued_from batch (JitterModule.delayed_packets_ m))
        (JitterModule.delayed_packets_ (snd (fst (JitterModule.ProcessBatch now m batch g)))))
  /\ fst (JitterModule.GetReleasablePackets now m)
     ++ JitterModule.delayed_packets_ (snd (JitterModule.GetReleasablePackets now m))
     = JitterModule.delayed_packets_ m.
Proof.
  split.
  - unfold JitterModule.ProcessBatch.
    destruct (JitterModule.enabled_ m); simpl.
    + pose proof (jitter_delay_loop_conserves now m batch
                    (JitterModule.delayed_packets_ m) g) as H.
      pose proof (jitter_delay_loop_members now m batch
                    (JitterModule.delayed_packets_ m) g) as [Hi Hq].
      destruct (JitterModule.delay_loop now m batch _ g) as [[imm q'] g'].
      now repeat split.
    + split; [reflexivity|]. split; [apply In_refl_Forall|apply queued_from_refl].
  - unfold JitterModule.GetReleasablePackets.
    destruct (JitterModule.enabled_ m); simpl; [|apply app_nil_r].
    pose proof (release_due_app now (JitterModule.delayed_packets_ m)) as H.
    destruct (PacketQueue.release_due now _) as [out q']. exact H.
Qed.

Lemma latency_conserves (now : time_point) (m : LatencyModule.t) (batch : packets) :
  (Permutation
     (map identity
        (fst (LatencyModule.ProcessBatch now m batch)
         ++ LatencyModule.delayed_packets_ (snd (LatencyModule.ProcessBatch now m batch))))
     (map identity (batch ++ LatencyModule.delayed_packets_ m))
   /\ Forall (fun x => In x batch) (fst (LatencyModule.ProcessBatch now m batch))
   /\ Forall (queued_from batch (LatencyModule.delayed_packets_ m))
        (LatencyModule.delayed_packets_ (snd (LatencyModule.ProcessBatch now m batch))))
  /\ fst (LatencyModule.GetReleasablePackets now m)
     ++ LatencyModule.delayed_packets_ (snd (LatencyModule.GetReleasablePackets now m))
     = LatencyModule.delayed_packets_ m.
Proof.
  split.
  - unfold LatencyModule.ProcessBatch.
    destruct (LatencyModule.enabled_ m); simpl.
    + pose proof (latency_delay_loop_conserves now m batch
                    (LatencyModule.delayed_packets_ m)) as H.
      pose proof (latency_delay_loop_members now m batch
                    (LatencyModule.delayed_packets_ m)) as [Hi Hq].
      destruct (LatencyModule.delay_loop now m batch _) as [imm q'].
      now repeat split.
    + split; [reflexivity|]. split; [apply In_refl_Forall|apply queued_from_refl].
  - unfold LatencyModule.GetReleasablePackets.
    destruct (LatencyModule.enabled_ m); simpl; [|apply app_nil_r].
    pose proof (release_due_app now (LatencyModule.delayed_packets_ m)) as H.
    destruct (PacketQueue.release_due now _) as [out q']. exact H.
Qed.

Lemma bandwidth_conserves (now : time_point) (m : BandwidthModule.t) (batch : packets) :
  Permutation
    (fst (BandwidthModule.ProcessBatch now m batch)
     ++ BandwidthModule.packet_queue_ (snd (BandwidthModule.ProcessBatch now m batch)))
    (batch ++ BandwidthModule.packet_queue_ m)
  /\ fst (BandwidthModule.GetReleasablePackets now m)
     ++ BandwidthModule.packet_queue_ (snd (BandwidthModule.GetReleasablePackets now m))
     = BandwidthModule.packet_queue_ m.
Proof.
  split.
  - unfold BandwidthModule.ProcessBatch.
    destruct (BandwidthModule.enabled_ m); simpl; [|reflexivity].
    rewrite add_to_queue_spec.
    match goal with |- context [BandwidthModule.process_queue ?a ?q] =>
      pose proof (process_queue_spec a q) as (Happ & _);
      destruct (BandwidthModule.process_queue a q) as [[out a'] rest]
    end. simpl in *.
    rewrite <- app_assoc, Happ.
    rewrite (Permutation_app_comm (BandwidthModule.packet_queue_ m)), app_assoc.
    apply Permutation_app_tail.
    apply (filter_split_permutation
             (fun p => BandwidthModule.ShouldProcess m (addr p))).
  - unfold BandwidthModule.GetReleasablePackets.
    destruct (BandwidthModule.enabled_ m); simpl; [|apply app_nil_r].
    match goal with |- context [BandwidthModule.process_queue ?a ?q] =>
      pose proof (process_queue_spec a q) as (Happ & _);
      destruct (BandwidthModule.process_queue a q) as [[out a'] rest]
    end. exact Happ.
Qed.

(** C10.  The reorder, jitter, latency and bandwidth stages conserve
    packets: for [ProcessBatch] and for [GetReleasablePackets], enabled or
    not, the packets returned together with those held afterwards are the
    packets handed in together with those held before.  Packets are told
    apart by bytes, address record and capture time stamp: the jitter and
    latency stages return input packets as they came and write
    [release_time], and nothing else, on the packets they queue.  The
    loss stage returns some of its input and nothing else; the duplicate
    stage returns all of its input and copies of it. *)
Theorem stages_conserve_packets
    (ooo : OutOfOrderModule.t) (jit : JitterModule.t) (lat : LatencyModule.t)
    (bw : BandwidthModule.t) (loss : PacketLossModule.t) (dup : DuplicateModule.t)
    (now : time_point) (batch : packets)
    (r : RandomUtils.t) (g : JitterModule.rng)
    (Hshuffle : RandomUtils.permutes r) :
  (* reorder *)
  (Permutation
     (fst (fst (OutOfOrderModule.ProcessBatch ooo batch r))
      ++ OutOfOrderModule.packet_buffer_ (snd (fst (OutOfOrderModule.ProcessBatch ooo batch r))))
     (batch ++ OutOfOrderModule.packet_buffer_ ooo)
   /\ Permutation
        (fst (OutOfOrderModule.GetReleasablePackets ooo)
         ++ OutOfOrderModule.packet_buffer_ (snd (OutOfOrderModule.GetReleasablePackets ooo)))
        (OutOfOrderModule.packet_buffer_ ooo))
  (* jitter *)
  /\ (Permutation
        (map identity
           (fst (fst (JitterModule.ProcessBatch now jit batch g))
            ++ JitterModule.delayed_packets_ (snd (fst (JitterModule.ProcessBatch now jit batch g)))))
        (map identity (batch ++ JitterModule.delayed_packets_ jit))
      /\ Forall (fun x => In x batch) (fst (fst (JitterModule.ProcessBatch now jit batch g)))
      /\ Forall (queued_from batch (JitterModule.delayed_packets_ jit))
           (JitterModule.delayed_packets_ (snd (fst (JitterModule.ProcessBatch now jit batch g))))
      /\ Permutation
           (fst (JitterModule.GetReleasablePackets now jit)
            ++ JitterModule.delayed_packets_ (snd (JitterModule.GetReleasablePackets now jit)))
           (JitterModule.delayed_packets_ jit))
  (* latency *)
  /\ (Permutation
        (map identity
           (fst (LatencyModule.ProcessBatch now lat batch)
            ++ LatencyModule.delayed_packets_ (snd (LatencyModule.ProcessBatch now lat batch))))
        (map identity (batch ++ LatencyModule.delayed_packets_ lat))
      /\ Forall (fun x => In x batch) (fst (LatencyModule.ProcessBatch now lat batch))
      /\ Forall (queued_from batch (LatencyModule.delayed_packets_ lat))
           (LatencyModule.delayed_packets_ (snd (LatencyModule.ProcessBatch now lat batch)))
      /\ Permutation
           (fst (LatencyModule.GetReleasablePackets now lat)
            ++ LatencyModule.delayed_packets_ (snd (LatencyModule.GetReleasablePackets now lat)))
           (LatencyModule.delayed_packets_ lat))
  (* bandwidth *)
  /\ (Permutation
        (fst (BandwidthModule.ProcessBatch now bw batch)
         ++ BandwidthModule.packet_queue_ (snd (BandwidthModule.ProcessBatch now bw batch)))
        (batch ++ BandwidthModule.packet_queue_ bw)
      /\ Permutation
           (fst (BandwidthModule.GetReleasablePackets now bw)
            ++ BandwidthModule.packet_queue_ (snd (BandwidthModule.GetReleasablePackets now bw)))
           (BandwidthModule.packet_queue_ bw))
  (* loss only removes, duplicate only adds *)
  /\ (exists dropped,
        Permutation (fst (PacketLossModule.ProcessBatch loss batch r) ++ dropped) batch)
  /\ (exists copies,
        Permutation (fst (DuplicateModule.ProcessBatch dup batch r)) (batch ++ copies)
        /\ Forall (fun c => In c batch) copies).
Proof.
  destruct (reorder_conserves ooo batch r Hshuffle) as [Ho1 Ho2].
  destruct (jitter_conserves now jit batch g) as [(Hj1 & Hj3 & Hj4) Hj2].
  destruct (latency_conserves now lat batch) as [(Hl1 & Hl3 & Hl4) Hl2].
  destruct (bandwidth_conserves now bw batch) as [Hb1 Hb2].
  repeat split; try assumption.
  - now rewrite Ho2.
  - now rewrite Hj2.
  - now rewrite Hl2.
  - now rewrite Hb2.
  - unfold PacketLossModule.ProcessBatch.
    destruct (PacketLossModule.enabled_ loss); simpl.
    + apply survivors_never_add.
    + exists []. now rewrite app_nil_r.
  - unfold DuplicateModule.ProcessBatch.
    destruct (DuplicateModule.enabled_ dup); simpl.
    + destruct (fan_out_never_removes dup batch [] r) as [copies [H1 H2]].
      exists copies. now split.
    + exists []. split; [now rewrite app_nil_r|constructor].
Qed.

Lemma stages_conserve_packets_witness :
  Permutation
    (fst (fst (OutOfOrderModule.ProcessBatch (Sample.reorder 100 4)
                 Sample.five_packets Sample.utils))
     ++ OutOfOrderModule.packet_buffer_
          (snd (fst (OutOfOrderModule.ProcessBatch (Sample.reorder 100 4)
                       Sample.five_packets Sample.utils))))
    (Sample.five_packets ++ OutOfOrderModule.packet_buffer_ (Sample.reorder 100 4)).
Proof.
  assert (Hshuffle : RandomUtils.permutes Sample.utils).
  { intros n v. simpl. symmetry. apply Permutation_rev. }
  exact (proj1 (proj1
    (stages_conserve_packets (Sample.reorder 100 4) (Sample.jitter 10 20)
       (Sample.latency 100) (Sample.bandwidth 1200) (Sample.loss 50)
       (Sample.duplicate 2) 0 Sample.five_packets Sample.utils Sample.jitter_rng
       Hshuffle))).
Defined.

(** ** Direction gating *)

(** In the loss, duplicate, jitter, latency and bandwidth stages a packet
    that fails the direction gate is in the output of [ProcessBatch]. *)
Lemma gated_out_packet_passes_five_stages
    (loss : PacketLossModule.t) (dup : DuplicateModule.t) (jit : JitterModule.t)
    (lat : LatencyModule.t) (bw : BandwidthModule.t)
    (now : time_point) (batch : packets) (p : SimulatedPacket)
    (r : RandomUtils.t) (g : JitterModule.rng) :
  In p batch ->
  (direction_gate (PacketLossModule.inbound_enabled_ loss)
     (PacketLossModule.outbound_enabled_ loss) p = false ->
   In p (fst (PacketLossModule.ProcessBatch loss batch r)))
  /\ (direction_gate (DuplicateModule.inbound_enabled_ dup)
        (DuplicateModule.outbound_enabled_ dup) p = false ->
      In p (fst (DuplicateModule.ProcessBatch dup batch r)))
  /\ (direction_gate (JitterModule.inbound_enabled_ jit)
        (JitterModule.outbound_enabled_ jit) p = false ->
      In p (fst (fst (JitterModule.ProcessBatch now jit batch g))))
  /\ (direction_gate (LatencyModule.inbound_enabled_ lat)
        (LatencyModule.outbound_enabled_ lat) p = false ->
      In p (fst (LatencyModule.ProcessBatch now lat batch)))
  /\ (direction_gate (BandwidthModule.inbound_enabled_ bw)
        (BandwidthModule.outbound_enabled_ bw) p = false ->
      In p (fst (BandwidthModule.ProcessBatch now bw batch))).
Proof.
  intros Hin. repeat split; intros Hgate.
  - unfold PacketLossModule.ProcessBatch.
    destruct (PacketLossModule.enabled_ loss); simpl; [|exact Hin].
    assert (H : In p (filter (fun p => negb (PacketLossModule.ShouldProcess loss (addr p)))
                        (fst (PacketLossModule.survivors loss batch r)))).
    { rewrite survivors_keep_gated_out. apply filter_In. split; [exact Hin|].
      now rewrite loss_ShouldProcess_gate, Hgate. }
    now apply filter_In in H.
  - unfold DuplicateModule.ProcessBatch.
    destruct (DuplicateModule.enabled_ dup); simpl; [|exact Hin].
    assert (H : In p (filter (fun p => negb (DuplicateModule.ShouldProcess dup (addr p)))
                        (fst (DuplicateModule.fan_out dup batch [] r)))).
    { rewrite fan_out_keep_gated_out. apply filter_In. split; [exact Hin|].
      now rewrite duplicate_ShouldProcess_gate, Hgate. }
    now apply filter_In in H.
  - unfold JitterModule.ProcessBatch.
    destruct (JitterModule.enabled_ jit); simpl; [|exact Hin].
    pose proof (jitter_delay_loop_immediate now jit batch
                  (JitterModule.delayed_packets_ jit) g) as H.
    destruct (JitterModule.delay_loop now jit batch _ g) as [[imm q'] g'].
    simpl in *. rewrite H. apply filter_In. split; [exact Hin|].
    now rewrite jitter_ShouldProcess_gate, Hgate.
  - unfold LatencyModule.ProcessBatch.
    destruct (LatencyModule.enabled_ lat); simpl; [|exact Hin].
    pose proof (latency_delay_loop_immediate now lat batch
                  (LatencyModule.delayed_packets_ lat)) as H.
    destruct (LatencyModule.delay_loop now lat batch _) as [imm q'].
    simpl in *. rewrite H. apply filter_In. split; [exact Hin|].
    now rewrite latency_ShouldProcess_gate, Hgate.
  - unfold BandwidthModule.ProcessBatch.
    destruct (BandwidthModule.enabled_ bw); simpl; [|exact Hin].
    rewrite add_to_queue_spec.
    destruct (BandwidthModule.process_queue _ _) as [[out a'] rest]. simpl.
    apply in_or_app. left. apply filter_In. split; [exact Hin|].
    change (BandwidthModule.ShouldProcess
              (BandwidthModule.RefillTokenBucket now bw) (addr p))
      with (BandwidthModule.ShouldProcess bw (addr p)).
    now rewrite bandwidth_ShouldProcess_gate, Hgate.
Qed.

(** The direction flags of the reorder stage change nothing: whatever
    they are set to, [ProcessBatch] returns the same packets, holds the
    same packets and leaves the generators the same. *)
Lemma reorder_ignores_direction_flags (m : OutOfOrderModule.t) (batch : packets)
    (r : RandomUtils.t) (inbound outbound : bool) :
  let m' := OutOfOrderModule.SetInboundEnabled inbound
              (OutOfOrderModule.SetOutboundEnabled outbound m) in
  fst (fst (OutOfOrderModule.ProcessBatch m' batch r))
    = fst (fst (OutOfOrderModule.ProcessBatch m batch r))
  /\ OutOfOrderModule.packet_buffer_ (snd (fst (OutOfOrderModule.ProcessBatch m' batch r)))
    = OutOfOrderModule.packet_buffer_ (snd (fst (OutOfOrderModule.ProcessBatch m batch r)))
  /\ snd (OutOfOrderModule.ProcessBatch m' batch r)
    = snd (OutOfOrderModule.ProcessBatch m batch r).
Proof.
  unfold OutOfOrderModule.ProcessBatch. simpl.
  destruct (OutOfOrderModule.enabled_ m); simpl; [|now repeat split].
  rewrite !add_to_buffer_app.
  unfold OutOfOrderModule.ShouldReorder. simpl.
  destruct (_ <=? _); [|now repeat split].
  destruct (Qle_bool (OutOfOrderModule.reorder_rate_ m) 0).
  - destruct (OutOfOrderModule.move_to_output _ _); now repeat split.
  - destruct (Qle_bool 100 (OutOfOrderModule.reorder_rate_ m)).
    + destruct (OutOfOrderModule.ShuffleBuffer _ _).
      destruct (OutOfOrderModule.move_to_output _ _); now repeat split.
    + destruct (negb _).
      * destruct (OutOfOrderModule.ShuffleBuffer _ _).
        destruct (OutOfOrderModule.move_to_output _ _); now repeat split.
      * destruct (OutOfOrderModule.move_to_output _ _); now repeat split.
Qed.

(** C1 fails in the reorder stage.  With inbound reordering switched off
    and an empty buffer, an inbound packet handed to [ProcessBatch] is not
    in the output: it is held in the buffer, as a packet that passes the
    gate would be. *)
Theorem reorder_holds_packet_that_fails_gate :
  direction_gate
    (OutOfOrderModule.inbound_enabled_ Sample.outbound_only_reorder)
    (OutOfOrderModule.outbound_enabled_ Sample.outbound_only_reorder)
    (Sample.inbound_packet 60 0) = false
  /\ OutOfOrderModule.ProcessBatch Sample.outbound_only_reorder
       [Sample.inbound_packet 60 0] Sample.utils
     = ([],
        OutOfOrderModule.with_buffer Sample.outbound_only_reorder
          [Sample.inbound_packet 60 0],
        Sample.utils).
Proof. split; reflexivity. Qed.

(** ** Stop *)

(** When the four buffering modules are disabled, [Stop] leaves nothing in
    their buffers. *)
Lemma Stop_empties_disabled_modules (clk : NetworkCapture.instants)
    (c : NetworkCapture.t) :
  NetworkCapture.is_capturing_ c = true ->
  LatencyModule.enabled_ (NetworkCapture.latency_module_ c) = false ->
  JitterModule.enabled_ (NetworkCapture.jitter_module_ c) = false ->
  BandwidthModule.enabled_ (NetworkCapture.bandwidth_module_ c) = false ->
  OutOfOrderModule.enabled_ (NetworkCapture.out_of_order_module_ c) = false ->
  NetworkCapture.buffered (NetworkCapture.Stop clk c) = [].
Proof.
  intros Hcap Hl Hj Hb Ho. unfold NetworkCapture.Stop. rewrite Hcap. simpl.
  unfold LatencyModule.GetReleasablePackets, JitterModule.GetReleasablePackets,
    BandwidthModule.GetReleasablePackets, OutOfOrderModule.GetReleasablePackets.
  rewrite Hl, Hj, Hb, Ho. reflexivity.
Qed.

(** An enabled reorder module keeps its whole buffer through [Stop], and
    an enabled latency module keeps every packet that is not yet due. *)
Lemma Stop_keeps_enabled_reorder_buffer (clk : NetworkCapture.instants)
    (c : NetworkCapture.t) :
  NetworkCapture.is_capturing_ c = true ->
  OutOfOrderModule.enabled_ (NetworkCapture.out_of_order_module_ c) = true ->
  OutOfOrderModule.packet_buffer_
    (NetworkCapture.out_of_order_module_ (NetworkCapture.Stop clk c))
  = OutOfOrderModule.packet_buffer_ (NetworkCapture.out_of_order_module_ c).
Proof.
  intros Hcap Hen. unfold NetworkCapture.Stop. rewrite Hcap. simpl.
  destruct (LatencyModule.GetReleasablePackets _ _) as [o1 lat].
  destruct (JitterModule.GetReleasablePackets _ _) as [o2 jit].
  destruct (BandwidthModule.GetReleasablePackets _ _) as [o3 bw].
  unfold OutOfOrderModule.GetReleasablePackets. rewrite Hen. reflexivity.
Qed.

Lemma Stop_keeps_pending_latency_packet (clk : NetworkCapture.instants)
    (c : NetworkCapture.t) (x : SimulatedPacket) :
  NetworkCapture.is_capturing_ c = true ->
  LatencyModule.enabled_ (NetworkCapture.latency_module_ c) = true ->
  PacketQueue.ascending (LatencyModule.delayed_packets_ (NetworkCapture.latency_module_ c)) ->
  In x (LatencyModule.delayed_packets_ (NetworkCapture.latency_module_ c)) ->
  NetworkCapture.at_latency clk < release_time x ->
  In x (LatencyModule.delayed_packets_
          (NetworkCapture.latency_module_ (NetworkCapture.Stop clk c))).
Proof.
  intros Hcap Hen Hasc Hin Hlate. unfold NetworkCapture.Stop. rewrite Hcap. simpl.
  pose proof (latency_perform_waiting (NetworkCapture.latency_module_ c)
                (LatencyModule.GetReleasablePackets_at (NetworkCapture.at_latency clk))
                x Hen Hasc Hin) as (_ & _ & _ & _ & Hkeep & _).
  simpl in Hkeep. specialize (Hkeep eq_refl Hlate).
  destruct (LatencyModule.GetReleasablePackets _ _) as [o1 lat].
  destruct (JitterModule.GetReleasablePackets _ _) as [o2 jit].
  destruct (BandwidthModule.GetReleasablePackets _ _) as [o3 bw].
  destruct (OutOfOrderModule.GetReleasablePackets _) as [o4 ooo].
  simpl in *. apply Hkeep.
Qed.

(** C2 fails while a delaying module is enabled.  A dispatcher with one
    second of latency took in a packet at instant 0; [Stop] at 300 ms
    returns with the packet still in the latency queue. *)
Theorem Stop_leaves_packet_in_latency_queue :
  NetworkCapture.is_capturing_ Sample.capturing_after_one_packet = true
  /\ NetworkCapture.is_capturing_
       (NetworkCapture.Stop (Sample.at_instant 300000000)
          Sample.capturing_after_one_packet) = false
  /\ NetworkCapture.buffered
       (NetworkCapture.Stop (Sample.at_instant 300000000)
          Sample.capturing_after_one_packet)
     = [set_release_time 1000000000 (Sample.inbound_packet 60 0)].
Proof. repeat split; reflexivity. Qed.


(** * Further properties of the modules *)

(** ** Packet loss: order and samples *)

Lemma subsequence_refl {A : Type} (v : list A) : subsequence v v.
Proof. induction v; constructor; assumption. Qed.

Lemma subsequence_length {A : Type} (u v : list A) :
  subsequence u v -> (length u <= length v)%nat.
Proof. induction 1; simpl; lia. Qed.

Lemma subsequence_app {A : Type} (u u' v v' : list A) :
  subsequence u v -> subsequence u' v' -> subsequence (u ++ u') (v ++ v').
Proof. induction 1; intros H'; simpl; try constructor; auto. Qed.

Lemma survivors_subsequence (m : PacketLossModule.t) (batch : packets)
    (r : RandomUtils.t) :
  subsequence (fst (PacketLossModule.survivors m batch r)) batch.
Proof.
  revert r. induction batch as [|p rest IH]; intros r; simpl; [constructor|].
  destruct (PacketLossModule.ShouldProcess m (addr p)).
  - destruct (PacketLossModule.ShouldDrop m r) as [drop r1].
    specialize (IH r1).
    destruct (PacketLossModule.survivors m rest r1) as [out r2]. simpl in *.
    destruct drop; simpl; constructor; assumption.
  - specialize (IH r).
    destruct (PacketLossModule.survivors m rest r) as [out r2]. simpl in *.
    now constructor.
Qed.

(** X1.  Whatever the rate and the flags, the loss stage returns its input
    with some packets left out: the survivors keep their order, none is
    changed and none is added. *)
Theorem loss_output_is_subsequence
    (m : PacketLossModule.t) (batch : packets) (r : RandomUtils.t) :
  subsequence (fst (PacketLossModule.ProcessBatch m batch r)) batch.
Proof.
  unfold PacketLossModule.ProcessBatch.
  destruct (PacketLossModule.enabled_ m); simpl.
  - apply survivors_subsequence.
  - apply subsequence_refl.
Qed.

Lemma survivors_draws (m : PacketLossModule.t) (batch : packets)
    (r : RandomUtils.t) :
  (0 < PacketLossModule.loss_rate_ m)%Q ->
  (PacketLossModule.loss_rate_ m < 100)%Q ->
  RandomUtils.percentage_draws (snd (PacketLossModule.survivors m batch r))
  = (RandomUtils.percentage_draws r
     + length (filter (fun p => PacketLossModule.ShouldProcess m (addr p)) batch))%nat
  /\ RandomUtils.generator_uses (snd (PacketLossModule.survivors m batch r))
     = RandomUtils.generator_uses r.
Proof.
  intros Hlo Hhi. revert r.
  induction batch as [|p rest IH]; intros r; simpl; [split; [lia|reflexivity]|].
  destruct (PacketLossModule.ShouldProcess m (addr p)); simpl.
  - unfold PacketLossModule.ShouldDrop.
    rewrite (Qle_bool_false _ _ Hlo), (Qle_bool_false _ _ Hhi). simpl.
    match goal with |- context [PacketLossModule.survivors m rest ?r1] =>
      destruct (IH r1) as [IH1 IH2];
      destruct (PacketLossModule.survivors m rest r1) as [out r2]
    end. simpl in *.
    destruct (negb _); simpl; split; try lia; assumption.
  - destruct (IH r) as [IH1 IH2].
    destruct (PacketLossModule.survivors m rest r) as [out r2]. simpl in *.
    split; [lia|assumption].
Qed.

(** X2.  With a rate strictly between 0 and 100 the enabled loss stage
    draws one percentage for each packet that passes the direction gate,
    none for the others, and never touches the shuffle generator. *)
Theorem loss_draws_one_sample_per_gated_packet
    (m : PacketLossModule.t) (batch : packets) (r : RandomUtils.t)
    (Henabled : PacketLossModule.enabled_ m = true)
    (Hlow : (0 < PacketLossModule.loss_rate_ m)%Q)
    (Hhigh : (PacketLossModule.loss_rate_ m < 100)%Q) :
  RandomUtils.percentage_draws (snd (PacketLossModule.ProcessBatch m batch r))
  = (RandomUtils.percentage_draws r
     + length (filter (direction_gate (PacketLossModule.inbound_enabled_ m)
                         (PacketLossModule.outbound_enabled_ m)) batch))%nat
  /\ RandomUtils.generator_uses (snd (PacketLossModule.ProcessBatch m batch r))
     = RandomUtils.generator_uses r.
Proof.
  unfold PacketLossModule.ProcessBatch. rewrite Henabled. simpl.
  destruct (survivors_draws m batch r Hlow Hhigh) as [H1 H2].
  split; [|exact H2]. rewrite H1. f_equal. f_equal.
  apply filter_ext. intros p. apply loss_ShouldProcess_gate.
Qed.

Lemma loss_draws_one_sample_per_gated_packet_witness :
  RandomUtils.percentage_draws
    (snd (PacketLossModule.ProcessBatch
            (PacketLossModule.SetOutboundEnabled false (Sample.loss 30))
            [Sample.inbound_packet 60 0; Sample.outbound_packet 40 0;
             Sample.inbound_packet 20 0] Sample.utils))
  = 2%nat.
Proof.
  assert (Hlow : (0 < PacketLossModule.loss_rate_
                        (PacketLossModule.SetOutboundEnabled false (Sample.loss 30)))%Q)
    by reflexivity.
  assert (Hhigh : (PacketLossModule.loss_rate_
                     (PacketLossModule.SetOutboundEnabled false (Sample.loss 30)) < 100)%Q)
    by reflexivity.
  exact (proj1 (loss_draws_one_sample_per_gated_packet
                  (PacketLossModule.SetOutboundEnabled false (Sample.loss 30))
                  [Sample.inbound_packet 60 0; Sample.outbound_packet 40 0;
                   Sample.inbound_packet 20 0] Sample.utils eq_refl Hlow Hhigh)).
Defined.

(** ** Duplication: originals and bounds *)

Lemma push_duplicates_shape (n : nat) (p : SimulatedPacket) :
  subsequence [p] (p :: repeat p n) /\ length (p :: repeat p n) = S n.
Proof.
  split; [|simpl; now rewrite repeat_length].
  constructor. induction n; simpl; constructor; assumption.
Qed.

Lemma fan_out_shape (m : DuplicateModule.t) (batch out : packets) (r : RandomUtils.t) :
  exists tail,
    fst (DuplicateModule.fan_out m batch out r) = out ++ tail
    /\ subsequence batch tail
    /\ (length batch <= length tail
        <= S (Z.to_nat (DuplicateModule.duplicate_count_ m)) * length batch)%nat.
Proof.
  revert out r. induction batch as [|p rest IH]; intros out r; simpl.
  - exists []. rewrite app_nil_r. repeat split; simpl; [constructor|lia|lia].
  - unfold back at 1. rewrite last_last.
    set (k := Z.to_nat (DuplicateModule.duplicate_count_ m)) in *.
    assert (Hplain : forall r',
      exists tail, fst (DuplicateModule.fan_out m rest (out ++ [p]) r') = out ++ tail
        /\ subsequence (p :: rest) tail
        /\ (S (length rest) <= length tail <= S k * S (length rest))%nat).
    { intros r'. destruct (IH (out ++ [p]) r') as (tail & Heq & Hsub & Hlen).
      exists (p :: tail). rewrite Heq, <- app_assoc. simpl.
      repeat split; [now constructor|lia|lia]. }
    destruct (DuplicateModule.ShouldProcess m (addr p)); [|apply Hplain].
    destruct (DuplicateModule.ShouldDuplicate m r) as [dup r1].
    destruct dup; [|apply Hplain].
    rewrite push_duplicates_repeat.
    destruct (IH (out ++ p :: repeat p k) r1) as (tail & Heq & Hsub & Hlen).
    exists ((p :: repeat p k) ++ tail). rewrite Heq, <- app_assoc.
    destruct (push_duplicates_shape k p) as [Hs Hl].
    repeat split.
    + apply (subsequence_app [p] rest (p :: repeat p k) tail Hs Hsub).
    + rewrite length_app, Hl. lia.
    + rewrite length_app, Hl. lia.
Qed.

(** X3.  Whatever the rate and the flags, the duplicate stage returns all
    of its input, in order, with copies in between: the input is a
    subsequence of the output, and [n] packets come out as at least [n] and
    at most [(copies + 1) * n]. *)
Theorem duplicate_keeps_originals_in_order
    (m : DuplicateModule.t) (batch : packets) (r : RandomUtils.t) :
  subsequence batch (fst (DuplicateModule.ProcessBatch m batch r))
  /\ (length batch
      <= length (fst (DuplicateModule.ProcessBatch m batch r))
      <= S (Z.to_nat (DuplicateModule.duplicate_count_ m)) * length batch)%nat.
Proof.
  unfold DuplicateModule.ProcessBatch.
  destruct (DuplicateModule.enabled_ m); simpl.
  - destruct (fan_out_shape m batch [] r) as (tail & Heq & Hsub & Hlen).
    rewrite Heq. simpl. now split.
  - split; [apply subsequence_refl|lia].
Qed.

Lemma fan_out_rate_zero (m : DuplicateModule.t) (batch out : packets)
    (r : RandomUtils.t) :
  (DuplicateModule.duplication_rate_ m <= 0)%Q ->
  DuplicateModule.fan_out m batch out r = (out ++ batch, r).
Proof.
  intros Hrate. revert out.
  induction batch as [|p rest IH]; intros out; simpl.
  - now rewrite app_nil_r.
  - unfold DuplicateModule.ShouldDuplicate.
    rewrite (Qle_bool_true _ _ Hrate), !IH, <- app_assoc. simpl.
    now destruct (DuplicateModule.ShouldProcess m _).
Qed.

(** X4.  At a rate of 0 the duplicate stage, enabled or not, hands the
    batch on as it came and draws no sample. *)
Theorem duplicate_rate_zero_is_identity
    (m : DuplicateModule.t) (batch : packets) (r : RandomUtils.t)
    (Hrate : (DuplicateModule.duplication_rate_ m <= 0)%Q) :
  DuplicateModule.ProcessBatch m batch r = (batch, r).
Proof.
  unfold DuplicateModule.ProcessBatch.
  destruct (DuplicateModule.enabled_ m); simpl; [|reflexivity].
  now rewrite fan_out_rate_zero.
Qed.

Lemma duplicate_rate_zero_is_identity_witness :
  DuplicateModule.ProcessBatch
    (DuplicateModule.SetDuplicationRate 0 (Sample.duplicate 3))
    Sample.five_packets Sample.utils
  = (Sample.five_packets, Sample.utils).
Proof.
  apply (duplicate_rate_zero_is_identity
           (DuplicateModule.SetDuplicationRate 0 (Sample.duplicate 3))
           Sample.five_packets Sample.utils).
  apply Qle_bool_iff. reflexivity.
Defined.

(** ** Configuration stays within its ranges *)

Lemma reorder_batch_calls_keep_settings (m : OutOfOrderModule.t) (batch : packets)
    (r : RandomUtils.t) :
  let m1 := snd (fst (OutOfOrderModule.ProcessBatch m batch r)) in
  let m2 := snd (OutOfOrderModule.GetReleasablePackets m) in
  (OutOfOrderModule.reorder_gap_ m1 = OutOfOrderModule.reorder_gap_ m
   /\ OutOfOrderModule.reorder_rate_ m1 = OutOfOrderModule.reorder_rate_ m
   /\ OutOfOrderModule.enabled_ m1 = OutOfOrderModule.enabled_ m)
  /\ (OutOfOrderModule.reorder_gap_ m2 = OutOfOrderModule.reorder_gap_ m
      /\ OutOfOrderModule.reorder_rate_ m2 = OutOfOrderModule.reorder_rate_ m
      /\ OutOfOrderModule.enabled_ m2 = OutOfOrderModule.enabled_ m).
Proof.
  split.
  - unfold OutOfOrderModule.ProcessBatch.
    destruct (OutOfOrderModule.enabled_ m) eqn:E; simpl; [|now rewrite E].
    destruct (_ <=? _); simpl; [|now rewrite E].
    destruct (OutOfOrderModule.ShouldReorder m r) as [reorder r1].
    destruct reorder.
    + destruct (OutOfOrderModule.ShuffleBuffer _ _) as [b1 r2].
      destruct (OutOfOrderModule.move_to_output _ _). simpl. now rewrite E.
    + destruct (OutOfOrderModule.move_to_output _ _). simpl. now rewrite E.
  - unfold OutOfOrderModule.GetReleasablePackets.
    destruct (OutOfOrderModule.enabled_ m) eqn:E; simpl; now rewrite E.
Qed.

(** X5.  Starting from the constructed modules, no sequence of calls takes
    a rate out of 0..100, the number of copies out of 1..5 or the reorder
    gap out of 2..10: every setter clamps, and the batch calls leave the
    settings alone. *)
Theorem rates_counts_and_gap_stay_in_range
    (loss_ops : list PacketLossModule.operation)
    (duplicate_ops : list DuplicateModule.operation)
    (reorder_ops : list OutOfOrderModule.operation) :
  (0 <= PacketLossModule.loss_rate_
          (fold_left PacketLossModule.apply loss_ops PacketLossModule.init) <= 100)%Q
  /\ ((0 <= DuplicateModule.duplication_rate_
              (fold_left DuplicateModule.apply duplicate_ops DuplicateModule.init) <= 100)%Q
      /\ 1 <= DuplicateModule.duplicate_count_
                (fold_left DuplicateModule.apply duplicate_ops DuplicateModule.init) <= 5)
  /\ ((0 <= OutOfOrderModule.reorder_rate_
              (fold_left OutOfOrderModule.apply reorder_ops OutOfOrderModule.init) <= 100)%Q
      /\ 2 <= OutOfOrderModule.reorder_gap_
                (fold_left OutOfOrderModule.apply reorder_ops OutOfOrderModule.init) <= 10).
Proof.
  split; [|split].
  - assert (H : forall m, (0 <= PacketLossModule.loss_rate_ m <= 100)%Q ->
              (0 <= PacketLossModule.loss_rate_
                      (fold_left PacketLossModule.apply loss_ops m) <= 100)%Q).
    { induction loss_ops as [|op ops IH]; intros m Hm; simpl; [exact Hm|].
      apply IH. destruct op; simpl; try exact Hm. apply clampQ_range. }
    apply H. simpl. split; lra.
  - assert (H : forall m,
              ((0 <= DuplicateModule.duplication_rate_ m <= 100)%Q
               /\ 1 <= DuplicateModule.duplicate_count_ m <= 5) ->
              ((0 <= DuplicateModule.duplication_rate_
                       (fold_left DuplicateModule.apply duplicate_ops m) <= 100)%Q
               /\ 1 <= DuplicateModule.duplicate_count_
                         (fold_left DuplicateModule.apply duplicate_ops m) <= 5)).
    { induction duplicate_ops as [|op ops IH]; intros m Hm; simpl; [exact Hm|].
      apply IH. destruct Hm as [Hr Hc]. destruct op; simpl; split; try assumption.
      - apply clampQ_range.
      - apply clampZ_range. lia. }
    apply H. simpl. split; [split; lra|lia].
  - assert (H : forall m,
              ((0 <= OutOfOrderModule.reorder_rate_ m <= 100)%Q
               /\ 2 <= OutOfOrderModule.reorder_gap_ m <= 10) ->
              ((0 <= OutOfOrderModule.reorder_rate_
                       (fold_left OutOfOrderModule.apply reorder_ops m) <= 100)%Q
               /\ 2 <= OutOfOrderModule.reorder_gap_
                         (fold_left OutOfOrderModule.apply reorder_ops m) <= 10)).
    { induction reorder_ops as [|op ops IH]; intros m Hm; simpl; [exact Hm|].
      apply IH. destruct Hm as [Hr Hg].
      destruct (reorder_batch_calls_keep_settings m [] Sample.utils) as [_ (G2 & R2 & _)].
      destruct op; simpl; try (split; assumption).
      - split; [apply clampQ_range|assumption].
      - split; [assumption|apply clampZ_range; lia].
      - destruct (reorder_batch_calls_keep_settings m batch r) as [(G1 & R1 & _) _].
        simpl in G1, R1. now rewrite G1, R1.
      - simpl in G2, R2. now rewrite G2, R2. }
    apply H. simpl. split; [split; lra|lia].
Qed.

(** ** Reordering: what stays behind *)

(** X6.  After an enabled [ProcessBatch] the reorder buffer holds exactly
    [gap / 2] packets when the buffer with the new packets reached the gap,
    and all of them when it did not: always fewer than [gap], so at most
    five. *)
Theorem reorder_buffer_stays_below_gap
    (m : OutOfOrderModule.t) (batch : packets) (r : RandomUtils.t)
    (Henabled : OutOfOrderModule.enabled_ m = true)
    (Hgap : 2 <= OutOfOrderModule.reorder_gap_ m <= 10)
    (Hsize : Z.of_nat (length (OutOfOrderModule.packet_buffer_ m ++ batch)) < 2 ^ 64)
    (Hshuffle : RandomUtils.permutes r) :
  let L := Z.of_nat (length (OutOfOrderModule.packet_buffer_ m ++ batch)) in
  let gap := OutOfOrderModule.reorder_gap_ m in
  let kept := OutOfOrderModule.packet_buffer_
                (snd (fst (OutOfOrderModule.ProcessBatch m batch r))) in
  Z.of_nat (length kept) = (if gap <=? L then gap / 2 else L)
  /\ Z.of_nat (length kept) < gap.
Proof.
  intros L gap kept. subst kept.
  unfold OutOfOrderModule.ProcessBatch. rewrite Henabled. simpl.
  rewrite add_to_buffer_app. fold L. fold gap.
  assert (Hhalf : 0 <= gap / 2 < gap).
  { subst gap. split; [apply Z.div_pos; lia|]. apply Z.div_lt; lia. }
  destruct (Z.leb_spec gap L) as [Hge|Hlt].
  - assert (Hcount : OutOfOrderModule.size_t_sub L (gap / 2) = L - gap / 2).
    { unfold OutOfOrderModule.size_t_sub. apply Z.mod_small. subst L. lia. }
    rewrite Hcount.
    destruct (ShouldReorder_generator m r) as [Hp _].
    destruct (OutOfOrderModule.ShouldReorder m r) as [reorder r1]. simpl in Hp.
    assert (Hr1 : forall n v, Permutation (RandomUtils.permutation r1 n v) v)
      by (intros n v; rewrite Hp; apply Hshuffle).
    destruct reorder.
    + pose proof (ShuffleBuffer_permutation
                    (OutOfOrderModule.packet_buffer_ m ++ batch) r1 Hr1) as Hperm.
      destruct (OutOfOrderModule.ShuffleBuffer _ r1) as [buffer1 r2]. simpl in Hperm.
      rewrite move_to_output_firstn_skipn. simpl.
      rewrite length_skipn, (Permutation_length Hperm). subst L. lia.
    + rewrite move_to_output_firstn_skipn. simpl.
      rewrite length_skipn. subst L. lia.
  - simpl. subst L. lia.
Qed.

Lemma reorder_buffer_stays_below_gap_witness :
  Z.of_nat (length (OutOfOrderModule.packet_buffer_
                      (snd (fst (OutOfOrderModule.ProcessBatch (Sample.reorder 100 4)
                                   Sample.five_packets Sample.utils)))))
  = 2.
Proof.
  assert (Hshuffle : RandomUtils.permutes Sample.utils).
  { intros n v. simpl. symmetry. apply Permutation_rev. }
  assert (Hgap : 2 <= OutOfOrderModule.reorder_gap_ (Sample.reorder 100 4) <= 10)
    by (simpl; unfold clampZ; simpl; lia).
  assert (Hsize : Z.of_nat (length (OutOfOrderModule.packet_buffer_
                     (Sample.reorder 100 4) ++ Sample.five_packets)) < 2 ^ 64)
    by (simpl; lia).
  exact (proj1 (reorder_buffer_stays_below_gap (Sample.reorder 100 4)
                  Sample.five_packets Sample.utils eq_refl Hgap Hsize Hshuffle)).
Defined.

(** X7.  At a rate of 0 the enabled reorder stage never changes the order:
    what it returns followed by what it keeps is the old buffer followed by
    the batch, and no generator is used. *)
Theorem reorder_rate_zero_keeps_arrival_order
    (m : OutOfOrderModule.t) (batch : packets) (r : RandomUtils.t)
    (Henabled : OutOfOrderModule.enabled_ m = true)
    (Hrate : (OutOfOrderModule.reorder_rate_ m <= 0)%Q) :
  fst (fst (OutOfOrderModule.ProcessBatch m batch r))
    ++ OutOfOrderModule.packet_buffer_ (snd (fst (OutOfOrderModule.ProcessBatch m batch r)))
  = OutOfOrderModule.packet_buffer_ m ++ batch
  /\ snd (OutOfOrderModule.ProcessBatch m batch r) = r.
Proof.
  unfold OutOfOrderModule.ProcessBatch. rewrite Henabled. simpl.
  rewrite add_to_buffer_app.
  unfold OutOfOrderModule.ShouldReorder. rewrite (Qle_bool_true _ _ Hrate).
  destruct (_ <=? _); simpl; [|now split].
  rewrite move_to_output_firstn_skipn. simpl.
  split; [apply firstn_skipn|reflexivity].
Qed.

Lemma reorder_rate_zero_keeps_arrival_order_witness :
  fst (fst (OutOfOrderModule.ProcessBatch (Sample.reorder 0 4)
              Sample.five_packets Sample.utils))
    ++ OutOfOrderModule.packet_buffer_
         (snd (fst (OutOfOrderModule.ProcessBatch (Sample.reorder 0 4)
                      Sample.five_packets Sample.utils)))
  = Sample.five_packets.
Proof.
  assert (Hrate : (OutOfOrderModule.reorder_rate_ (Sample.reorder 0 4) <= 0)%Q)
    by (apply Qle_bool_iff; reflexivity).
  exact (proj1 (reorder_rate_zero_keeps_arrival_order (Sample.reorder 0 4)
                  Sample.five_packets Sample.utils eq_refl Hrate)).
Defined.

(** ** Jitter: range, release times, fixed delay *)

Lemma jitter_batch_calls_keep_settings (now : time_point) (m : JitterModule.t)
    (batch : packets) (g : JitterModule.rng) :
  let m1 := snd (fst (JitterModule.ProcessBatch now m batch g)) in
  let m2 := snd (JitterModule.GetReleasablePackets now m) in
  (JitterModule.min_jitter_ms_ m1 = JitterModule.min_jitter_ms_ m
   /\ JitterModule.max_jitter_ms_ m1 = JitterModule.max_jitter_ms_ m)
  /\ (JitterModule.min_jitter_ms_ m2 = JitterModule.min_jitter_ms_ m
      /\ JitterModule.max_jitter_ms_ m2 = JitterModule.max_jitter_ms_ m).
Proof.
  split.
  - unfold JitterModule.ProcessBatch.
    destruct (JitterModule.enabled_ m); simpl; [|now split].
    destruct (JitterModule.delay_loop _ _ _ _ _) as [[imm q] g']. now split.
  - unfold JitterModule.GetReleasablePackets.
    destruct (JitterModule.enabled_ m); simpl; [|now split].
    destruct (PacketQueue.release_due _ _) as [out q]. now split.
Qed.

(** X8.  Starting from the constructed module, no sequence of calls leaves
    the jitter range with its lower bound above its upper bound:
    [SetJitterRange] orders its two arguments, whichever way round they are
    given. *)
Theorem jitter_range_stays_ordered (ops : list JitterModule.operation) :
  JitterModule.min_jitter_ms_ (fold_left JitterModule.apply ops JitterModule.init)
  <= JitterModule.max_jitter_ms_ (fold_left JitterModule.apply ops JitterModule.init).
Proof.
  assert (H : forall m,
            JitterModule.min_jitter_ms_ m <= JitterModule.max_jitter_ms_ m ->
            JitterModule.min_jitter_ms_ (fold_left JitterModule.apply ops m)
            <= JitterModule.max_jitter_ms_ (fold_left JitterModule.apply ops m)).
  { induction ops as [|op ops IH]; intros m Hm; simpl; [exact Hm|].
    apply IH. destruct op as [lo hi|b|b|b|now batch g|now]; simpl; try exact Hm.
    - lia.
    - destruct (jitter_batch_calls_keep_settings now m batch g) as [[H1 H2] _].
      simpl in H1, H2. now rewrite H1, H2.
    - destruct (jitter_batch_calls_keep_settings now m [] Sample.jitter_rng)
        as [_ [H1 H2]].
      simpl in H1, H2. now rewrite H1, H2. }
  apply H. simpl. lia.
Qed.

Lemma GenerateJitter_in_range (m : JitterModule.t) (g : JitterModule.rng) :
  JitterModule.min_jitter_ms_ m <= JitterModule.max_jitter_ms_ m ->
  JitterModule.draws_in_range g ->
  JitterModule.min_jitter_ms_ m <= fst (JitterModule.GenerateJitter m g)
    <= JitterModule.max_jitter_ms_ m
  /\ JitterModule.draws_in_range (snd (JitterModule.GenerateJitter m g)).
Proof.
  intros Hrange Hdraws. unfold JitterModule.GenerateJitter.
  destruct (Z.eqb_spec (JitterModule.min_jitter_ms_ m) (JitterModule.max_jitter_ms_ m));
    simpl.
  - split; [lia|exact Hdraws].
  - split; [now apply Hdraws|]. intros k lo hi. apply Hdraws.
Qed.

Lemma milliseconds_mono (a b : Z) : a <= b -> milliseconds a <= milliseconds b.
Proof. unfold milliseconds. lia. Qed.

Lemma jitter_delay_loop_release_times (now : time_point) (m : JitterModule.t)
    (batch : packets) (q : PacketQueue.t) (g : JitterModule.rng) :
  JitterModule.min_jitter_ms_ m <= JitterModule.max_jitter_ms_ m ->
  JitterModule.draws_in_range g ->
  let q' := snd (fst (JitterModule.delay_loop now m batch q g)) in
  Forall (fun x => In x q \/ JitterModule.queued_at now m batch x) q'
  /\ (forall p, In p batch -> JitterModule.ShouldProcess m (addr p) = true ->
        exists x, In x q' /\ JitterModule.queued_at now m [p] x)
  /\ (forall x, In x q -> In x q').
Proof.
  intros Hrange. revert q g.
  induction batch as [|p rest IH]; intros q g Hdraws; simpl.
  - split; [apply Forall_forall; intros x Hx; now left|].
    split; [intros p []|auto].
  - destruct (JitterModule.ShouldProcess m (addr p)) eqn:G.
    + destruct (GenerateJitter_in_range m g Hrange Hdraws) as [Hj Hdraws1].
      destruct (JitterModule.GenerateJitter m g) as [jitter_ms g1]. simpl in Hj, Hdraws1.
      set (p' := set_release_time (now + milliseconds jitter_ms) p).
      assert (Hp' : JitterModule.queued_at now m [p] p').
      { exists p. split; [now left|]. split; [exact G|]. split; [reflexivity|].
        subst p'. simpl.
        pose proof (milliseconds_mono _ _ (proj1 Hj)).
        pose proof (milliseconds_mono _ _ (proj2 Hj)). lia. }
      destruct (IH (PacketQueue.push p' q) g1 Hdraws1) as (Hall & Hnew & Hold).
      split; [|split].
      * eapply Forall_impl; [|exact Hall]. intros x [Hx|Hx].
        -- apply push_In in Hx. destruct Hx as [->|Hx]; [|now left].
           right. destruct Hp' as (p0 & [<-|[]] & Hg0 & He & Hb).
           exists p. split; [now left|]. now repeat split.
        -- right. destruct Hx as (p0 & Hin0 & Hrest). exists p0.
           split; [now right|exact Hrest].
      * intros p0 [<-|Hin0] Hg0.
        -- exists p'. split; [|exact Hp']. apply Hold. apply push_In. now left.
        -- now apply Hnew.
      * intros x Hx. apply Hold. apply push_In. now right.
    + destruct (IH q g Hdraws) as (Hall & Hnew & Hold).
      destruct (JitterModule.delay_loop now m rest q g) as [[imm q'] g'].
      simpl in *. split; [|split].
      * eapply Forall_impl; [|exact Hall]. intros x [Hx|Hx]; [now left|].
        right. destruct Hx as (p0 & Hin0 & Hrest). exists p0.
        split; [now right|exact Hrest].
      * intros p0 [<-|Hin0] Hg0; [congruence|now apply Hnew].
      * exact Hold.
Qed.

(** X9.  Jitter bounds.  With [min <= max] and a generator that keeps the
    contract of [uniform_int_distribution], an enabled [ProcessBatch] at
    instant [now] queues every packet that passes the gate with a release
    time between [now + min] and [now + max] milliseconds, changes nothing
    else on it, and leaves the packets already queued where they were. *)
Theorem jitter_release_times_in_range
    (m : JitterModule.t) (now : time_point) (batch : packets) (g : JitterModule.rng)
    (Henabled : JitterModule.enabled_ m = true)
    (Hrange : JitterModule.min_jitter_ms_ m <= JitterModule.max_jitter_ms_ m)
    (Hdraws : JitterModule.draws_in_range g) :
  let q' := JitterModule.delayed_packets_
              (snd (fst (JitterModule.ProcessBatch now m batch g))) in
  Forall (fun x => In x (JitterModule.delayed_packets_ m)
                   \/ JitterModule.queued_at now m batch x) q'
  /\ (forall p, In p batch ->
        direction_gate (JitterModule.inbound_enabled_ m)
          (JitterModule.outbound_enabled_ m) p = true ->
        exists x, In x q' /\ JitterModule.queued_at now m [p] x)
  /\ (forall x, In x (JitterModule.delayed_packets_ m) -> In x q').
Proof.
  simpl. unfold JitterModule.ProcessBatch. rewrite Henabled. simpl.
  pose proof (jitter_delay_loop_release_times now m batch
                (JitterModule.delayed_packets_ m) g Hrange Hdraws) as (H1 & H2 & H3).
  destruct (JitterModule.delay_loop now m batch _ g) as [[imm q'] g']. simpl in *.
  split; [exact H1|]. split; [|exact H3].
  intros p Hin Hgate. apply H2; [exact Hin|].
  now rewrite jitter_ShouldProcess_gate.
Qed.

Lemma jitter_release_times_in_range_witness :
  exists x,
    In x (JitterModule.delayed_packets_
            (snd (fst (JitterModule.ProcessBatch 0 (Sample.jitter 10 20)
                         [Sample.inbound_packet 60 0] Sample.jitter_rng))))
    /\ JitterModule.queued_at 0 (Sample.jitter 10 20) [Sample.inbound_packet 60 0] x.
Proof.
  assert (Hrange : JitterModule.min_jitter_ms_ (Sample.jitter 10 20)
                   <= JitterModule.max_jitter_ms_ (Sample.jitter 10 20))
    by (simpl; lia).
  assert (Hdraws : JitterModule.draws_in_range Sample.jitter_rng)
    by (intros n lo hi H; simpl; lia).
  exact (proj1 (proj2 (jitter_release_times_in_range (Sample.jitter 10 20) 0
                  [Sample.inbound_packet 60 0] Sample.jitter_rng
                  eq_refl Hrange Hdraws))
           (Sample.inbound_packet 60 0) (or_introl eq_refl) eq_refl).
Defined.

Lemma jitter_delay_loop_fixed (now : time_point) (m : JitterModule.t)
    (l : LatencyModule.t) (batch : packets) (q : PacketQueue.t)
    (g : JitterModule.rng) :
  JitterModule.min_jitter_ms_ m = JitterModule.max_jitter_ms_ m ->
  LatencyModule.latency_ l = JitterModule.min_jitter_ms_ m ->
  LatencyModule.inbound_enabled_ l = JitterModule.inbound_enabled_ m ->
  LatencyModule.outbound_enabled_ l = JitterModule.outbound_enabled_ m ->
  JitterModule.delay_loop now m batch q g
  = (fst (LatencyModule.delay_loop now l batch q),
     snd (LatencyModule.delay_loop now l batch q), g).
Proof.
  intros Heq Hlat Hin Hout. revert q.
  assert (Hgate : forall a, LatencyModule.ShouldProcess l a
                            = JitterModule.ShouldProcess m a).
  { intros a. unfold LatencyModule.ShouldProcess, JitterModule.ShouldProcess.
    now rewrite Hin, Hout. }
  induction batch as [|p rest IH]; intros q; simpl; [reflexivity|].
  rewrite Hgate. destruct (JitterModule.ShouldProcess m (addr p)).
  - unfold JitterModule.GenerateJitter. rewrite Heq, Z.eqb_refl.
    rewrite Hlat, Heq. apply IH.
  - rewrite IH.
    destruct (LatencyModule.delay_loop now l rest q) as [imm q']. reflexivity.
Qed.

(** X10.  A jitter module whose two bounds are equal behaves as a latency
    module with that delay: for the same flags and the same queue,
    [ProcessBatch] returns the same packets, queues the same packets with
    the same release times, and draws nothing from the generator. *)
Theorem jitter_with_equal_bounds_is_latency
    (m : JitterModule.t) (l : LatencyModule.t) (now : time_point)
    (batch : packets) (g : JitterModule.rng)
    (Hequal : JitterModule.min_jitter_ms_ m = JitterModule.max_jitter_ms_ m)
    (Hdelay : LatencyModule.latency_ l = JitterModule.min_jitter_ms_ m)
    (Henabled : LatencyModule.enabled_ l = JitterModule.enabled_ m)
    (Hinbound : LatencyModule.inbound_enabled_ l = JitterModule.inbound_enabled_ m)
    (Houtbound : LatencyModule.outbound_enabled_ l = JitterModule.outbound_enabled_ m)
    (Hqueue : LatencyModule.delayed_packets_ l = JitterModule.delayed_packets_ m) :
  fst (fst (JitterModule.ProcessBatch now m batch g))
    = fst (LatencyModule.ProcessBatch now l batch)
  /\ JitterModule.delayed_packets_ (snd (fst (JitterModule.ProcessBatch now m batch g)))
     = LatencyModule.delayed_packets_ (snd (LatencyModule.ProcessBatch now l batch))
  /\ snd (JitterModule.ProcessBatch now m batch g) = g.
Proof.
  unfold JitterModule.ProcessBatch, LatencyModule.ProcessBatch.
  rewrite Henabled, Hqueue.
  destruct (JitterModule.enabled_ m); simpl; [|now repeat split].
  rewrite (jitter_delay_loop_fixed now m l batch _ g Hequal Hdelay Hinbound Houtbound).
  destruct (LatencyModule.delay_loop now l batch _) as [imm q']. now repeat split.
Qed.

Lemma jitter_with_equal_bounds_is_latency_witness :
  JitterModule.delayed_packets_
    (snd (fst (JitterModule.ProcessBatch 0 (Sample.jitter 100 100)
                 Sample.five_packets Sample.jitter_rng)))
  = LatencyModule.delayed_packets_
      (snd (LatencyModule.ProcessBatch 0 (Sample.latency 100) Sample.five_packets)).
Proof.
  exact (proj1 (proj2 (jitter_with_equal_bounds_is_latency (Sample.jitter 100 100)
                         (Sample.latency 100) 0 Sample.five_packets Sample.jitter_rng
                         eq_refl eq_refl eq_refl eq_refl eq_refl eq_refl))).
Defined.

(** ** The release queue: what a release returns *)

Lemma ascending_app_inv (u v : PacketQueue.t) :
  PacketQueue.ascending (u ++ v) -> PacketQueue.ascending u /\ PacketQueue.ascending v.
Proof.
  induction u as [|x u IH]; simpl; [now split|].
  intros [Hx Hrest]. destruct (IH Hrest) as [Hu Hv].
  split; [|exact Hv]. split; [|exact Hu].
  apply Forall_app in Hx. apply Hx.
Qed.

Lemma filter_all (f : SimulatedPacket -> bool) (v : packets) :
  Forall (fun x => f x = true) v -> filter f v = v.
Proof.
  induction 1 as [|x v Hx _ IH]; simpl; [reflexivity|]. now rewrite Hx, IH.
Qed.

Lemma filter_none (f : SimulatedPacket -> bool) (v : packets) :
  Forall (fun x => f x = false) v -> filter f v = [].
Proof.
  induction 1 as [|x v Hx _ IH]; simpl; [reflexivity|]. now rewrite Hx, IH.
Qed.

Lemma release_due_filter (now : time_point) (q : PacketQueue.t) :
  PacketQueue.ascending q ->
  PacketQueue.release_due now q
  = (filter (fun x => release_time x <=? now) q,
     filter (fun x => negb (release_time x <=? now)) q).
Proof.
  intros Hq.
  pose proof (release_due_app now q) as Happ.
  pose proof (release_due_only_due now q) as Hdue.
  pose proof (release_due_keeps_later now q Hq) as Hlater.
  destruct (PacketQueue.release_due now q) as [out rest]. simpl in *.
  assert (Hout1 : filter (fun x => release_time x <=? now) out = out).
  { apply filter_all. eapply Forall_impl; [|exact Hdue].
    intros x Hx. simpl in Hx. now apply Z.leb_le. }
  assert (Hout2 : filter (fun x => negb (release_time x <=? now)) out = []).
  { apply filter_none. eapply Forall_impl; [|exact Hdue].
    intros x Hx. simpl in Hx. apply negb_false_iff. now apply Z.leb_le. }
  assert (Hrest1 : filter (fun x => release_time x <=? now) rest = []).
  { apply filter_none. eapply Forall_impl; [|exact Hlater].
    intros x Hx. simpl in Hx. apply Z.leb_gt. exact Hx. }
  assert (Hrest2 : filter (fun x => negb (release_time x <=? now)) rest = rest).
  { apply filter_all. eapply Forall_impl; [|exact Hlater].
    intros x Hx. simpl in Hx. apply negb_true_iff. apply Z.leb_gt. exact Hx. }
  rewrite <- Happ, !filter_app, Hout1, Hout2, Hrest1, Hrest2.
  now rewrite app_nil_r.
Qed.

(** X11.  A release on an enabled latency or jitter module whose queue is
    in release order returns exactly the queued packets whose release time
    is not after [now], earliest first, and keeps exactly the others. *)
Theorem release_returns_exactly_the_due_packets
    (lat : LatencyModule.t) (jit : JitterModule.t) (now : time_point)
    (Hlat : LatencyModule.enabled_ lat = true)
    (Hjit : JitterModule.enabled_ jit = true)
    (Hlat_queue : PacketQueue.ascending (LatencyModule.delayed_packets_ lat))
    (Hjit_queue : PacketQueue.ascending (JitterModule.delayed_packets_ jit)) :
  (fst (LatencyModule.GetReleasablePackets now lat)
     = filter (fun x => release_time x <=? now) (LatencyModule.delayed_packets_ lat)
   /\ LatencyModule.delayed_packets_ (snd (LatencyModule.GetReleasablePackets now lat))
     = filter (fun x => negb (release_time x <=? now)) (LatencyModule.delayed_packets_ lat)
   /\ PacketQueue.ascending (fst (LatencyModule.GetReleasablePackets now lat)))
  /\ (fst (JitterModule.GetReleasablePackets now jit)
        = filter (fun x => release_time x <=? now) (JitterModule.delayed_packets_ jit)
      /\ JitterModule.delayed_packets_ (snd (JitterModule.GetReleasablePackets now jit))
        = filter (fun x => negb (release_time x <=? now)) (JitterModule.delayed_packets_ jit)
      /\ PacketQueue.ascending (fst (JitterModule.GetReleasablePackets now jit))).
Proof.
  split.
  - unfold LatencyModule.GetReleasablePackets. rewrite Hlat. simpl.
    pose proof (release_due_app now (LatencyModule.delayed_packets_ lat)) as Happ.
    rewrite (release_due_filter now _ Hlat_queue) in *. simpl in *.
    repeat split. rewrite <- Happ in Hlat_queue.
    now apply ascending_app_inv in Hlat_queue.
  - unfold JitterModule.GetReleasablePackets. rewrite Hjit. simpl.
    pose proof (release_due_app now (JitterModule.delayed_packets_ jit)) as Happ.
    rewrite (release_due_filter now _ Hjit_queue) in *. simpl in *.
    repeat split. rewrite <- Happ in Hjit_queue.
    now apply ascending_app_inv in Hjit_queue.
Qed.

Lemma release_returns_exactly_the_due_packets_witness :
  fst (LatencyModule.GetReleasablePackets 150000000
         (snd (LatencyModule.ProcessBatch 100000000
                 (snd (LatencyModule.ProcessBatch 0 (Sample.latency 100)
                         [Sample.inbound_packet 60 0]))
                 [Sample.inbound_packet 40 0])))
  = [set_release_time 100000000 (Sample.inbound_packet 60 0)].
Proof.
  assert (Hq : PacketQueue.ascending
                 (LatencyModule.delayed_packets_
                    (snd (LatencyModule.ProcessBatch 100000000
                            (snd (LatencyModule.ProcessBatch 0 (Sample.latency 100)
                                    [Sample.inbound_packet 60 0]))
                            [Sample.inbound_packet 40 0])))).
  { vm_compute. repeat split; repeat constructor; discriminate. }
  exact (proj1 (proj1 (release_returns_exactly_the_due_packets
           (snd (LatencyModule.ProcessBatch 100000000
                   (snd (LatencyModule.ProcessBatch 0 (Sample.latency 100)
                           [Sample.inbound_packet 60 0]))
                   [Sample.inbound_packet 40 0]))
           (Sample.jitter 10 20) 150000000 eq_refl eq_refl Hq I))).
Defined.

Lemma jitter_delay_loop_ascending (now : time_point) (m : JitterModule.t)
    (batch : packets) (q : PacketQueue.t) (g : JitterModule.rng) :
  PacketQueue.ascending q ->
  PacketQueue.ascending (snd (fst (JitterModule.delay_loop now m batch q g))).
Proof.
  revert q g. induction batch as [|p rest IH]; intros q g Hq; simpl; [exact Hq|].
  destruct (JitterModule.ShouldProcess m (addr p)); simpl.
  - destruct (JitterModule.GenerateJitter m g) as [jitter_ms g1].
    apply IH. now apply push_ascending.
  - specialize (IH q g Hq).
    destruct (JitterModule.delay_loop now m rest q g) as [[imm q'] g']. exact IH.
Qed.

(** X12.  In every state the latency and jitter modules can reach from
    construction, whatever calls are made and whatever instants they read,
    the queue is in release order: a packet never waits behind one that is
    due later. *)
Theorem release_queues_stay_in_release_order
    (latency_ops : list LatencyModule.operation)
    (jitter_ops : list JitterModule.operation) :
  PacketQueue.ascending
    (LatencyModule.delayed_packets_
       (fold_left LatencyModule.apply latency_ops LatencyModule.init))
  /\ PacketQueue.ascending
       (JitterModule.delayed_packets_
          (fold_left JitterModule.apply jitter_ops JitterModule.init)).
Proof.
  split.
  - assert (H : forall m, PacketQueue.ascending (LatencyModule.delayed_packets_ m) ->
              PacketQueue.ascending
                (LatencyModule.delayed_packets_
                   (fold_left LatencyModule.apply latency_ops m))).
    { induction latency_ops as [|op ops IH]; intros m Hm; simpl; [exact Hm|].
      apply IH. destruct op as [d|b|b|b|now batch|now]; simpl; try exact Hm.
      - unfold LatencyModule.ProcessBatch.
        destruct (LatencyModule.enabled_ m); simpl; [|exact Hm].
        pose proof (latency_delay_loop_ascending now m batch _ Hm) as H.
        destruct (LatencyModule.delay_loop now m batch _) as [imm q']. exact H.
      - unfold LatencyModule.GetReleasablePackets.
        destruct (LatencyModule.enabled_ m); simpl; [|exact I].
        pose proof (release_due_ascending now _ Hm) as H.
        destruct (PacketQueue.release_due now _) as [out q']. exact H. }
    apply H. exact I.
  - assert (H : forall m, PacketQueue.ascending (JitterModule.delayed_packets_ m) ->
              PacketQueue.ascending
                (JitterModule.delayed_packets_
                   (fold_left JitterModule.apply jitter_ops m))).
    { induction jitter_ops as [|op ops IH]; intros m Hm; simpl; [exact Hm|].
      apply IH. destruct op as [lo hi|b|b|b|now batch g|now]; simpl; try exact Hm.
      - unfold JitterModule.ProcessBatch.
        destruct (JitterModule.enabled_ m); simpl; [|exact Hm].
        pose proof (jitter_delay_loop_ascending now m batch _ g Hm) as H.
        destruct (JitterModule.delay_loop now m batch _ g) as [[imm q'] g']. exact H.
      - unfold JitterModule.GetReleasablePackets.
        destruct (JitterModule.enabled_ m); simpl; [|exact I].
        pose proof (release_due_ascending now _ Hm) as H.
        destruct (PacketQueue.release_due now _) as [out q']. exact H. }
    apply H. exact I.
Qed.

(** ** Bandwidth: order of release, stalls and progress *)

(** X13.  The bandwidth queue is first in, first out.  An enabled
    [ProcessBatch] returns the packets of the batch that fail the
    direction gate, in order, followed by packets released from the front
    of the queue; what was released followed by what is still queued is the
    old queue followed by the gate-passing packets of the batch, in
    arrival order. *)
Theorem bandwidth_queue_is_first_in_first_out
    (m : BandwidthModule.t) (now : time_point) (batch : packets)
    (Henabled : BandwidthModule.enabled_ m = true) :
  exists released,
    fst (BandwidthModule.ProcessBatch now m batch)
    = filter (fun p => negb (BandwidthModule.ShouldProcess m (addr p))) batch ++ released
    /\ released ++ BandwidthModule.packet_queue_ (snd (BandwidthModule.ProcessBatch now m batch))
       = BandwidthModule.packet_queue_ m
         ++ filter (fun p => BandwidthModule.ShouldProcess m (addr p)) batch.
Proof.
  unfold BandwidthModule.ProcessBatch. rewrite Henabled. simpl.
  rewrite add_to_queue_spec.
  match goal with
  | |- context [BandwidthModule.process_queue ?a ?q] =>
      pose proof (process_queue_spec a q) as Hspec;
      destruct (BandwidthModule.process_queue a q) as [[released a'] remaining]
  end.
  simpl in Hspec. destruct Hspec as [Happ _].
  exists released. simpl. split; [reflexivity|exact Happ].
Qed.

Lemma bandwidth_queue_is_first_in_first_out_witness :
  exists released,
    fst (BandwidthModule.ProcessBatch 0 Sample.inbound_only_bandwidth
           [Sample.inbound_packet 1500 0; Sample.outbound_packet 40 0])
    = [Sample.outbound_packet 40 0] ++ released
    /\ released
       ++ BandwidthModule.packet_queue_
            (snd (BandwidthModule.ProcessBatch 0 Sample.inbound_only_bandwidth
                    [Sample.inbound_packet 1500 0; Sample.outbound_packet 40 0]))
       = [Sample.inbound_packet 1500 0].
Proof.
  exact (bandwidth_queue_is_first_in_first_out Sample.inbound_only_bandwidth 0
           [Sample.inbound_packet 1500 0; Sample.outbound_packet 40 0] eq_refl).
Defined.

Lemma process_queue_blocked (available : Q) (p : SimulatedPacket) (rest : packets) :
  (available < BandwidthModule.packet_size p)%Q ->
  BandwidthModule.process_queue available (p :: rest) = ([], available, p :: rest).
Proof.
  intros H. simpl. unfold BandwidthModule.ConsumeTokens.
  now rewrite (Qle_bool_false _ _ H).
Qed.

Lemma perform_blocked (m : BandwidthModule.t) (c : BandwidthModule.call)
    (p : SimulatedPacket) (rest : packets) :
  BandwidthModule.enabled_ m = true ->
  BandwidthModule.packet_queue_ m = p :: rest ->
  (BandwidthModule.max_burst_bytes_ m < BandwidthModule.packet_size p)%Q ->
  let m' := snd (BandwidthModule.perform m c) in
  fst (BandwidthModule.perform m c) = BandwidthModule.bypassing m c
  /\ BandwidthModule.packet_queue_ m' = p :: rest ++ BandwidthModule.gated_in m [c]
  /\ BandwidthModule.enabled_ m' = true
  /\ BandwidthModule.max_burst_bytes_ m' = BandwidthModule.max_burst_bytes_ m
  /\ BandwidthModule.inbound_enabled_ m' = BandwidthModule.inbound_enabled_ m
  /\ BandwidthModule.outbound_enabled_ m' = BandwidthModule.outbound_enabled_ m.
Proof.
  intros Hen Hq Hbig.
  assert (Hlow : forall now,
            (BandwidthModule.available_bytes_ (BandwidthModule.RefillTokenBucket now m)
             < BandwidthModule.packet_size p)%Q).
  { intros now. destruct (RefillTokenBucket_spec now m) as [Hmax _].
    simpl in Hmax. simpl. lra. }
  destruct c as [now batch|now]; simpl.
  - unfold BandwidthModule.ProcessBatch. rewrite Hen.
    cbv beta iota zeta delta [negb]. rewrite add_to_queue_spec.
    change (BandwidthModule.packet_queue_ (BandwidthModule.RefillTokenBucket now m))
      with (BandwidthModule.packet_queue_ m).
    rewrite Hq, <- app_comm_cons.
    rewrite (process_queue_blocked _ p _ (Hlow now)). simpl.
    rewrite !app_nil_r. now repeat split.
  - unfold BandwidthModule.GetReleasablePackets. rewrite Hen.
    cbv beta iota zeta delta [negb].
    change (BandwidthModule.packet_queue_ (BandwidthModule.RefillTokenBucket now m))
      with (BandwidthModule.packet_queue_ m).
    rewrite Hq. rewrite (process_queue_blocked _ p _ (Hlow now)). simpl.
    rewrite !app_nil_r. now repeat split.
Qed.

(** X14.  A packet at the front of the bandwidth queue that is larger than
    the burst size is never released, and nothing queued behind it is:
    whatever calls follow and whenever they are made, each [ProcessBatch]
    returns only the packets that fail the direction gate, each
    [GetReleasablePackets] returns nothing, and the queue only grows. *)
Theorem oversized_packet_stalls_bandwidth_queue
    (m : BandwidthModule.t) (p : SimulatedPacket) (rest : packets)
    (calls : list BandwidthModule.call)
    (Henabled : BandwidthModule.enabled_ m = true)
    (Hqueue : BandwidthModule.packet_queue_ m = p :: rest)
    (Hoversized : (BandwidthModule.max_burst_bytes_ m < BandwidthModule.packet_size p)%Q) :
  Forall (fun co => snd co = BandwidthModule.bypassing m (fst co))
         (fst (BandwidthModule.run m calls))
  /\ BandwidthModule.packet_queue_ (snd (BandwidthModule.run m calls))
     = p :: rest ++ BandwidthModule.gated_in m calls.
Proof.
  assert (H : forall m0 rest0,
            BandwidthModule.enabled_ m0 = true ->
            BandwidthModule.packet_queue_ m0 = p :: rest0 ->
            BandwidthModule.max_burst_bytes_ m0 = BandwidthModule.max_burst_bytes_ m ->
            BandwidthModule.inbound_enabled_ m0 = BandwidthModule.inbound_enabled_ m ->
            BandwidthModule.outbound_enabled_ m0 = BandwidthModule.outbound_enabled_ m ->
            Forall (fun co => snd co = BandwidthModule.bypassing m (fst co))
                   (fst (BandwidthModule.run m0 calls))
            /\ BandwidthModule.packet_queue_ (snd (BandwidthModule.run m0 calls))
               = p :: rest0 ++ BandwidthModule.gated_in m calls).
  { induction calls as [|c calls IH]; intros m0 rest0 Hen Hq Hburst Hin Hout.
    - simpl. rewrite app_nil_r. split; [constructor|exact Hq].
    - assert (Hbig : (BandwidthModule.max_burst_bytes_ m0 < BandwidthModule.packet_size p)%Q)
        by (rewrite Hburst; exact Hoversized).
      assert (Hgate : forall a, BandwidthModule.ShouldProcess m0 a
                                = BandwidthModule.ShouldProcess m a).
      { intros a. unfold BandwidthModule.ShouldProcess. now rewrite Hin, Hout. }
      destruct (perform_blocked m0 c p rest0 Hen Hq Hbig)
        as [Hout1 [Hq1 [Hen1 [Hburst1 [Hin1 Hout2]]]]].
      simpl. destruct (BandwidthModule.perform m0 c) as [out m1]. simpl in *.
      specialize (IH m1 _ Hen1 Hq1 (eq_trans Hburst1 Hburst)
                    (eq_trans Hin1 Hin) (eq_trans Hout2 Hout)).
      destruct (BandwidthModule.run m1 calls) as [trace m2]. simpl in *.
      destruct IH as [IH1 IH2]. split.
      + constructor; [|exact IH1]. simpl. rewrite Hout1.
        destruct c as [now batch|now]; simpl; [|reflexivity].
        apply filter_ext. intros a. now rewrite Hgate.
      + rewrite IH2. rewrite app_nil_r. rewrite <- app_assoc.
        destruct c as [now batch|now]; simpl; [|reflexivity].
        do 3 f_equal. apply filter_ext. intros a. now rewrite Hgate. }
  now apply H.
Qed.

Lemma oversized_packet_stalls_bandwidth_queue_witness :
  BandwidthModule.packet_queue_
    (snd (BandwidthModule.run
            (snd (BandwidthModule.ProcessBatch 0 (Sample.bandwidth 1)
                    [Sample.inbound_packet 1500 0]))
            [BandwidthModule.GetReleasablePackets_at 1000000000;
             BandwidthModule.GetReleasablePackets_at 3600000000000]))
  = [Sample.inbound_packet 1500 0].
Proof.
  assert (Hbig : (BandwidthModule.max_burst_bytes_
                    (snd (BandwidthModule.ProcessBatch 0 (Sample.bandwidth 1)
                            [Sample.inbound_packet 1500 0]))
                  < BandwidthModule.packet_size (Sample.inbound_packet 1500 0))%Q)
    by (vm_compute; reflexivity).
  exact (proj2 (oversized_packet_stalls_bandwidth_queue
                  (snd (BandwidthModule.ProcessBatch 0 (Sample.bandwidth 1)
                          [Sample.inbound_packet 1500 0]))
                  (Sample.inbound_packet 1500 0) []
                  [BandwidthModule.GetReleasablePackets_at 1000000000;
                   BandwidthModule.GetReleasablePackets_at 3600000000000]
                  eq_refl eq_refl Hbig)).
Defined.

(** X15.  A packet at the front of the bandwidth queue that fits the burst
    size leaves with the first call made a second or more after the last
    refill, when the burst is one second of the rate and the bucket is not
    in debt: the call returns it and it is no longer queued first. *)
Theorem queued_packet_leaves_within_a_second
    (m : BandwidthModule.t) (p : SimulatedPacket) (rest : packets)
    (c : BandwidthModule.call)
    (Henabled : BandwidthModule.enabled_ m = true)
    (Hqueue : BandwidthModule.packet_queue_ m = p :: rest)
    (Hburst : BandwidthModule.burst_is_one_second m)
    (Htokens : (0 <= BandwidthModule.available_bytes_ m)%Q)
    (Hfits : (BandwidthModule.packet_size p <= BandwidthModule.max_burst_bytes_ m)%Q)
    (Hlate : BandwidthModule.last_refill_time_ m + 1000000000
             <= BandwidthModule.instant_of c) :
  exists released,
    fst (BandwidthModule.perform m c)
    = BandwidthModule.bypassing m c ++ p :: released
    /\ released ++ BandwidthModule.packet_queue_ (snd (BandwidthModule.perform m c))
       = rest ++ BandwidthModule.gated_in m [c].
Proof.
  assert (Hfull : forall now, BandwidthModule.last_refill_time_ m + 1000000000 <= now ->
            Qle_bool (BandwidthModule.packet_size p)
              (BandwidthModule.available_bytes_ (BandwidthModule.RefillTokenBucket now m))
            = true).
  { intros now Hnow. apply Qle_bool_true. simpl.
    pose proof (burst_nonneg m Hburst) as Hb0.
    destruct Hburst as [Hk Hb].
    assert (Hadd : (BandwidthModule.max_burst_bytes_ m
                    <= BandwidthModule.bytes_to_add now m)%Q).
    { rewrite bytes_to_add_rate, Hb.
      assert (He : (1 <= BandwidthModule.elapsed_seconds
                           (BandwidthModule.last_refill_time_ m) now)%Q).
      { unfold BandwidthModule.elapsed_seconds.
        apply Qle_shift_div_l; [lra|].
        change (1 * 1000000000)%Q with (inject_Z 1000000000).
        rewrite <- Zle_Qle. lia. }
      pose proof (inject_Z_nonneg _ Hk) as Hk0.
      revert He Hk0.
      generalize (BandwidthModule.elapsed_seconds (BandwidthModule.last_refill_time_ m) now).
      generalize (inject_Z (BandwidthModule.bandwidth_kbps_ m)).
      intros k e He Hk0. nra. }
    destruct (std_min_spec
                (BandwidthModule.available_bytes_ m + BandwidthModule.bytes_to_add now m)
                (BandwidthModule.max_burst_bytes_ m)) as [_ [_ [E|E]]];
      rewrite E; lra. }
  destruct c as [now batch|now]; simpl in Hlate |- *.
  - unfold BandwidthModule.ProcessBatch. rewrite Henabled.
    cbv beta iota zeta delta [negb]. rewrite add_to_queue_spec.
    change (BandwidthModule.packet_queue_ (BandwidthModule.RefillTokenBucket now m))
      with (BandwidthModule.packet_queue_ m).
    rewrite Hqueue, <- app_comm_cons.
    cbn [BandwidthModule.process_queue].
    unfold BandwidthModule.ConsumeTokens. rewrite (Hfull now Hlate).
    match goal with
    | |- context [BandwidthModule.process_queue ?a ?q] =>
        pose proof (process_queue_spec a q) as Hspec;
        destruct (BandwidthModule.process_queue a q) as [[released a'] remaining]
    end.
    simpl in Hspec. destruct Hspec as [Happ _].
    exists released. simpl. rewrite app_nil_r. split; [reflexivity|exact Happ].
  - unfold BandwidthModule.GetReleasablePackets. rewrite Henabled.
    cbv beta iota zeta delta [negb].
    change (BandwidthModule.packet_queue_ (BandwidthModule.RefillTokenBucket now m))
      with (BandwidthModule.packet_queue_ m).
    rewrite Hqueue. cbn [BandwidthModule.process_queue].
    unfold BandwidthModule.ConsumeTokens. rewrite (Hfull now Hlate).
    match goal with
    | |- context [BandwidthModule.process_queue ?a ?q] =>
        pose proof (process_queue_spec a q) as Hspec;
        destruct (BandwidthModule.process_queue a q) as [[released a'] remaining]
    end.
    simpl in Hspec. destruct Hspec as [Happ _].
    exists released. simpl. rewrite app_nil_r. split; [reflexivity|exact Happ].
Qed.

Lemma queued_packet_leaves_within_a_second_witness :
  exists released,
    fst (BandwidthModule.perform
           (snd (BandwidthModule.ProcessBatch 0 (Sample.bandwidth 8)
                   [Sample.inbound_packet 900 0]))
           (BandwidthModule.GetReleasablePackets_at 1000000000))
    = [] ++ Sample.inbound_packet 900 0 :: released
    /\ released
       ++ BandwidthModule.packet_queue_
            (snd (BandwidthModule.perform
                    (snd (BandwidthModule.ProcessBatch 0 (Sample.bandwidth 8)
                            [Sample.inbound_packet 900 0]))
                    (BandwidthModule.GetReleasablePackets_at 1000000000)))
       = [] ++ [].
Proof.
  assert (Hburst : BandwidthModule.burst_is_one_second
                     (snd (BandwidthModule.ProcessBatch 0 (Sample.bandwidth 8)
                             [Sample.inbound_packet 900 0])))
    by (split; [simpl; lia | vm_compute; reflexivity]).
  assert (Htokens : (0 <= BandwidthModule.available_bytes_
                            (snd (BandwidthModule.ProcessBatch 0 (Sample.bandwidth 8)
                                    [Sample.inbound_packet 900 0])))%Q)
    by (vm_compute; discriminate).
  assert (Hfits : (BandwidthModule.packet_size (Sample.inbound_packet 900 0)
                   <= BandwidthModule.max_burst_bytes_
                        (snd (BandwidthModule.ProcessBatch 0 (Sample.bandwidth 8)
                                [Sample.inbound_packet 900 0])))%Q)
    by (vm_compute; discriminate).
  assert (Hlate : BandwidthModule.last_refill_time_
                    (snd (BandwidthModule.ProcessBatch 0 (Sample.bandwidth 8)
                            [Sample.inbound_packet 900 0])) + 1000000000
                  <= BandwidthModule.instant_of
                       (BandwidthModule.GetReleasablePackets_at 1000000000))
    by (vm_compute; discriminate).
  exact (queued_packet_leaves_within_a_second
           (snd (BandwidthModule.ProcessBatch 0 (Sample.bandwidth 8)
                   [Sample.inbound_packet 900 0]))
           (Sample.inbound_packet 900 0) []
           (BandwidthModule.GetReleasablePackets_at 1000000000)
           eq_refl eq_refl Hburst Htokens Hfits Hlate).
Defined.

(** ** One pass of the capture worker *)

Section PermutationModuloAC.

Context {A : Type}.

#[local] Instance Permutation_app_Associative : Associative (@Permutation A) (@app A).
Proof. intros x y z. now rewrite app_assoc. Qed.

#[local] Instance Permutation_app_Commutative : Commutative (@Permutation A) (@app A).
Proof. intros x y. apply Permutation_app_comm. Qed.

#[local] Instance Permutation_app_Unit : Unit (@Permutation A) (@app A) (@nil A).
Proof. split; intros x; [reflexivity | now rewrite app_nil_r]. Qed.

(** The bookkeeping of six stages in a row: [s1] .. [s6] are the batches
    after each stage, primed lists the buffers afterwards. *)
Lemma six_stage_balance
    (b d cp s1 s2 s3 s4 s5 s6 B B' J J' W W' L L' : list A) :
  Permutation (s1 ++ d) b ->
  Permutation s2 (s1 ++ cp) ->
  Permutation (s3 ++ B') (s2 ++ B) ->
  Permutation (s4 ++ J') (s3 ++ J) ->
  Permutation (s5 ++ W') (s4 ++ W) ->
  Permutation (s6 ++ L') (s5 ++ L) ->
  Permutation ((s6 ++ B' ++ J' ++ L' ++ W') ++ d) ((b ++ B ++ J ++ L ++ W) ++ cp).
Proof.
  intros P0 Pc P1 P2 P3 P4.
  transitivity ((s6 ++ L') ++ B' ++ J' ++ W' ++ d); [aac_reflexivity|].
  rewrite P4.
  transitivity ((s5 ++ W') ++ L ++ B' ++ J' ++ d); [aac_reflexivity|].
  rewrite P3.
  transitivity ((s4 ++ J') ++ W ++ L ++ B' ++ d); [aac_reflexivity|].
  rewrite P2.
  transitivity ((s3 ++ B') ++ J ++ W ++ L ++ d); [aac_reflexivity|].
  rewrite P1, Pc.
  transitivity ((s1 ++ d) ++ cp ++ B ++ J ++ W ++ L); [aac_reflexivity|].
  rewrite P0. aac_reflexivity.
Qed.

End PermutationModuloAC.

Lemma ShouldDrop_keeps_shuffle (m : PacketLossModule.t) (r : RandomUtils.t) :
  RandomUtils.permutation (snd (PacketLossModule.ShouldDrop m r))
  = RandomUtils.permutation r.
Proof.
  unfold PacketLossModule.ShouldDrop.
  destruct (Qle_bool (PacketLossModule.loss_rate_ m) 0); [reflexivity|].
  destruct (Qle_bool 100 (PacketLossModule.loss_rate_ m)); reflexivity.
Qed.

Lemma survivors_keeps_shuffle (m : PacketLossModule.t) (batch : packets)
    (r : RandomUtils.t) :
  RandomUtils.permutation (snd (PacketLossModule.survivors m batch r))
  = RandomUtils.permutation r.
Proof.
  revert r. induction batch as [|p rest IH]; intros r; simpl; [reflexivity|].
  destruct (PacketLossModule.ShouldProcess m (addr p)).
  - pose proof (ShouldDrop_keeps_shuffle m r) as H.
    destruct (PacketLossModule.ShouldDrop m r) as [drop r1]. simpl in H.
    specialize (IH r1).
    destruct (PacketLossModule.survivors m rest r1) as [out r2]. simpl in IH.
    destruct drop; simpl; congruence.
  - specialize (IH r).
    destruct (PacketLossModule.survivors m rest r) as [out r2]. exact IH.
Qed.

Lemma ShouldDuplicate_keeps_shuffle (m : DuplicateModule.t) (r : RandomUtils.t) :
  RandomUtils.permutation (snd (DuplicateModule.ShouldDuplicate m r))
  = RandomUtils.permutation r.
Proof.
  unfold DuplicateModule.ShouldDuplicate.
  destruct (Qle_bool (DuplicateModule.duplication_rate_ m) 0); [reflexivity|].
  destruct (Qle_bool 100 (DuplicateModule.duplication_rate_ m)); reflexivity.
Qed.

Lemma fan_out_keeps_shuffle (m : DuplicateModule.t) (batch out : packets)
    (r : RandomUtils.t) :
  RandomUtils.permutation (snd (DuplicateModule.fan_out m batch out r))
  = RandomUtils.permutation r.
Proof.
  revert out r. induction batch as [|p rest IH]; intros out r; simpl; [reflexivity|].
  destruct (DuplicateModule.ShouldProcess m _).
  - pose proof (ShouldDuplicate_keeps_shuffle m r) as H.
    destruct (DuplicateModule.ShouldDuplicate m r) as [dup r1]. simpl in H.
    destruct dup; rewrite IH; exact H.
  - apply IH.
Qed.

(** X16.  One pass of the capture worker over a batch, whatever stages are
    enabled and whatever they hold.  Let [after_loss] be what the loss
    stage leaves of the batch, the batch itself when that stage is
    disabled, and [after_duplicate] what the duplicate stage makes of
    [after_loss], again [after_loss] itself when that stage is disabled.
    Then the packets handed on for sending together with the packets the
    modules hold afterwards are, up to [release_time], exactly the
    packets of [after_duplicate] together with those held before: the
    four later stages neither lose nor make a packet.  [after_loss] is a
    subsequence of the batch and of [after_duplicate], and every packet
    of [after_duplicate] is one of [after_loss].  With loss and duplicate
    both disabled, what is sent and held afterwards is the batch and what
    was held before. *)
Theorem worker_pass_conserves_packets
    (clk : NetworkCapture.instants) (c : NetworkCapture.t) (batch : packets)
    (g : NetworkCapture.generators)
    (Hshuffle : RandomUtils.permutes (NetworkCapture.utils g)) :
  let loss :=
    if PacketLossModule.IsEnabled (NetworkCapture.packet_loss_module_ c)
    then PacketLossModule.ProcessBatch (NetworkCapture.packet_loss_module_ c)
           batch (NetworkCapture.utils g)
    else (batch, NetworkCapture.utils g) in
  let after_loss := fst loss in
  let duplicate :=
    if DuplicateModule.IsEnabled (NetworkCapture.duplicate_module_ c)
    then DuplicateModule.ProcessBatch (NetworkCapture.duplicate_module_ c)
           after_loss (snd loss)
    else (after_loss, snd loss) in
  let after_duplicate := fst duplicate in
  let result := NetworkCapture.apply_simulation_effects clk c batch g in
  let sent := fst (fst result) in
  let held := NetworkCapture.buffered (snd (fst result)) in
  Permutation (map identity (sent ++ held))
    (map identity (after_duplicate ++ NetworkCapture.buffered c))
  /\ subsequence after_loss batch
  /\ subsequence after_loss after_duplicate
  /\ (forall x, In x after_duplicate -> In x after_loss)
  /\ (PacketLossModule.IsEnabled (NetworkCapture.packet_loss_module_ c) = false ->
      after_loss = batch)
  /\ (DuplicateModule.IsEnabled (NetworkCapture.duplicate_module_ c) = false ->
      after_duplicate = after_loss)
  /\ (PacketLossModule.IsEnabled (NetworkCapture.packet_loss_module_ c) = false ->
      DuplicateModule.IsEnabled (NetworkCapture.duplicate_module_ c) = false ->
      Permutation (map identity (sent ++ held))
        (map identity (batch ++ NetworkCapture.buffered c))).
Proof.
  cbn zeta.
  unfold NetworkCapture.apply_simulation_effects, NetworkCapture.buffered.
  (* 1. Packet loss *)
  set (loss := if PacketLossModule.IsEnabled (NetworkCapture.packet_loss_module_ c)
               then PacketLossModule.ProcessBatch (NetworkCapture.packet_loss_module_ c)
                      batch (NetworkCapture.utils g)
               else (batch, NetworkCapture.utils g)).
  assert (H1 : subsequence (fst loss) batch
               /\ (PacketLossModule.IsEnabled (NetworkCapture.packet_loss_module_ c)
                   = false -> fst loss = batch)
               /\ RandomUtils.permutation (snd loss)
                  = RandomUtils.permutation (NetworkCapture.utils g)).
  { unfold loss, PacketLossModule.IsEnabled, PacketLossModule.ProcessBatch.
    destruct (PacketLossModule.enabled_ _); simpl.
    - split; [apply survivors_subsequence|].
      split; [discriminate|apply survivors_keeps_shuffle].
    - split; [apply subsequence_refl|]. split; reflexivity. }
  clearbody loss. destruct loss as [sim1 r1].
  cbn [fst snd] in *. destruct H1 as (Hsub1 & Hoff1 & Hr1).
  (* 2. Duplicate *)
  set (duplicate := if DuplicateModule.IsEnabled (NetworkCapture.duplicate_module_ c)
                    then DuplicateModule.ProcessBatch
                           (NetworkCapture.duplicate_module_ c) sim1 r1
                    else (sim1, r1)).
  assert (H2 : subsequence sim1 (fst duplicate)
               /\ (forall x, In x (fst duplicate) -> In x sim1)
               /\ (DuplicateModule.IsEnabled (NetworkCapture.duplicate_module_ c)
                   = false -> fst duplicate = sim1)
               /\ RandomUtils.permutation (snd duplicate) = RandomUtils.permutation r1).
  { unfold duplicate, DuplicateModule.IsEnabled, DuplicateModule.ProcessBatch.
    destruct (DuplicateModule.enabled_ _); simpl.
    - split; [|split; [|split; [discriminate|apply fan_out_keeps_shuffle]]].
      + destruct (fan_out_shape (NetworkCapture.duplicate_module_ c) sim1 [] r1)
          as (tail & Heq & Hsub & _).
        rewrite Heq. exact Hsub.
      + destruct (fan_out_never_removes (NetworkCapture.duplicate_module_ c) sim1 [] r1)
          as (copies & Hperm & Hcopies).
        intros x Hx. apply (Permutation_in x Hperm) in Hx. cbn [app] in Hx.
        apply in_app_or in Hx. destruct Hx as [Hx|Hx]; [exact Hx|].
        exact (proj1 (Forall_forall _ _) Hcopies x Hx).
    - split; [apply subsequence_refl|]. split; [tauto|]. split; reflexivity. }
  clearbody duplicate. destruct duplicate as [sim2 r2].
  cbn [fst snd] in *. destruct H2 as (Hsub2 & Hin2 & Hoff2 & Hr2).
  assert (Hshuffle2 : RandomUtils.permutes r2).
  { intros n v. rewrite Hr2, Hr1. apply Hshuffle. }
  (* 3. Out of order *)
  assert (E3 : (if OutOfOrderModule.IsEnabled (NetworkCapture.out_of_order_module_ c)
                then OutOfOrderModule.ProcessBatch
                       (NetworkCapture.out_of_order_module_ c) sim2 r2
                else (sim2, NetworkCapture.out_of_order_module_ c, r2))
               = OutOfOrderModule.ProcessBatch
                   (NetworkCapture.out_of_order_module_ c) sim2 r2).
  { unfold OutOfOrderModule.IsEnabled, OutOfOrderModule.ProcessBatch.
    now destruct (OutOfOrderModule.enabled_ _). }
  rewrite E3. clear E3.
  destruct (reorder_conserves (NetworkCapture.out_of_order_module_ c) sim2 r2 Hshuffle2)
    as [P1 _].
  destruct (OutOfOrderModule.ProcessBatch _ sim2 r2) as [[sim3 ooo] r3].
  simpl in P1.
  (* 4. Jitter *)
  assert (E4 : (if JitterModule.IsEnabled (NetworkCapture.jitter_module_ c)
                then JitterModule.ProcessBatch (NetworkCapture.at_jitter clk)
                       (NetworkCapture.jitter_module_ c) sim3
                       (NetworkCapture.jitter_rng g)
                else (sim3, NetworkCapture.jitter_module_ c, NetworkCapture.jitter_rng g))
               = JitterModule.ProcessBatch (NetworkCapture.at_jitter clk)
                   (NetworkCapture.jitter_module_ c) sim3 (NetworkCapture.jitter_rng g)).
  { unfold JitterModule.IsEnabled, JitterModule.ProcessBatch.
    now destruct (JitterModule.enabled_ _). }
  rewrite E4. clear E4.
  destruct (jitter_conserves (NetworkCapture.at_jitter clk)
              (NetworkCapture.jitter_module_ c) sim3 (NetworkCapture.jitter_rng g))
    as [[P2 _] _].
  destruct (JitterModule.ProcessBatch _ _ sim3 _) as [[sim4 jit] j4].
  simpl in P2.
  (* 5. Bandwidth limiting *)
  assert (E5 : (if BandwidthModule.IsEnabled (NetworkCapture.bandwidth_module_ c)
                then BandwidthModule.ProcessBatch (NetworkCapture.at_bandwidth clk)
                       (NetworkCapture.bandwidth_module_ c) sim4
                else (sim4, NetworkCapture.bandwidth_module_ c))
               = BandwidthModule.ProcessBatch (NetworkCapture.at_bandwidth clk)
                   (NetworkCapture.bandwidth_module_ c) sim4).
  { unfold BandwidthModule.IsEnabled, BandwidthModule.ProcessBatch.
    now destruct (BandwidthModule.enabled_ _). }
  rewrite E5. clear E5.
  destruct (bandwidth_conserves (NetworkCapture.at_bandwidth clk)
              (NetworkCapture.bandwidth_module_ c) sim4) as [P3 _].
  destruct (BandwidthModule.ProcessBatch _ _ sim4) as [sim5 bw].
  simpl in P3.
  (* 6. Latency *)
  assert (E6 : (if LatencyModule.IsEnabled (NetworkCapture.latency_module_ c)
                then LatencyModule.ProcessBatch (NetworkCapture.at_latency clk)
                       (NetworkCapture.latency_module_ c) sim5
                else (sim5, NetworkCapture.latency_module_ c))
               = LatencyModule.ProcessBatch (NetworkCapture.at_latency clk)
                   (NetworkCapture.latency_module_ c) sim5).
  { unfold LatencyModule.IsEnabled, LatencyModule.ProcessBatch.
    now destruct (LatencyModule.enabled_ _). }
  rewrite E6. clear E6.
  destruct (latency_conserves (NetworkCapture.at_latency clk)
              (NetworkCapture.latency_module_ c) sim5) as [[P4 _] _].
  destruct (LatencyModule.ProcessBatch _ _ sim5) as [sim6 lat].
  simpl in P4. simpl.
  assert (Hbalance :
            Permutation
              (map identity
                 (sim6 ++ OutOfOrderModule.packet_buffer_ ooo
                  ++ JitterModule.delayed_packets_ jit
                  ++ LatencyModule.delayed_packets_ lat
                  ++ BandwidthModule.packet_queue_ bw))
              (map identity
                 (sim2
                  ++ OutOfOrderModule.packet_buffer_
                       (NetworkCapture.out_of_order_module_ c)
                  ++ JitterModule.delayed_packets_ (NetworkCapture.jitter_module_ c)
                  ++ LatencyModule.delayed_packets_ (NetworkCapture.latency_module_ c)
                  ++ BandwidthModule.packet_queue_
                       (NetworkCapture.bandwidth_module_ c)))).
  { rewrite !map_app in *.
    match goal with
    | |- Permutation ?l ?r =>
        enough (Hsix : Permutation (l ++ []) (r ++ []))
          by (now rewrite !app_nil_r in Hsix)
    end.
    apply (six_stage_balance (map identity sim2) [] [] (map identity sim2)
             (map identity sim2) (map identity sim3) (map identity sim4)
             (map identity sim5) (map identity sim6)).
    + now rewrite app_nil_r.
    + now rewrite app_nil_r.
    + rewrite <- !map_app. now apply Permutation_map.
    + exact P2.
    + rewrite <- !map_app. now apply Permutation_map.
    + exact P4. }
  split; [exact Hbalance|].
  split; [exact Hsub1|]. split; [exact Hsub2|]. split; [exact Hin2|].
  split; [exact Hoff1|]. split; [exact Hoff2|].
  intros Hloss Hdup. rewrite (Hoff2 Hdup), (Hoff1 Hloss) in Hbalance. exact Hbalance.
Qed.

Lemma worker_pass_conserves_packets_witness :
  Permutation
    (map identity
       (fst (fst (NetworkCapture.apply_simulation_effects (Sample.at_instant 0)
                    Sample.capturing_with_latency Sample.five_packets
                    Sample.generators))
        ++ NetworkCapture.buffered
             (snd (fst (NetworkCapture.apply_simulation_effects (Sample.at_instant 0)
                          Sample.capturing_with_latency Sample.five_packets
                          Sample.generators)))))
    (map identity (Sample.five_packets
                   ++ NetworkCapture.buffered Sample.capturing_with_latency)).
Proof.
  assert (Hshuffle : RandomUtils.permutes (NetworkCapture.utils Sample.generators)).
  { intros n v. simpl. symmetry. apply Permutation_rev. }
  exact (proj2 (proj2 (proj2 (proj2 (proj2 (proj2
           (worker_pass_conserves_packets (Sample.at_instant 0)
              Sample.capturing_with_latency Sample.five_packets Sample.generators
              Hshuffle)))))) eq_refl eq_refl).
Defined.

(** ** Byte order of what is recorded *)

Lemma land_255 (x : Z) : Z.land x 255 = x mod 256.
Proof. change 255 with (Z.ones 8). now rewrite Z.land_ones by lia. Qed.

Lemma lor_shiftl_add (hi lo k : Z) :
  0 <= k -> 0 <= lo < 2 ^ k -> Z.lor (Z.shiftl hi k) lo = hi * 2 ^ k + lo.
Proof.
  intros Hk Hlo.
  assert (Hland : Z.land (Z.shiftl hi k) lo = 0).
  { apply Z.bits_inj'. intros n Hn.
    rewrite Z.land_spec, Z.bits_0.
    destruct (Z.lt_ge_cases n k) as [Hlt|Hge].
    - now rewrite Z.shiftl_spec_low.
    - rewrite <- (Z.mod_small lo (2 ^ k)) by lia.
      rewrite Z.mod_pow2_bits_high by lia. apply andb_false_r. }
  pose proof (Z.add_lor_land (Z.shiftl hi k) lo) as H.
  rewrite Hland, Z.add_0_r in H. rewrite H. now rewrite Z.shiftl_mul_pow2.
Qed.

Lemma ntohl_load (a b c d : Z) :
  Winsock.octet a -> Winsock.octet b -> Winsock.octet c -> Winsock.octet d ->
  Winsock.ntohl (Winsock.load [a; b; c; d]) = Winsock.load [d; c; b; a].
Proof.
  unfold Winsock.octet, Winsock.ntohl, Winsock.load. cbn [fold_right].
  intros Ha Hb Hc Hd.
  rewrite !land_255, !Z.shiftr_div_pow2 by lia.
  replace ((a + 256 * (b + 256 * (c + 256 * (d + 256 * 0)))) mod 256) with a
    by (Z.div_mod_to_equations; lia).
  replace (((a + 256 * (b + 256 * (c + 256 * (d + 256 * 0)))) / 2 ^ 8) mod 256) with b
    by (Z.div_mod_to_equations; lia).
  replace (((a + 256 * (b + 256 * (c + 256 * (d + 256 * 0)))) / 2 ^ 16) mod 256) with c
    by (Z.div_mod_to_equations; lia).
  replace (((a + 256 * (b + 256 * (c + 256 * (d + 256 * 0)))) / 2 ^ 24) mod 256) with d
    by (Z.div_mod_to_equations; lia).
  rewrite (lor_shiftl_add c d 8) by lia.
  rewrite (Z.shiftl_mul_pow2 b 16) by lia.
  replace (b * 2 ^ 16) with (Z.shiftl 0 16 + b * 2 ^ 16) by (rewrite Z.shiftl_0_l; lia).
  rewrite Z.shiftl_0_l.
  rewrite (lor_shiftl_add a (0 + b * 2 ^ 16) 24) by lia.
  assert (E : a * 2 ^ 24 + (0 + b * 2 ^ 16) = Z.shiftl (a * 2 ^ 8 + b) 16)
    by (rewrite Z.shiftl_mul_pow2; lia).
  rewrite E. rewrite lor_shiftl_add by lia. lia.
Qed.

Lemma octets_of_load (a b c d : Z) :
  Winsock.octet a -> Winsock.octet b -> Winsock.octet c -> Winsock.octet d ->
  Z.land (Winsock.load [a; b; c; d]) 255 = a
  /\ Z.land (Z.shiftr (Winsock.load [a; b; c; d]) 8) 255 = b
  /\ Z.land (Z.shiftr (Winsock.load [a; b; c; d]) 16) 255 = c
  /\ Z.land (Z.shiftr (Winsock.load [a; b; c; d]) 24) 255 = d.
Proof.
  unfold Winsock.octet, Winsock.load. cbn [fold_right].
  intros Ha Hb Hc Hd.
  rewrite !land_255, !Z.shiftr_div_pow2 by lia.
  repeat split; Z.div_mod_to_equations; lia.
Qed.

Lemma store32_ntohl_load (a b c d : Z) :
  Winsock.octet a -> Winsock.octet b -> Winsock.octet c -> Winsock.octet d ->
  Winsock.store32 (Winsock.ntohl (Winsock.load [a; b; c; d])) = [d; c; b; a].
Proof.
  intros Ha Hb Hc Hd. rewrite ntohl_load by assumption.
  destruct (octets_of_load d c b a Hd Hc Hb Ha) as (E0 & E1 & E2 & E3).
  unfold Winsock.store32. now rewrite E0, E1, E2, E3.
Qed.

Lemma ntohs_load (hi lo : Z) :
  Winsock.octet hi -> Winsock.octet lo ->
  Winsock.ntohs (Winsock.load [hi; lo]) = 256 * hi + lo.
Proof.
  unfold Winsock.octet, Winsock.ntohs, Winsock.load. cbn [fold_right].
  intros Hhi Hlo.
  rewrite !land_255, !Z.shiftr_div_pow2 by lia.
  replace ((hi + 256 * (lo + 256 * 0)) mod 256) with hi
    by (Z.div_mod_to_equations; lia).
  replace (((hi + 256 * (lo + 256 * 0)) / 2 ^ 8) mod 256) with lo
    by (Z.div_mod_to_equations; lia).
  rewrite lor_shiftl_add by lia. lia.
Qed.

Lemma IPv4Address_ToString_ntohl_load (a b c d : Z) :
  Winsock.octet a -> Winsock.octet b -> Winsock.octet c -> Winsock.octet d ->
  Display.IPv4Address_ToString (Winsock.ntohl (Winsock.load [a; b; c; d]))
  = Display.dotted_quad a b c d.
Proof.
  intros Ha Hb Hc Hd. rewrite ntohl_load by assumption.
  destruct (octets_of_load d c b a Hd Hc Hb Ha) as (E0 & E1 & E2 & E3).
  unfold Display.IPv4Address_ToString, Display.dotted_quad.
  now rewrite E0, E1, E2, E3.
Qed.

(** X17.  An IPv4 packet is recorded with the addresses of its header:
    when the header's source and destination fields hold the bytes
    [s0 s1 s2 s3] and [d0 d1 d2 d3] in the order they are on the wire,
    [ParsePacket] stores IPv4 addresses that [ToString] prints as
    [s0.s1.s2.s3] and [d0.d1.d2.d3]. *)
Theorem IPv4_addresses_are_shown_in_wire_order
    (parse : WinDivertHelperParsePacket) (now : time_point)
    (packet_data : list byte) (a : WINDIVERT_ADDRESS) (ip : WINDIVERT_IPHDR)
    (s0 s1 s2 s3 d0 d1 d2 d3 : Z)
    (Hparsed : ip_header (parse packet_data) = Some ip)
    (Hsrc : ip_SrcAddr ip = Winsock.load [s0; s1; s2; s3])
    (Hdst : ip_DstAddr ip = Winsock.load [d0; d1; d2; d3])
    (Hoctets : Forall Winsock.octet [s0; s1; s2; s3; d0; d1; d2; d3]) :
  exists src dst,
    src_addr (ParsePacket parse now packet_data a) = IPv4Address src
    /\ dst_addr (ParsePacket parse now packet_data a) = IPv4Address dst
    /\ ip_version (ParsePacket parse now packet_data a) = 4
    /\ Display.IPv4Address_ToString src = Display.dotted_quad s0 s1 s2 s3
    /\ Display.IPv4Address_ToString dst = Display.dotted_quad d0 d1 d2 d3.
Proof.
  repeat match goal with
         | H : Forall _ (_ :: _) |- _ => inversion H; subst; clear H
         end.
  unfold ParsePacket. rewrite Hparsed.
  exists (Winsock.ntohl (ip_SrcAddr ip)), (Winsock.ntohl (ip_DstAddr ip)).
  destruct (tcp_header (parse packet_data)); [|destruct (udp_header (parse packet_data))];
    cbn [src_addr dst_addr ip_version]; rewrite Hsrc, Hdst;
    repeat split; now apply IPv4Address_ToString_ntohl_load.
Qed.

Lemma IPv4_addresses_are_shown_in_wire_order_witness :
  exists src dst,
    src_addr (ParsePacket
                (fun _ => mkHeaders
                            (Some (mkIPHDR 0 6 (Winsock.load [192; 168; 1; 10])
                                     (Winsock.load [10; 0; 0; 1])))
                            None None None)
                0 [] (mkAddr false false 1)) = IPv4Address src
    /\ dst_addr (ParsePacket
                   (fun _ => mkHeaders
                               (Some (mkIPHDR 0 6 (Winsock.load [192; 168; 1; 10])
                                        (Winsock.load [10; 0; 0; 1])))
                               None None None)
                   0 [] (mkAddr false false 1)) = IPv4Address dst
    /\ ip_version (ParsePacket
                     (fun _ => mkHeaders
                                 (Some (mkIPHDR 0 6 (Winsock.load [192; 168; 1; 10])
                                          (Winsock.load [10; 0; 0; 1])))
                                 None None None)
                     0 [] (mkAddr false false 1)) = 4
    /\ Display.IPv4Address_ToString src = Display.dotted_quad 192 168 1 10
    /\ Display.IPv4Address_ToString dst = Display.dotted_quad 10 0 0 1.
Proof.
  assert (Hoctets : Forall Winsock.octet [192; 168; 1; 10; 10; 0; 0; 1])
    by (repeat constructor; unfold Winsock.octet; lia).
  exact (IPv4_addresses_are_shown_in_wire_order
           (fun _ => mkHeaders
                       (Some (mkIPHDR 0 6 (Winsock.load [192; 168; 1; 10])
                                (Winsock.load [10; 0; 0; 1])))
                       None None None)
           0 [] (mkAddr false false 1)
           (mkIPHDR 0 6 (Winsock.load [192; 168; 1; 10]) (Winsock.load [10; 0; 0; 1]))
           192 168 1 10 10 0 0 1 eq_refl eq_refl eq_refl Hoctets).
Defined.

Lemma s6_addr_ntohl_groups (groups : list (list Z)) :
  Forall (fun g => length g = 4%nat /\ Forall Winsock.octet g) groups ->
  Display.s6_addr (map Winsock.ntohl (map Winsock.load groups))
  = concat (map (@rev Z) groups).
Proof.
  induction 1 as [|g groups [Hlen Hoct] _ IH]; [reflexivity|].
  destruct g as [|a [|b [|c [|d [|e g]]]]]; try discriminate Hlen.
  repeat match goal with
         | H : Forall _ (_ :: _) |- _ => inversion H; subst; clear H
         end.
  unfold Display.s6_addr in *. cbn [map flat_map concat].
  rewrite IH. rewrite store32_ntohl_load by assumption. reflexivity.
Qed.

(** X18.  An IPv6 packet is recorded with the bytes of each 32-bit group
    of its addresses reversed: when the header's source field holds the
    groups [groups], four bytes each in wire order, the sixteen bytes
    that [ToString] hands to [inet_ntop] for the address [ParsePacket]
    stored are those groups with each one reversed, and what is shown is
    [inet_ntop] of that. *)
Theorem IPv6_addresses_are_shown_with_groups_reversed
    (parse : WinDivertHelperParsePacket) (now : time_point)
    (packet_data : list byte) (a : WINDIVERT_ADDRESS) (ip6 : WINDIVERT_IPV6HDR)
    (groups : list (list Z)) (inet_ntop : list Z -> option String.string)
    (Hno_ip : ip_header (parse packet_data) = None)
    (Hparsed : ipv6_header (parse packet_data) = Some ip6)
    (Hsrc : ipv6_SrcAddr ip6 = map Winsock.load groups)
    (Hgroups : Forall (fun g => length g = 4%nat /\ Forall Winsock.octet g) groups) :
  exists src,
    src_addr (ParsePacket parse now packet_data a) = IPv6Address src
    /\ Display.s6_addr src = concat (map (@rev Z) groups)
    /\ Display.IPv6Address_ToString inet_ntop src
       = Display.IPv6Address_ToString inet_ntop
           (map Winsock.load (map (@rev Z) groups)).
Proof.
  assert (Hrev : Display.s6_addr (map Winsock.load (map (@rev Z) groups))
                 = concat (map (@rev Z) groups)).
  { clear Hsrc. induction Hgroups as [|g gs [Hlen Hoct] _ IH]; [reflexivity|].
    destruct g as [|b0 [|b1 [|b2 [|b3 [|e g]]]]]; try discriminate Hlen.
    repeat match goal with
           | H : Forall _ (_ :: _) |- _ => inversion H; subst; clear H
           end.
    unfold Display.s6_addr in *. cbn [map flat_map concat rev app].
    rewrite IH.
    destruct (octets_of_load b3 b2 b1 b0) as (E0 & E1 & E2 & E3); try assumption.
    unfold Winsock.store32. now rewrite E0, E1, E2, E3. }
  unfold ParsePacket. rewrite Hno_ip, Hparsed.
  exists (map Winsock.ntohl (ipv6_SrcAddr ip6)).
  assert (Hbytes : Display.s6_addr (map Winsock.ntohl (ipv6_SrcAddr ip6))
                   = concat (map (@rev Z) groups))
    by (rewrite Hsrc; now apply s6_addr_ntohl_groups).
  destruct (tcp_header (parse packet_data)); [|destruct (udp_header (parse packet_data))];
    cbn [src_addr]; (split; [reflexivity|]); (split; [exact Hbytes|]);
    unfold Display.IPv6Address_ToString; now rewrite Hbytes, Hrev.
Qed.

Lemma IPv6_addresses_are_shown_with_groups_reversed_witness :
  exists src,
    src_addr (ParsePacket
                (fun _ => mkHeaders None
                            (Some (mkIPV6HDR 0 6
                                     (map Winsock.load
                                        [[0; 0; 0; 0]; [0; 0; 0; 0]; [0; 0; 0; 0]; [0; 0; 0; 1]])
                                     []))
                            None None)
                0 [] (mkAddr false false 1)) = IPv6Address src
    /\ Display.s6_addr src
       = [0; 0; 0; 0; 0; 0; 0; 0; 0; 0; 0; 0; 1; 0; 0; 0]
    /\ Display.IPv6Address_ToString (fun _ => None) src
       = Display.IPv6Address_ToString (fun _ => None)
           (map Winsock.load
              (map (@rev Z) [[0; 0; 0; 0]; [0; 0; 0; 0]; [0; 0; 0; 0]; [0; 0; 0; 1]])).
Proof.
  assert (Hgroups : Forall (fun g => length g = 4%nat /\ Forall Winsock.octet g)
                      [[0; 0; 0; 0]; [0; 0; 0; 0]; [0; 0; 0; 0]; [0; 0; 0; 1]])
    by (repeat constructor; unfold Winsock.octet; lia).
  exact (IPv6_addresses_are_shown_with_groups_reversed
           (fun _ => mkHeaders None
                       (Some (mkIPV6HDR 0 6
                                (map Winsock.load
                                   [[0; 0; 0; 0]; [0; 0; 0; 0]; [0; 0; 0; 0]; [0; 0; 0; 1]])
                                []))
                       None None)
           0 [] (mkAddr false false 1)
           (mkIPV6HDR 0 6
              (map Winsock.load
                 [[0; 0; 0; 0]; [0; 0; 0; 0]; [0; 0; 0; 0]; [0; 0; 0; 1]]) [])
           [[0; 0; 0; 0]; [0; 0; 0; 0]; [0; 0; 0; 0]; [0; 0; 0; 1]]
           (fun _ => None) eq_refl eq_refl eq_refl Hgroups).
Defined.

(** ** The ring of recorded packets *)

Lemma store_packet_info_spec (info : PacketInfo) (c : Capture.t) :
  let c' := Capture.store_packet_info info c in
  Capture.max_packets_ c' = Capture.max_packets_ c
  /\ ((Capture.max_packets_ c <? Z.of_nat (length (Capture.packets_ c ++ [info]))) = true ->
      Capture.packets_ c' = tl (Capture.packets_ c ++ [info])
      /\ Capture.packets_dropped_ (Capture.statistics_ c')
         = Capture.fetch_add (Capture.packets_dropped_ (Capture.statistics_ c)) 1)
  /\ ((Capture.max_packets_ c <? Z.of_nat (length (Capture.packets_ c ++ [info]))) = false ->
      Capture.packets_ c' = Capture.packets_ c ++ [info]
      /\ Capture.packets_dropped_ (Capture.statistics_ c')
         = Capture.packets_dropped_ (Capture.statistics_ c)).
Proof.
  unfold Capture.store_packet_info.
  destruct (Capture.max_packets_ c <? _); simpl; repeat split; try discriminate;
    reflexivity.
Qed.

Lemma tl_app_cons {A : Type} (q : list A) (x : A) (rest : list A) :
  tl (q ++ [x]) ++ rest = skipn 1 (q ++ x :: rest).
Proof. destruct q; simpl; [reflexivity|]. now rewrite <- app_assoc. Qed.

(** X19.  The ring keeps the newest records.  When the ring holds no more
    than [max_packets_] records, after any number of packets have been
    recorded it holds the last [max_packets_] of the old records followed
    by the new ones, never more than [max_packets_], and
    [packets_dropped_] has been bumped once for each record pushed out. *)
Theorem ring_keeps_the_newest_records (c : Capture.t) (infos : list PacketInfo)
    (Hfits : Z.of_nat (length (Capture.packets_ c)) <= Capture.max_packets_ c) :
  let c' := fold_left (fun c0 info => Capture.store_packet_info info c0) infos c in
  let all := Capture.packets_ c ++ infos in
  Capture.packets_ c'
  = skipn (length all - Z.to_nat (Capture.max_packets_ c)) all
  /\ Z.of_nat (length (Capture.packets_ c')) <= Capture.max_packets_ c
  /\ Capture.packets_dropped_ (Capture.statistics_ c')
     = Nat.iter (length all - length (Capture.packets_ c'))
         (fun d => Capture.fetch_add d 1)
         (Capture.packets_dropped_ (Capture.statistics_ c)).
Proof.
  revert c Hfits. induction infos as [|info rest IH]; intros c Hfits; cbn zeta.
  - cbn [fold_left]. rewrite app_nil_r.
    replace (length (Capture.packets_ c) - Z.to_nat (Capture.max_packets_ c))%nat
      with 0%nat by lia.
    rewrite Nat.sub_diag. repeat split; [exact Hfits].
  - cbn [fold_left].
    destruct (store_packet_info_spec info c) as [Hmax [Hevict Hkeep]].
    cbn zeta in Hmax, Hevict, Hkeep.
    set (c1 := Capture.store_packet_info info c) in *.
    assert (Hlen : length (Capture.packets_ c ++ [info])
                   = S (length (Capture.packets_ c)))
      by (rewrite length_app; simpl; lia).
    destruct (Capture.max_packets_ c <? Z.of_nat (length (Capture.packets_ c ++ [info])))
      eqn:E.
    + destruct (Hevict eq_refl) as [Hq Hd]. clear Hevict Hkeep.
      apply Z.ltb_lt in E. rewrite Hlen in E.
      assert (Hfull : length (Capture.packets_ c) = Z.to_nat (Capture.max_packets_ c))
        by lia.
      assert (Hq1 : length (Capture.packets_ c1) = length (Capture.packets_ c)).
      { rewrite Hq. destruct (Capture.packets_ c); simpl; [reflexivity|].
        rewrite length_app. simpl. lia. }
      specialize (IH c1). cbn zeta in IH. rewrite Hmax in IH.
      destruct IH as [IH1 [IH2 IH3]]; [lia|].
      assert (Hall : Capture.packets_ c1 ++ rest
                     = skipn 1 (Capture.packets_ c ++ info :: rest))
        by (rewrite Hq; apply tl_app_cons).
      assert (Hlen1 : length (Capture.packets_ c1 ++ rest)
                      = (length (Capture.packets_ c) + length rest)%nat)
        by (rewrite length_app; lia).
      assert (Hlen2 : length (Capture.packets_ c ++ info :: rest)
                      = S (length (Capture.packets_ c) + length rest))
        by (rewrite length_app; simpl; lia).
      split; [|split].
      * rewrite IH1, Hall, skipn_skipn. f_equal.
        rewrite <- Hall, Hlen1, Hlen2. lia.
      * exact IH2.
      * assert (Hbound : (length (Capture.packets_
                            (fold_left (fun c0 i => Capture.store_packet_info i c0)
                               rest c1)) <= Z.to_nat (Capture.max_packets_ c))%nat)
          by lia.
        rewrite IH3, Hd.
        replace (length (Capture.packets_ c ++ info :: rest)
                 - length (Capture.packets_
                             (fold_left (fun c0 i => Capture.store_packet_info i c0)
                                rest c1)))%nat
          with (S (length (Capture.packets_ c1 ++ rest)
                   - length (Capture.packets_
                               (fold_left (fun c0 i => Capture.store_packet_info i c0)
                                  rest c1))))
          by (rewrite Hlen1, Hlen2; lia).
        now rewrite Nat.iter_succ_r.
    + destruct (Hkeep eq_refl) as [Hq Hd]. clear Hevict Hkeep.
      apply Z.ltb_ge in E. rewrite Hlen in E.
      specialize (IH c1). cbn zeta in IH. rewrite Hmax, Hq, Hd in IH.
      rewrite <- app_assoc in IH. cbn [app] in IH.
      apply IH. rewrite Hlen. lia.
Qed.

Lemma ring_keeps_the_newest_records_witness :
  Capture.packets_
    (fold_left (fun c0 info => Capture.store_packet_info info c0)
       [ParsePacket Scenario.length_prefixed 1 [x03; x0a; x0b] (mkAddr false false 1);
        ParsePacket Scenario.length_prefixed 2 [x02; x0c] (mkAddr true false 1);
        ParsePacket Scenario.length_prefixed 3 [x02; x0d] (mkAddr true false 1)]
       (Capture.SetMaxPackets 2 (Capture.init 0)))
  = [ParsePacket Scenario.length_prefixed 2 [x02; x0c] (mkAddr true false 1);
     ParsePacket Scenario.length_prefixed 3 [x02; x0d] (mkAddr true false 1)].
Proof.
  assert (Hfits : Z.of_nat (length (Capture.packets_
                                      (Capture.SetMaxPackets 2 (Capture.init 0))))
                  <= Capture.max_packets_ (Capture.SetMaxPackets 2 (Capture.init 0)))
    by (simpl; lia).
  exact (proj1 (ring_keeps_the_newest_records
                  (Capture.SetMaxPackets 2 (Capture.init 0))
                  [ParsePacket Scenario.length_prefixed 1 [x03; x0a; x0b]
                     (mkAddr false false 1);
                   ParsePacket Scenario.length_prefixed 2 [x02; x0c]
                     (mkAddr true false 1);
                   ParsePacket Scenario.length_prefixed 3 [x02; x0d]
                     (mkAddr true false 1)]
                  Hfits)).
Defined.

(** X20.  Lowering the capacity never shortens the ring.  While the ring
    holds more than [max_packets_] records, each packet recorded pushes
    exactly one record out: the ring keeps its length, above the
    capacity, until [GetPackets] empties it. *)
Theorem lowered_capacity_never_trims_the_ring (c : Capture.t) (infos : list PacketInfo)
    (Hover : Capture.max_packets_ c < Z.of_nat (length (Capture.packets_ c))) :
  let c' := fold_left (fun c0 info => Capture.store_packet_info info c0) infos c in
  Capture.packets_ c' = skipn (length infos) (Capture.packets_ c ++ infos)
  /\ length (Capture.packets_ c') = length (Capture.packets_ c)
  /\ Capture.packets_ (snd (Capture.GetPackets c')) = [].
Proof.
  cbn zeta. split; [|split]; [| |reflexivity].
  - revert c Hover. induction infos as [|info rest IH]; intros c Hover.
    + cbn [fold_left length skipn]. now rewrite app_nil_r.
    + cbn [fold_left].
      destruct (store_packet_info_spec info c) as [Hmax [Hevict _]].
      cbn zeta in Hmax, Hevict.
      assert (E : (Capture.max_packets_ c
                   <? Z.of_nat (length (Capture.packets_ c ++ [info]))) = true)
        by (apply Z.ltb_lt; rewrite length_app; simpl; lia).
      destruct (Hevict E) as [Hq _].
      rewrite IH.
      * rewrite Hq, tl_app_cons, skipn_skipn. f_equal. simpl. lia.
      * rewrite Hmax, Hq. destruct (Capture.packets_ c); simpl in *; [lia|].
        rewrite length_app. simpl. lia.
  - revert c Hover. induction infos as [|info rest IH]; intros c Hover.
    + reflexivity.
    + cbn [fold_left].
      destruct (store_packet_info_spec info c) as [Hmax [Hevict _]].
      cbn zeta in Hmax, Hevict.
      assert (E : (Capture.max_packets_ c
                   <? Z.of_nat (length (Capture.packets_ c ++ [info]))) = true)
        by (apply Z.ltb_lt; rewrite length_app; simpl; lia).
      destruct (Hevict E) as [Hq _].
      assert (Hlen : length (Capture.packets_ (Capture.store_packet_info info c))
                     = length (Capture.packets_ c)).
      { rewrite Hq. destruct (Capture.packets_ c); simpl in *; [lia|].
        rewrite length_app. simpl. lia. }
      rewrite IH; [exact Hlen|]. rewrite Hmax, Hlen. exact Hover.
Qed.

Lemma lowered_capacity_never_trims_the_ring_witness :
  length (Capture.packets_
            (fold_left (fun c0 info => Capture.store_packet_info info c0)
               [ParsePacket Scenario.length_prefixed 3 [x02; x0d] (mkAddr true false 1)]
               (Capture.SetMaxPackets 1
                  (fold_left (fun c0 info => Capture.store_packet_info info c0)
                     [ParsePacket Scenario.length_prefixed 1 [x03; x0a; x0b]
                        (mkAddr false false 1);
                      ParsePacket Scenario.length_prefixed 2 [x02; x0c]
                        (mkAddr true false 1)]
                     (Capture.init 0)))))
  = 2%nat.
Proof.
  assert (Hover : Capture.max_packets_
                    (Capture.SetMaxPackets 1
                       (fold_left (fun c0 info => Capture.store_packet_info info c0)
                          [ParsePacket Scenario.length_prefixed 1 [x03; x0a; x0b]
                             (mkAddr false false 1);
                           ParsePacket Scenario.length_prefixed 2 [x02; x0c]
                             (mkAddr true false 1)]
                          (Capture.init 0)))
                  < Z.of_nat (length (Capture.packets_
                       (Capture.SetMaxPackets 1
                          (fold_left (fun c0 info => Capture.store_packet_info info c0)
                             [ParsePacket Scenario.length_prefixed 1 [x03; x0a; x0b]
                                (mkAddr false false 1);
                              ParsePacket Scenario.length_prefixed 2 [x02; x0c]
                                (mkAddr true false 1)]
                             (Capture.init 0))))))
    by (vm_compute; reflexivity).
  exact (proj1 (proj2 (lowered_capacity_never_trims_the_ring
                         (Capture.SetMaxPackets 1
                            (fold_left (fun c0 info => Capture.store_packet_info info c0)
                               [ParsePacket Scenario.length_prefixed 1 [x03; x0a; x0b]
                                  (mkAddr false false 1);
                                ParsePacket Scenario.length_prefixed 2 [x02; x0c]
                                  (mkAddr true false 1)]
                               (Capture.init 0)))
                         [ParsePacket Scenario.length_prefixed 3 [x02; x0d]
                            (mkAddr true false 1)]
                         Hover))).
Defined.

(** ** A worker's turn: from what was received to what is sent *)

(** X21.  A packet whose headers give no length ends the batch.  When the
    helper finds no IP header, or a length of zero, at the current
    position, the conversion loop moves neither its pointer nor its
    count, so every later packet of the batch meets the same bytes: all
    of them are skipped, neither recorded nor counted nor handed on. *)
Theorem packet_without_length_ends_the_batch
    (parse : WinDivertHelperParsePacket) (clock : nat -> time_point)
    (current_time : time_point) (packet_buffer : list byte) (recv_len : Z)
    (addr_buffer : list WINDIVERT_ADDRESS) (i packet_ptr : nat)
    (bytes_processed : Z) (c : Capture.t)
    (Hno_length :
       Capture.packet_len_of
         (parse (firstn (Z.to_nat ((recv_len - bytes_processed) mod 2 ^ 32))
                   (skipn packet_ptr packet_buffer))) <= 0) :
  Capture.convert parse clock current_time packet_buffer recv_len addr_buffer
    i packet_ptr bytes_processed c
  = ([], c).
Proof.
  revert i. induction addr_buffer as [|a rest IH]; intros i; [reflexivity|].
  cbn [Capture.convert].
  destruct (0 <? Capture.packet_len_of _) eqn:E.
  - apply Z.ltb_lt in E. lia.
  - apply IH.
Qed.

Lemma packet_without_length_ends_the_batch_witness :
  Capture.convert Scenario.length_prefixed (fun _ => 0) 0
    [x00; x00; x02; x0c] 4 Scenario.two_addresses 0 0 0 Scenario.started
  = ([], Scenario.started).
Proof.
  assert (Hno_length :
            Capture.packet_len_of
              (Scenario.length_prefixed
                 (firstn (Z.to_nat ((4 - 0) mod 2 ^ 32))
                    (skipn 0 [x00; x00; x02; x0c]))) <= 0)
    by (vm_compute; discriminate).
  exact (packet_without_length_ends_the_batch Scenario.length_prefixed (fun _ => 0) 0
           [x00; x00; x02; x0c] 4 Scenario.two_addresses 0 0 0 Scenario.started
           Hno_length).
Defined.

Lemma store_packet_info_modules (info : PacketInfo) (c : Capture.t) :
  Capture.modules_ (Capture.store_packet_info info c) = Capture.modules_ c
  /\ Capture.divert_handle_ (Capture.store_packet_info info c) = Capture.divert_handle_ c
  /\ Capture.latency_thread_ (Capture.store_packet_info info c) = Capture.latency_thread_ c
  /\ Capture.jitter_thread_ (Capture.store_packet_info info c) = Capture.jitter_thread_ c
  /\ Capture.bandwidth_thread_ (Capture.store_packet_info info c)
     = Capture.bandwidth_thread_ c
  /\ Capture.capture_threads_ (Capture.store_packet_info info c)
     = Capture.capture_threads_ c.
Proof.
  unfold Capture.store_packet_info.
  destruct (Capture.max_packets_ c <? _); now repeat split.
Qed.

Lemma convert_keeps_control (parse : WinDivertHelperParsePacket)
    (clock : nat -> time_point) (current_time : time_point)
    (packet_buffer : list byte) (recv_len : Z)
    (addr_buffer : list WINDIVERT_ADDRESS) (i packet_ptr : nat)
    (bytes_processed : Z) (c : Capture.t) :
  let c' := snd (Capture.convert parse clock current_time packet_buffer recv_len
                   addr_buffer i packet_ptr bytes_processed c) in
  Capture.modules_ c' = Capture.modules_ c
  /\ Capture.divert_handle_ c' = Capture.divert_handle_ c
  /\ Capture.latency_thread_ c' = Capture.latency_thread_ c
  /\ Capture.jitter_thread_ c' = Capture.jitter_thread_ c
  /\ Capture.bandwidth_thread_ c' = Capture.bandwidth_thread_ c
  /\ Capture.capture_threads_ c' = Capture.capture_threads_ c.
Proof.
  revert i packet_ptr bytes_processed c.
  induction addr_buffer as [|a rest IH]; intros i packet_ptr bytes_processed c;
    [now repeat split|].
  cbn [Capture.convert]. cbn zeta.
  destruct (0 <? Capture.packet_len_of _).
  - match goal with
    | |- context [Capture.convert parse clock current_time packet_buffer recv_len
                    rest ?i' ?p' ?b' ?c'] =>
        specialize (IH i' p' b' c');
        destruct (Capture.convert parse clock current_time packet_buffer recv_len
                    rest i' p' b' c') as [sims c3]
    end.
    cbn [snd] in *.
    match type of IH with
    | context [Capture.store_packet_info ?info c] =>
        destruct (store_packet_info_modules info c) as (E1 & E2 & E3 & E4 & E5 & E6)
    end.
    destruct IH as (I1 & I2 & I3 & I4 & I5 & I6).
    cbn [Capture.count_captured Capture.with_statistics Capture.modules_
         Capture.divert_handle_ Capture.latency_thread_ Capture.jitter_thread_
         Capture.bandwidth_thread_ Capture.capture_threads_] in *.
    repeat split; congruence.
  - apply IH.
Qed.

Lemma apply_simulation_effects_all_disabled (clk : NetworkCapture.instants)
    (m : NetworkCapture.t) (batch : packets) (g : NetworkCapture.generators) :
  PacketLossModule.enabled_ (NetworkCapture.packet_loss_module_ m) = false ->
  DuplicateModule.enabled_ (NetworkCapture.duplicate_module_ m) = false ->
  OutOfOrderModule.enabled_ (NetworkCapture.out_of_order_module_ m) = false ->
  JitterModule.enabled_ (NetworkCapture.jitter_module_ m) = false ->
  BandwidthModule.enabled_ (NetworkCapture.bandwidth_module_ m) = false ->
  LatencyModule.enabled_ (NetworkCapture.latency_module_ m) = false ->
  NetworkCapture.apply_simulation_effects clk m batch g = (batch, m, g).
Proof.
  intros H1 H2 H3 H4 H5 H6. unfold NetworkCapture.apply_simulation_effects.
  unfold PacketLossModule.IsEnabled, DuplicateModule.IsEnabled,
    OutOfOrderModule.IsEnabled, JitterModule.IsEnabled, BandwidthModule.IsEnabled,
    LatencyModule.IsEnabled.
  rewrite H1, H2, H3, H4, H5, H6. destruct m, g. reflexivity.
Qed.

Lemma convert_frames (parse : WinDivertHelperParsePacket)
    (clock : nat -> time_point) (current_time : time_point)
    (pks : list (list byte)) (slack : list byte) :
  CaptureCalls.frames parse pks ->
  Forall (fun p => p <> []) pks ->
  Z.of_nat (length (concat pks)) < 2 ^ 32 ->
  forall (todo done : list (list byte)) (addrs : list WINDIVERT_ADDRESS)
         (i : nat) (c : Capture.t),
    pks = done ++ todo ->
    length addrs = length todo ->
    fst (Capture.convert parse clock current_time (concat pks ++ slack)
           (Z.of_nat (length (concat pks))) addrs i
           (length (concat done)) (Z.of_nat (length (concat done))) c)
    = map (fun pa => mkPacket (fst pa) (snd pa) current_time 0) (combine todo addrs).
Proof.
  intros Hframes Hnonempty Hsize.
  induction todo as [|p todo IH]; intros done addrs i c Hsplit Hlen.
  - destruct addrs; [reflexivity|discriminate].
  - destruct addrs as [|a addrs]; [discriminate|].
    assert (Hcat : concat pks = concat done ++ p ++ concat todo)
      by (rewrite Hsplit, concat_app; reflexivity).
    assert (Hp : p <> []).
    { rewrite Forall_forall in Hnonempty. apply Hnonempty.
      rewrite Hsplit. apply in_or_app. right. now left. }
    assert (Hplen : (0 < length p)%nat) by (destruct p; [congruence|simpl; lia]).
    pose proof (f_equal (@length byte) Hcat) as Hcatlen.
    rewrite !length_app in Hcatlen.
    cbn [Capture.convert]. cbn zeta.
    assert (Hgiven : Z.to_nat ((Z.of_nat (length (concat pks))
                                - Z.of_nat (length (concat done))) mod 2 ^ 32)
                     = length (p ++ concat todo)).
    { rewrite Z.mod_small by lia. rewrite length_app. lia. }
    rewrite Hgiven.
    assert (Hview : firstn (length (p ++ concat todo))
                      (skipn (length (concat done)) (concat pks ++ slack))
                    = concat (p :: todo)).
    { rewrite Hcat, <- !app_assoc.
      rewrite skipn_app, skipn_all, Nat.sub_diag. cbn [app skipn].
      rewrite app_assoc. rewrite firstn_app, firstn_all, Nat.sub_diag.
      cbn [firstn concat]. now rewrite app_nil_r. }
    rewrite Hview.
    rewrite (Hframes done p todo Hsplit).
    assert (Hpos : (0 <? Z.of_nat (length p)) = true) by (apply Z.ltb_lt; lia).
    rewrite Hpos. rewrite Nat2Z.id.
    assert (Hbytes : firstn (length p)
                       (skipn (length (concat done)) (concat pks ++ slack)) = p).
    { rewrite Hcat, <- !app_assoc.
      rewrite skipn_app, skipn_all, Nat.sub_diag. cbn [app skipn].
      rewrite firstn_app, firstn_all, Nat.sub_diag. cbn [firstn].
      now rewrite app_nil_r. }
    rewrite Hbytes.
    assert (Hnext : (length (concat done) + length p)%nat
                    = length (concat (done ++ [p]))).
    { rewrite concat_app, length_app. simpl. rewrite app_nil_r. reflexivity. }
    assert (Hnextz : (Z.of_nat (length (concat done)) + Z.of_nat (length p)) mod 2 ^ 32
                     = Z.of_nat (length (concat (done ++ [p])))).
    { rewrite Z.mod_small by lia. rewrite <- Hnext. lia. }
    rewrite Hnext, Hnextz.
    match goal with
    | |- context [Capture.convert parse clock current_time _ _ addrs ?i' _ _ ?c'] =>
        specialize (IH (done ++ [p]) addrs i' c')
    end.
    destruct (Capture.convert _ _ _ _ _ addrs _ _ _ _) as [sims c3].
    cbn [fst combine map] in *. rewrite IH; [reflexivity| |].
    + rewrite Hsplit, <- app_assoc. reflexivity.
    + simpl in Hlen. lia.
Qed.

Lemma rebuild_combine (current_time : time_point) (pks : list (list byte))
    (addrs : list WINDIVERT_ADDRESS) :
  length addrs = length pks ->
  Capture.rebuild
    (map (fun pa => mkPacket (fst pa) (snd pa) current_time 0) (combine pks addrs))
  = Capture.mkSent (concat pks) addrs.
Proof.
  unfold Capture.rebuild. revert addrs.
  induction pks as [|p pks IH]; intros [|a addrs] Hlen; try discriminate;
    [reflexivity|].
  simpl in Hlen. injection Hlen as Hlen. specialize (IH addrs Hlen).
  injection IH as IH1 IH2. cbn [combine map flat_map concat data addr fst snd].
  now rewrite IH1, IH2.
Qed.

(** X22.  With every stage switched off a worker hands on exactly what it
    received.  When the batch holds the packets [pks] end to end, none
    empty, one address each, and the helper reads each packet's length
    off its header, the turn calls [WinDivertSendEx] with the bytes of
    [pks] and the addresses as they came, and leaves the modules and the
    generators as they were. *)
Theorem disabled_pipeline_sends_what_it_received
    (parse : WinDivertHelperParsePacket) (clock : nat -> time_point)
    (current_time : time_point) (clk : NetworkCapture.instants) (send_ok : bool)
    (pks : list (list byte)) (slack : list byte)
    (addrs : list WINDIVERT_ADDRESS) (c : Capture.t)
    (g : NetworkCapture.generators)
    (Hframes : CaptureCalls.frames parse pks)
    (Hnonempty : Forall (fun p => p <> []) pks)
    (Hsome : pks <> [])
    (Haddrs : length addrs = length pks)
    (Hsize : Z.of_nat (length (concat pks)) < 2 ^ 32)
    (Hloss : PacketLossModule.enabled_
               (NetworkCapture.packet_loss_module_ (Capture.modules_ c)) = false)
    (Hduplicate : DuplicateModule.enabled_
                    (NetworkCapture.duplicate_module_ (Capture.modules_ c)) = false)
    (Hreorder : OutOfOrderModule.enabled_
                  (NetworkCapture.out_of_order_module_ (Capture.modules_ c)) = false)
    (Hjitter : JitterModule.enabled_
                 (NetworkCapture.jitter_module_ (Capture.modules_ c)) = false)
    (Hbandwidth : BandwidthModule.enabled_
                    (NetworkCapture.bandwidth_module_ (Capture.modules_ c)) = false)
    (Hlatency : LatencyModule.enabled_
                  (NetworkCapture.latency_module_ (Capture.modules_ c)) = false) :
  let turn :=
    Capture.CaptureThreadBatch parse clock current_time clk send_ok
      (Capture.mkReceived (concat pks ++ slack) (Z.of_nat (length (concat pks))) addrs)
      c g in
  fst (fst turn) = Some (Capture.mkSent (concat pks) addrs)
  /\ Capture.modules_ (snd (fst turn)) = Capture.modules_ c
  /\ snd turn = g.
Proof.
  cbn zeta. unfold Capture.CaptureThreadBatch.
  cbn [Capture.addr_buffer Capture.packet_buffer Capture.recv_len].
  destruct addrs as [|a0 addrs0] eqn:Eaddrs.
  { destruct pks; [congruence|discriminate]. }
  rewrite <- Eaddrs in *. clear Eaddrs.
  pose proof (convert_frames parse clock current_time pks slack Hframes Hnonempty
                Hsize pks [] addrs 0%nat
                (Capture.count_batch (Z.of_nat (length addrs)) c) eq_refl Haddrs)
    as Hsims.
  pose proof (convert_keeps_control parse clock current_time (concat pks ++ slack)
                (Z.of_nat (length (concat pks))) addrs 0 0 0
                (Capture.count_batch (Z.of_nat (length addrs)) c)) as Hkeep.
  cbn [concat length Z.of_nat] in Hsims. cbn zeta in Hkeep.
  destruct (Capture.convert _ _ _ _ _ addrs _ _ _ _) as [sims c2].
  cbn [fst snd] in *. destruct Hkeep as [Hmod _].
  cbn [Capture.count_batch Capture.with_statistics Capture.modules_] in Hmod.
  rewrite apply_simulation_effects_all_disabled by (rewrite Hmod; assumption).
  subst sims.
  destruct pks as [|p pks']; [congruence|].
  destruct addrs as [|a addrs']; [discriminate|].
  cbn [combine map]. cbn [fst snd].
  split; [|split; [|reflexivity]].
  - f_equal.
    apply (rebuild_combine current_time (p :: pks') (a :: addrs') Haddrs).
  - destruct send_ok; cbn; exact Hmod.
Qed.

Lemma disabled_pipeline_sends_what_it_received_witness :
  fst (fst (Capture.CaptureThreadBatch Scenario.length_prefixed (fun _ => 0) 0
              (Sample.at_instant 0) true
              (Capture.mkReceived (concat Scenario.two_packets ++ repeat x00 8)
                 (Z.of_nat (length (concat Scenario.two_packets)))
                 Scenario.two_addresses)
              Scenario.started Sample.generators))
  = Some (Capture.mkSent [x03; x0a; x0b; x02; x0c] Scenario.two_addresses).
Proof.
  assert (Hframes : CaptureCalls.frames Scenario.length_prefixed Scenario.two_packets).
  { intros done p todo Hsplit. unfold Scenario.two_packets in Hsplit.
    destruct done as [|d1 [|d2 [|d3 done]]]; simpl in Hsplit.
    - injection Hsplit as <- <-. vm_compute. reflexivity.
    - injection Hsplit as _ <- <-. vm_compute. reflexivity.
    - injection Hsplit as _ _ Hnil. discriminate Hnil.
    - injection Hsplit as _ _ Hnil. discriminate Hnil. }
  assert (Hnonempty : Forall (fun p : list byte => p <> []) Scenario.two_packets)
    by (repeat constructor; discriminate).
  assert (Hsome : Scenario.two_packets <> []) by discriminate.
  assert (Hsize : Z.of_nat (length (concat Scenario.two_packets)) < 2 ^ 32)
    by (vm_compute; reflexivity).
  exact (proj1 (disabled_pipeline_sends_what_it_received Scenario.length_prefixed
                  (fun _ => 0) 0 (Sample.at_instant 0) true Scenario.two_packets
                  (repeat x00 8) Scenario.two_addresses Scenario.started
                  Sample.generators Hframes Hnonempty Hsome eq_refl Hsize
                  eq_refl eq_refl eq_refl eq_refl eq_refl eq_refl)).
Defined.

(** ** Threads, handle and flags across the calls *)

Lemma latency_calls_keep_enabled (now : time_point) (m : LatencyModule.t)
    (batch : packets) :
  LatencyModule.enabled_ (snd (LatencyModule.ProcessBatch now m batch))
  = LatencyModule.enabled_ m
  /\ LatencyModule.enabled_ (snd (LatencyModule.GetReleasablePackets now m))
     = LatencyModule.enabled_ m.
Proof.
  unfold LatencyModule.ProcessBatch, LatencyModule.GetReleasablePackets. split.
  - destruct (LatencyModule.enabled_ m) eqn:E; simpl; [|exact E].
    destruct (LatencyModule.delay_loop _ _ _ _). exact E.
  - destruct (LatencyModule.enabled_ m) eqn:E; simpl; [|exact E].
    destruct (PacketQueue.release_due _ _). exact E.
Qed.

Lemma jitter_calls_keep_enabled (now : time_point) (m : JitterModule.t)
    (batch : packets) (g : JitterModule.rng) :
  JitterModule.enabled_ (snd (fst (JitterModule.ProcessBatch now m batch g)))
  = JitterModule.enabled_ m
  /\ JitterModule.enabled_ (snd (JitterModule.GetReleasablePackets now m))
     = JitterModule.enabled_ m.
Proof.
  unfold JitterModule.ProcessBatch, JitterModule.GetReleasablePackets. split.
  - destruct (JitterModule.enabled_ m) eqn:E; simpl; [|exact E].
    destruct (JitterModule.delay_loop _ _ _ _ _) as [[imm q] g']. exact E.
  - destruct (JitterModule.enabled_ m) eqn:E; simpl; [|exact E].
    destruct (PacketQueue.release_due _ _). exact E.
Qed.

Lemma bandwidth_calls_keep_enabled (now : time_point) (m : BandwidthModule.t)
    (batch : packets) :
  BandwidthModule.enabled_ (snd (BandwidthModule.ProcessBatch now m batch))
  = BandwidthModule.enabled_ m
  /\ BandwidthModule.enabled_ (snd (BandwidthModule.GetReleasablePackets now m))
     = BandwidthModule.enabled_ m.
Proof.
  unfold BandwidthModule.ProcessBatch, BandwidthModule.GetReleasablePackets. split.
  - destruct (BandwidthModule.enabled_ m) eqn:E; simpl; [|exact E].
    destruct (BandwidthModule.add_to_queue _ _ _) as [passed q].
    destruct (BandwidthModule.process_queue _ _) as [[released a] remaining]. exact E.
  - destruct (BandwidthModule.enabled_ m) eqn:E; simpl; [|exact E].
    destruct (BandwidthModule.process_queue _ _) as [[released a] remaining]. exact E.
Qed.

Lemma apply_simulation_effects_keeps_control (clk : NetworkCapture.instants)
    (m : NetworkCapture.t) (batch : packets) (g : NetworkCapture.generators) :
  let m' := snd (fst (NetworkCapture.apply_simulation_effects clk m batch g)) in
  NetworkCapture.is_capturing_ m' = NetworkCapture.is_capturing_ m
  /\ NetworkCapture.should_stop_ m' = NetworkCapture.should_stop_ m
  /\ LatencyModule.enabled_ (NetworkCapture.latency_module_ m')
     = LatencyModule.enabled_ (NetworkCapture.latency_module_ m)
  /\ JitterModule.enabled_ (NetworkCapture.jitter_module_ m')
     = JitterModule.enabled_ (NetworkCapture.jitter_module_ m)
  /\ BandwidthModule.enabled_ (NetworkCapture.bandwidth_module_ m')
     = BandwidthModule.enabled_ (NetworkCapture.bandwidth_module_ m).
Proof.
  unfold NetworkCapture.apply_simulation_effects.
  destruct (if PacketLossModule.IsEnabled _ then _ else _) as [sim1 r1].
  destruct (if DuplicateModule.IsEnabled _ then _ else _) as [sim2 r2].
  destruct (if OutOfOrderModule.IsEnabled _ then _ else _) as [[sim3 ooo] r3].
  assert (Hj : forall x,
            JitterModule.enabled_
              (snd (fst (if JitterModule.IsEnabled (NetworkCapture.jitter_module_ m)
                         then JitterModule.ProcessBatch (NetworkCapture.at_jitter clk)
                                (NetworkCapture.jitter_module_ m) x
                                (NetworkCapture.jitter_rng g)
                         else (x, NetworkCapture.jitter_module_ m,
                               NetworkCapture.jitter_rng g))))
            = JitterModule.enabled_ (NetworkCapture.jitter_module_ m)).
  { intros x. destruct (JitterModule.IsEnabled _); [|reflexivity].
    apply jitter_calls_keep_enabled. }
  specialize (Hj sim3).
  destruct (if JitterModule.IsEnabled _ then _ else _) as [[sim4 jit] j4].
  assert (Hb : forall x,
            BandwidthModule.enabled_
              (snd (if BandwidthModule.IsEnabled (NetworkCapture.bandwidth_module_ m)
                    then BandwidthModule.ProcessBatch (NetworkCapture.at_bandwidth clk)
                           (NetworkCapture.bandwidth_module_ m) x
                    else (x, NetworkCapture.bandwidth_module_ m)))
            = BandwidthModule.enabled_ (NetworkCapture.bandwidth_module_ m)).
  { intros x. destruct (BandwidthModule.IsEnabled _); [|reflexivity].
    apply bandwidth_calls_keep_enabled. }
  specialize (Hb sim4).
  destruct (if BandwidthModule.IsEnabled _ then _ else _) as [sim5 bw].
  assert (Hl : forall x,
            LatencyModule.enabled_
              (snd (if LatencyModule.IsEnabled (NetworkCapture.latency_module_ m)
                    then LatencyModule.ProcessBatch (NetworkCapture.at_latency clk)
                           (NetworkCapture.latency_module_ m) x
                    else (x, NetworkCapture.latency_module_ m)))
            = LatencyModule.enabled_ (NetworkCapture.latency_module_ m)).
  { intros x. destruct (LatencyModule.IsEnabled _); [|reflexivity].
    apply latency_calls_keep_enabled. }
  specialize (Hl sim5).
  destruct (if LatencyModule.IsEnabled _ then _ else _) as [sim6 lat].
  simpl in *. now repeat split.
Qed.

Lemma same_control_same_verdict (c c' : Capture.t) :
  Capture.IsCapturing c' = Capture.IsCapturing c ->
  NetworkCapture.should_stop_ (Capture.modules_ c')
  = NetworkCapture.should_stop_ (Capture.modules_ c) ->
  LatencyModule.enabled_ (NetworkCapture.latency_module_ (Capture.modules_ c'))
  = LatencyModule.enabled_ (NetworkCapture.latency_module_ (Capture.modules_ c)) ->
  JitterModule.enabled_ (NetworkCapture.jitter_module_ (Capture.modules_ c'))
  = JitterModule.enabled_ (NetworkCapture.jitter_module_ (Capture.modules_ c)) ->
  BandwidthModule.enabled_ (NetworkCapture.bandwidth_module_ (Capture.modules_ c'))
  = BandwidthModule.enabled_ (NetworkCapture.bandwidth_module_ (Capture.modules_ c)) ->
  Capture.divert_handle_ c' = Capture.divert_handle_ c ->
  Capture.latency_thread_ c' = Capture.latency_thread_ c ->
  Capture.jitter_thread_ c' = Capture.jitter_thread_ c ->
  Capture.bandwidth_thread_ c' = Capture.bandwidth_thread_ c ->
  Capture.capture_threads_ c' = Capture.capture_threads_ c ->
  CaptureCalls.threads_follow_modules c ->
  CaptureCalls.threads_follow_modules c'.
Proof.
  unfold CaptureCalls.threads_follow_modules. cbn zeta.
  intros -> -> -> -> -> -> -> -> -> ->. exact (fun H => H).
Qed.

Lemma send_released_keeps_control (releasable : packets) (c : Capture.t) :
  let c' := snd (Capture.send_released releasable c) in
  Capture.modules_ c' = Capture.modules_ c
  /\ Capture.divert_handle_ c' = Capture.divert_handle_ c
  /\ Capture.latency_thread_ c' = Capture.latency_thread_ c
  /\ Capture.jitter_thread_ c' = Capture.jitter_thread_ c
  /\ Capture.bandwidth_thread_ c' = Capture.bandwidth_thread_ c
  /\ Capture.capture_threads_ c' = Capture.capture_threads_ c.
Proof.
  unfold Capture.send_released.
  destruct releasable; [now repeat split|].
  destruct (Capture.divert_handle_ c) eqn:E; repeat split; cbn; congruence.
Qed.

Lemma Stop_clears_is_capturing (clk : NetworkCapture.instants) (m : NetworkCapture.t) :
  NetworkCapture.is_capturing_ m = true ->
  NetworkCapture.is_capturing_ (NetworkCapture.Stop clk m) = false.
Proof.
  intros H. unfold NetworkCapture.Stop. rewrite H. simpl.
  destruct (LatencyModule.GetReleasablePackets _ _).
  destruct (JitterModule.GetReleasablePackets _ _).
  destruct (BandwidthModule.GetReleasablePackets _ _).
  destruct (OutOfOrderModule.GetReleasablePackets _). reflexivity.
Qed.

Lemma apply_keeps_threads_following (c : Capture.t) (op : CaptureCalls.operation) :
  CaptureCalls.threads_follow_modules c ->
  CaptureCalls.threads_follow_modules (CaptureCalls.apply c op).
Proof.
  intros Hc.
  destruct op; cbn [CaptureCalls.apply];
    try (apply (same_control_same_verdict c); try reflexivity; exact Hc).
  - (* Start *)
    unfold Capture.Start. destruct (Capture.IsCapturing c) eqn:Ecap; [exact Hc|].
    unfold CaptureCalls.threads_follow_modules in Hc. cbn zeta in Hc.
    rewrite Ecap in Hc. destruct Hc as (Hh & Hn & Hl & Hj & Hb).
    assert (Hfail : CaptureCalls.threads_follow_modules
                      (Capture.with_handle
                         (Capture.mk (Capture.modules_ c) (Capture.capture_threads_ c)
                            (Capture.latency_thread_ c) (Capture.jitter_thread_ c)
                            (Capture.bandwidth_thread_ c) (Capture.divert_handle_ c)
                            params (Capture.packets_ c)
                            (Capture.ring_packet_buffer params)
                            (Capture.statistics_ c) (Capture.last_error_ c))
                         None)).
    { unfold CaptureCalls.threads_follow_modules. cbn zeta.
      unfold Capture.IsCapturing in *. cbn. rewrite Ecap. now repeat split. }
    destruct (Capture.WinDivertOpen env) as [h|error]; [|exact Hfail].
    destruct (Capture.set_QUEUE_LENGTH env); [|exact Hfail].
    destruct (Capture.set_QUEUE_TIME env); [|exact Hfail].
    destruct (Capture.set_QUEUE_SIZE env); [|exact Hfail].
    cbn. unfold CaptureCalls.threads_follow_modules, Capture.IsCapturing. cbn.
    unfold LatencyModule.IsEnabled, JitterModule.IsEnabled, BandwidthModule.IsEnabled.
    repeat split; try discriminate.
    + intros ->. reflexivity.
    + intros ->. reflexivity.
    + intros ->. reflexivity.
  - (* Stop *)
    unfold Capture.Stop. destruct (Capture.IsCapturing c) eqn:Ecap; [|exact Hc].
    cbn. unfold CaptureCalls.threads_follow_modules, Capture.IsCapturing. cbn.
    rewrite (Stop_clears_is_capturing clk _ Ecap). now repeat split.
  - (* SetLatencyEnabled *)
    unfold CaptureCalls.threads_follow_modules in *. cbn zeta in *.
    unfold Capture.SetLatencyEnabled, Capture.IsCapturing in *.
    destruct (NetworkCapture.is_capturing_ (Capture.modules_ c)) eqn:Ecap;
      destruct enabled; destruct (Capture.latency_thread_ c) eqn:Et;
      cbn; rewrite ?Ecap; cbn; rewrite ?Et; cbn; rewrite ?Ecap; cbn;
      intuition congruence.
  - (* SetJitterEnabled *)
    unfold CaptureCalls.threads_follow_modules in *. cbn zeta in *.
    unfold Capture.SetJitterEnabled, Capture.IsCapturing in *.
    destruct (NetworkCapture.is_capturing_ (Capture.modules_ c)) eqn:Ecap;
      destruct enabled; destruct (Capture.jitter_thread_ c) eqn:Et;
      cbn; rewrite ?Ecap; cbn; rewrite ?Et; cbn; rewrite ?Ecap; cbn;
      intuition congruence.
  - (* SetBandwidthEnabled *)
    unfold CaptureCalls.threads_follow_modules in *. cbn zeta in *.
    unfold Capture.SetBandwidthEnabled, Capture.IsCapturing in *.
    destruct (NetworkCapture.is_capturing_ (Capture.modules_ c)) eqn:Ecap;
      destruct enabled; destruct (Capture.bandwidth_thread_ c) eqn:Et;
      cbn; rewrite ?Ecap; cbn; rewrite ?Et; cbn; rewrite ?Ecap; cbn;
      intuition congruence.
  - (* a worker's turn *)
    unfold Capture.CaptureThreadBatch.
    destruct (Capture.addr_buffer r) as [|a0 rest0] eqn:Eaddr; [exact Hc|].
    rewrite <- Eaddr. clear Eaddr a0 rest0.
    pose proof (convert_keeps_control parse clock current_time (Capture.packet_buffer r)
                  (Capture.recv_len r) (Capture.addr_buffer r) 0 0 0
                  (Capture.count_batch (Z.of_nat (length (Capture.addr_buffer r))) c))
      as Hk.
    cbn zeta in Hk.
    destruct (Capture.convert _ _ _ _ _ _ _ _ _ _) as [sims c2]. cbn [snd] in Hk.
    destruct Hk as (K1 & K2 & K3 & K4 & K5 & K6).
    cbn [Capture.count_batch Capture.with_statistics Capture.modules_
         Capture.divert_handle_ Capture.latency_thread_ Capture.jitter_thread_
         Capture.bandwidth_thread_ Capture.capture_threads_] in K1, K2, K3, K4, K5, K6.
    pose proof (apply_simulation_effects_keeps_control clk (Capture.modules_ c2) sims g)
      as Hm.
    cbn zeta in Hm.
    destruct (NetworkCapture.apply_simulation_effects _ _ _ _) as [[out m'] g'].
    cbn [fst snd] in Hm. destruct Hm as (M1 & M2 & M3 & M4 & M5).
    rewrite K1 in M1, M2, M3, M4, M5.
    apply (same_control_same_verdict c); [| | | | | | | | | |exact Hc];
      unfold Capture.IsCapturing;
      destruct out; [|destruct send_ok| |destruct send_ok| |destruct send_ok|
                     |destruct send_ok| |destruct send_ok| |destruct send_ok|
                     |destruct send_ok| |destruct send_ok| |destruct send_ok|
                     |destruct send_ok];
      cbn; assumption.
  - (* a worker's failed receive *)
    unfold Capture.CaptureThreadBatch_failed.
    destruct (_ || _); [exact Hc|].
    apply (same_control_same_verdict c); try reflexivity. exact Hc.
  - (* latency release *)
    unfold Capture.LatencyReleaseThread.
    destruct (latency_calls_keep_enabled now
                (NetworkCapture.latency_module_ (Capture.modules_ c)) []) as [_ He].
    destruct (LatencyModule.GetReleasablePackets _ _) as [releasable m]. cbn [snd] in He.
    match goal with
    | |- context [Capture.send_released ?x ?y] =>
        destruct (send_released_keeps_control x y) as (S1 & S2 & S3 & S4 & S5 & S6)
    end.
    cbn zeta in *.
    apply (same_control_same_verdict c); [| | | | | | | | | |exact Hc];
      unfold Capture.IsCapturing; rewrite ?S1, ?S2, ?S3, ?S4, ?S5, ?S6; cbn;
      try reflexivity; exact He.
  - (* jitter release *)
    unfold Capture.JitterReleaseThread.
    destruct (jitter_calls_keep_enabled now
                (NetworkCapture.jitter_module_ (Capture.modules_ c)) []
                Sample.jitter_rng) as [_ He].
    destruct (JitterModule.GetReleasablePackets _ _) as [releasable m]. cbn [snd] in He.
    match goal with
    | |- context [Capture.send_released ?x ?y] =>
        destruct (send_released_keeps_control x y) as (S1 & S2 & S3 & S4 & S5 & S6)
    end.
    cbn zeta in *.
    apply (same_control_same_verdict c); [| | | | | | | | | |exact Hc];
      unfold Capture.IsCapturing; rewrite ?S1, ?S2, ?S3, ?S4, ?S5, ?S6; cbn;
      try reflexivity; exact He.
  - (* bandwidth release *)
    unfold Capture.BandwidthReleaseThread.
    destruct (bandwidth_calls_keep_enabled now
                (NetworkCapture.bandwidth_module_ (Capture.modules_ c)) []) as [_ He].
    destruct (BandwidthModule.GetReleasablePackets _ _) as [releasable m].
    cbn [snd] in He.
    match goal with
    | |- context [Capture.send_released ?x ?y] =>
        destruct (send_released_keeps_control x y) as (S1 & S2 & S3 & S4 & S5 & S6)
    end.
    cbn zeta in *.
    apply (same_control_same_verdict c); [| | | | | | | | | |exact Hc];
      unfold Capture.IsCapturing; rewrite ?S1, ?S2, ?S3, ?S4, ?S5, ?S6; cbn;
      try reflexivity; exact He.
Qed.

(** X23.  Whatever calls are made on a capture object and whatever turns
    its threads take, from construction on: while a capture runs the
    handle is open, the stop flag is down and every enabled delaying
    module (latency, jitter, bandwidth) has its release thread; while no
    capture runs there is no handle, no worker and no release thread. *)
Theorem release_threads_follow_enabled_modules
    (constructed : time_point) (ops : list CaptureCalls.operation) :
  CaptureCalls.threads_follow_modules
    (fold_left CaptureCalls.apply ops (Capture.init constructed)).
Proof.
  assert (H : forall c, CaptureCalls.threads_follow_modules c ->
              CaptureCalls.threads_follow_modules (fold_left CaptureCalls.apply ops c)).
  { induction ops as [|op ops IH]; intros c Hc; [exact Hc|].
    cbn [fold_left]. apply IH. now apply apply_keeps_threads_following. }
  apply H. unfold CaptureCalls.threads_follow_modules. cbn. now repeat split.
Qed.

(** ** Switching a module off, and stopping, while packets are queued *)

(** X24.  Switching a delaying module off while a capture runs sends its
    whole queue at the next turn of its release thread, whatever the
    release times: with the handle open, the turn after
    [SetLatencyEnabled(false)], [SetJitterEnabled(false)] or
    [SetBandwidthEnabled(false)] hands every queued packet to
    [WinDivertSendEx], in queue order, and leaves the queue empty. *)
Theorem switching_off_sends_the_queue
    (c : Capture.t) (now : time_point) (h : Capture.HANDLE)
    (Hhandle : Capture.divert_handle_ c = Some h) :
  let sends (q : packets) :=
    match q with [] => None | _ => Some (Capture.rebuild q) end in
  (fst (Capture.LatencyReleaseThread now (Capture.SetLatencyEnabled false c))
   = sends (LatencyModule.delayed_packets_
              (NetworkCapture.latency_module_ (Capture.modules_ c)))
   /\ LatencyModule.delayed_packets_
        (NetworkCapture.latency_module_
           (Capture.modules_
              (snd (Capture.LatencyReleaseThread now
                      (Capture.SetLatencyEnabled false c))))) = [])
  /\ (fst (Capture.JitterReleaseThread now (Capture.SetJitterEnabled false c))
      = sends (JitterModule.delayed_packets_
                 (NetworkCapture.jitter_module_ (Capture.modules_ c)))
      /\ JitterModule.delayed_packets_
           (NetworkCapture.jitter_module_
              (Capture.modules_
                 (snd (Capture.JitterReleaseThread now
                         (Capture.SetJitterEnabled false c))))) = [])
  /\ (fst (Capture.BandwidthReleaseThread now
             (Capture.SetBandwidthEnabled now false c))
      = sends (BandwidthModule.packet_queue_
                 (NetworkCapture.bandwidth_module_ (Capture.modules_ c)))
      /\ BandwidthModule.packet_queue_
           (NetworkCapture.bandwidth_module_
              (Capture.modules_
                 (snd (Capture.BandwidthReleaseThread now
                         (Capture.SetBandwidthEnabled now false c))))) = []).
Proof.
  cbn zeta. split; [|split].
  - unfold Capture.LatencyReleaseThread, Capture.SetLatencyEnabled. cbn.
    unfold Capture.send_released. cbn. rewrite Hhandle.
    destruct (LatencyModule.delayed_packets_ _); split; reflexivity.
  - unfold Capture.JitterReleaseThread, Capture.SetJitterEnabled. cbn.
    unfold Capture.send_released. cbn. rewrite Hhandle.
    destruct (JitterModule.delayed_packets_ _); split; reflexivity.
  - unfold Capture.BandwidthReleaseThread, Capture.SetBandwidthEnabled. cbn.
    unfold Capture.send_released. cbn. rewrite Hhandle.
    destruct (BandwidthModule.packet_queue_ _); split; reflexivity.
Qed.

Lemma switching_off_sends_the_queue_witness :
  fst (Capture.LatencyReleaseThread 10000000
         (Capture.SetLatencyEnabled false Scenario.holding_one_packet))
  = Some (Capture.mkSent [x03; x0a; x0b] [mkAddr false false 1]).
Proof.
  exact (proj1 (proj1 (switching_off_sends_the_queue Scenario.holding_one_packet
                         10000000 1 eq_refl))).
Defined.

Lemma release_due_all (now : time_point) (q : PacketQueue.t) :
  Forall (fun x => release_time x <= now) q ->
  PacketQueue.release_due now q = (q, []).
Proof.
  induction 1 as [|x q Hx _ IH]; [reflexivity|].
  cbn [PacketQueue.release_due]. apply Z.leb_le in Hx. now rewrite Hx, IH.
Qed.

Lemma Start_succeeds (env : Capture.driver) (params : Capture.CaptureParameters)
    (c : Capture.t) (h : Capture.HANDLE) :
  Capture.IsCapturing c = false ->
  Capture.WinDivertOpen env = inl h ->
  Capture.set_QUEUE_LENGTH env = true ->
  Capture.set_QUEUE_TIME env = true ->
  Capture.set_QUEUE_SIZE env = true ->
  let c' := snd (Capture.Start env params c) in
  fst (Capture.Start env params c) = inl tt
  /\ Capture.IsCapturing c' = true
  /\ Capture.divert_handle_ c' = Some h
  /\ NetworkCapture.latency_module_ (Capture.modules_ c')
     = NetworkCapture.latency_module_ (Capture.modules_ c)
  /\ NetworkCapture.bandwidth_module_ (Capture.modules_ c')
     = NetworkCapture.bandwidth_module_ (Capture.modules_ c)
  /\ Capture.statistics_ c' = Capture.mkStatistics 0 0 0 0 0 0.
Proof.
  intros Hcap Hopen H1 H2 H3. unfold Capture.Start.
  rewrite Hcap, Hopen, H1, H2, H3. cbn. now repeat split.
Qed.

(** X25.  Packets that [Stop] leaves in the latency queue are sent by the
    next capture.  When a capture with latency enabled is stopped while
    packets wait that are not yet due, and a capture is started again,
    the latency release thread of the new capture hands those packets to
    [WinDivertSendEx] on the new handle once they are due. *)
Theorem packets_left_by_Stop_are_sent_by_the_next_capture
    (c : Capture.t) (clk : NetworkCapture.instants) (env : Capture.driver)
    (params : Capture.CaptureParameters) (h : Capture.HANDLE) (now : time_point)
    (x : SimulatedPacket) (rest : packets)
    (Hcapturing : Capture.IsCapturing c = true)
    (Henabled : LatencyModule.enabled_
                  (NetworkCapture.latency_module_ (Capture.modules_ c)) = true)
    (Hqueue : LatencyModule.delayed_packets_
                (NetworkCapture.latency_module_ (Capture.modules_ c)) = x :: rest)
    (Hwaiting : NetworkCapture.at_latency clk < release_time x)
    (Hopen : Capture.WinDivertOpen env = inl h)
    (Hlength : Capture.set_QUEUE_LENGTH env = true)
    (Htime : Capture.set_QUEUE_TIME env = true)
    (Hsize : Capture.set_QUEUE_SIZE env = true)
    (Hdue : Forall (fun y => release_time y <= now) (x :: rest)) :
  let stopped := Capture.Stop clk c in
  let restarted := snd (Capture.Start env params stopped) in
  LatencyModule.delayed_packets_
    (NetworkCapture.latency_module_ (Capture.modules_ stopped)) = x :: rest
  /\ fst (Capture.Start env params stopped) = inl tt
  /\ Capture.packets_injected_ (Capture.statistics_ restarted) = 0
  /\ fst (Capture.LatencyReleaseThread now restarted)
     = Some (Capture.rebuild (x :: rest))
  /\ Capture.packets_injected_
       (Capture.statistics_ (snd (Capture.LatencyReleaseThread now restarted)))
     = Z.of_nat (length (x :: rest)) mod 2 ^ 64.
Proof.
  cbn zeta.
  assert (Hstop_latency :
            NetworkCapture.latency_module_ (Capture.modules_ (Capture.Stop clk c))
            = NetworkCapture.latency_module_ (Capture.modules_ c)).
  { unfold Capture.Stop. rewrite Hcapturing. cbn.
    unfold NetworkCapture.Stop. unfold Capture.IsCapturing in Hcapturing.
    rewrite Hcapturing. cbn.
    unfold LatencyModule.GetReleasablePackets. rewrite Henabled, Hqueue. cbn.
    assert (E : (release_time x <=? NetworkCapture.at_latency clk) = false)
      by (apply Z.leb_gt; exact Hwaiting).
    rewrite E.
    destruct (JitterModule.GetReleasablePackets _ _).
    destruct (BandwidthModule.GetReleasablePackets _ _).
    destruct (OutOfOrderModule.GetReleasablePackets _). cbn.
    destruct (NetworkCapture.latency_module_ (Capture.modules_ c)).
    cbn in *. now subst. }
  assert (Hstopped : Capture.IsCapturing (Capture.Stop clk c) = false).
  { unfold Capture.Stop. rewrite Hcapturing. cbn. unfold Capture.IsCapturing. cbn.
    now apply Stop_clears_is_capturing. }
  destruct (Start_succeeds env params (Capture.Stop clk c) h Hstopped Hopen
              Hlength Htime Hsize) as (S1 & S2 & S3 & S4 & S5 & S6).
  cbn zeta in *.
  split; [now rewrite Hstop_latency|].
  split; [exact S1|].
  split; [now rewrite S6|].
  unfold Capture.LatencyReleaseThread.
  rewrite S4, Hstop_latency.
  unfold LatencyModule.GetReleasablePackets. rewrite Henabled, Hqueue. cbn [negb].
  rewrite (release_due_all now (x :: rest) Hdue).
  unfold Capture.send_released. cbn. rewrite S3. cbn. rewrite S6. cbn.
  split; reflexivity.
Qed.

Lemma packets_left_by_Stop_are_sent_by_the_next_capture_witness :
  fst (Capture.LatencyReleaseThread 2000000000
         (snd (Capture.Start Scenario.willing Capture.CaptureParameters_default
                 (Capture.Stop (Sample.at_instant 500000000)
                    Scenario.holding_one_packet))))
  = Some (Capture.mkSent [x03; x0a; x0b] [mkAddr false false 1]).
Proof.
  assert (Hwaiting : NetworkCapture.at_latency (Sample.at_instant 500000000)
                     < release_time
                         (set_release_time 1000000000
                            (mkPacket [x03; x0a; x0b] (mkAddr false false 1) 0 0)))
    by (vm_compute; reflexivity).
  assert (Hdue : Forall (fun y => release_time y <= 2000000000)
                   [set_release_time 1000000000
                      (mkPacket [x03; x0a; x0b] (mkAddr false false 1) 0 0)])
    by (repeat constructor; vm_compute; discriminate).
  exact (proj1 (proj2 (proj2 (proj2
           (packets_left_by_Stop_are_sent_by_the_next_capture
              Scenario.holding_one_packet (Sample.at_instant 500000000)
              Scenario.willing Capture.CaptureParameters_default 1 2000000000
              (set_release_time 1000000000
                 (mkPacket [x03; x0a; x0b] (mkAddr false false 1) 0 0))
              [] eq_refl eq_refl eq_refl Hwaiting eq_refl eq_refl eq_refl eq_refl
              Hdue))))).
Defined.

(** ** main.cpp: starting a capture from the window *)

Lemma Start_keeps_last_error (env : Capture.driver)
    (params : Capture.CaptureParameters) (c : Capture.t) :
  Capture.last_error_ (snd (Capture.Start env params c)) = Capture.last_error_ c.
Proof.
  unfold Capture.Start.
  destruct (Capture.IsCapturing c); [reflexivity|].
  destruct (Capture.WinDivertOpen env); [|reflexivity].
  destruct (Capture.set_QUEUE_LENGTH env); [|reflexivity].
  destruct (Capture.set_QUEUE_TIME env); [|reflexivity].
  destruct (Capture.set_QUEUE_SIZE env); reflexivity.
Qed.

(** X26.  The reason [Start] gives for a failure never reaches the user.
    When [ToggleCapture] starts a capture and [Start] fails, what is put
    in [capture_error] is the message last stored by [SetError], or
    [Unknown error] when there is none: it does not depend on what
    [Start] returned, and for a capture object made by this very call it
    is always [Unknown error]. *)
Theorem failed_Start_shows_no_reason
    (env : Capture.driver) (constructed now : time_point)
    (clk : NetworkCapture.instants) (state : Main.ApplicationState)
    (reason : String.string)
    (Hidle : match Main.capture state with
             | Some c => Capture.IsCapturing c = false
             | None => True
             end)
    (Hfails : fst (Capture.Start env (Main.params state)
                     match Main.capture state with
                     | Some c => c
                     | None => Capture.init constructed
                     end) = inr reason) :
  Main.capture_error (Main.ToggleCapture env constructed now clk state)
  = Main.value_or
      (Capture.GetLastErrorMessage
         match Main.capture state with
         | Some c => c
         | None => Capture.init constructed
         end)
      Display.Unknown_error
  /\ (Main.capture state = None ->
      Main.capture_error (Main.ToggleCapture env constructed now clk state)
      = Display.Unknown_error).
Proof.
  assert (Hmain :
            Main.capture_error (Main.ToggleCapture env constructed now clk state)
            = Main.value_or
                (Capture.GetLastErrorMessage
                   match Main.capture state with
                   | Some c => c
                   | None => Capture.init constructed
                   end)
                Display.Unknown_error).
  { unfold Main.ToggleCapture.
    assert (E : match Main.capture state with
                | Some c => Capture.IsCapturing c
                | None => false
                end = false)
      by (destruct (Main.capture state); [exact Hidle|reflexivity]).
    rewrite E. cbn [negb].
    pose proof (Start_keeps_last_error env (Main.params state)
                  match Main.capture state with
                  | Some c => c
                  | None => Capture.init constructed
                  end) as Hkeep.
    destruct (Capture.Start env (Main.params state) _) as [result c1].
    cbn [fst snd] in *. subst result. cbn [Main.capture_error].
    unfold Capture.GetLastErrorMessage. now rewrite Hkeep. }
  split; [exact Hmain|].
  intros Hnone. rewrite Hmain, Hnone. reflexivity.
Qed.

Lemma failed_Start_shows_no_reason_witness :
  Main.capture_error
    (Main.ToggleCapture Scenario.access_denied 0 0 (Sample.at_instant 0)
       (Main.mkState None [] String.EmptyString Capture.CaptureParameters_default
          Main.SimulationSettings_default))
  = Display.Unknown_error.
Proof.
  exact (proj1 (failed_Start_shows_no_reason Scenario.access_denied 0 0
                  (Sample.at_instant 0)
                  (Main.mkState None [] String.EmptyString
                     Capture.CaptureParameters_default
                     Main.SimulationSettings_default)
                  (Display.Failed_to_open 5) I eq_refl)).
Defined.

Lemma apply_settings_bandwidth (now : time_point) (s : Main.SimulationSettings)
    (c : Capture.t) :
  NetworkCapture.bandwidth_module_ (Capture.modules_ (Main.apply_settings now s c))
  = BandwidthModule.SetOutboundEnabled (Main.bandwidth_outbound s)
      (BandwidthModule.SetInboundEnabled (Main.bandwidth_inbound s)
         (BandwidthModule.SetBandwidthLimit (Main.to_uint32 (Main.bandwidth_kbps s))
            (BandwidthModule.SetEnabled now (Main.bandwidth_enabled s)
               (NetworkCapture.bandwidth_module_ (Capture.modules_ c))))).
Proof.
  unfold Main.apply_settings. cbn [fold_left CaptureCalls.apply].
  unfold Capture.SetBandwidthEnabled, Capture.SetJitterEnabled,
    Capture.SetLatencyEnabled, Capture.SetPacketLossEnabled,
    Capture.SetDuplicateEnabled, Capture.SetOutOfOrderEnabled.
  repeat match goal with
         | |- context [if ?b then Capture.with_threads _ _ _ _ else _] =>
             destruct b
         end; reflexivity.
Qed.

(** X27.  [ToggleCapture] enables the bandwidth module before it sets the
    limit, so the bucket of a capture it starts is seeded from the limit
    that was in force before: with bandwidth limiting switched on in the
    settings, the capture starts with half the previous burst in the
    bucket, while the burst is already that of the configured limit. *)
Theorem ToggleCapture_seeds_bucket_from_previous_limit
    (env : Capture.driver) (constructed now : time_point)
    (clk : NetworkCapture.instants) (state : Main.ApplicationState)
    (Hidle : match Main.capture state with
             | Some c => Capture.IsCapturing c = false
             | None => True
             end)
    (Hstarts : fst (Capture.Start env (Main.params state)
                      match Main.capture state with
                      | Some c => c
                      | None => Capture.init constructed
                      end) = inl tt)
    (Hlimiting : Main.bandwidth_enabled (Main.simulation state) = true) :
  let before :=
    NetworkCapture.bandwidth_module_
      (Capture.modules_ match Main.capture state with
                        | Some c => c
                        | None => Capture.init constructed
                        end) in
  exists c,
    Main.capture (Main.ToggleCapture env constructed now clk state) = Some c
    /\ BandwidthModule.available_bytes_
         (NetworkCapture.bandwidth_module_ (Capture.modules_ c))
       = (BandwidthModule.max_burst_bytes_ before / 2)%Q
    /\ BandwidthModule.max_burst_bytes_
         (NetworkCapture.bandwidth_module_ (Capture.modules_ c))
       = (inject_Z (Main.to_uint32 (Main.bandwidth_kbps (Main.simulation state)))
          * 1000 / 8)%Q
    /\ BandwidthModule.enabled_
         (NetworkCapture.bandwidth_module_ (Capture.modules_ c)) = true.
Proof.
  cbn zeta. unfold Main.ToggleCapture.
  assert (E : match Main.capture state with
              | Some c => Capture.IsCapturing c
              | None => false
              end = false)
    by (destruct (Main.capture state); [exact Hidle|reflexivity]).
  rewrite E. cbn [negb].
  set (c0 := match Main.capture state with
             | Some c => c
             | None => Capture.init constructed
             end) in *.
  assert (Hidle0 : Capture.IsCapturing c0 = false).
  { unfold c0. destruct (Main.capture state); [exact Hidle|reflexivity]. }
  assert (Hbw : NetworkCapture.bandwidth_module_
                  (Capture.modules_ (snd (Capture.Start env (Main.params state) c0)))
                = NetworkCapture.bandwidth_module_ (Capture.modules_ c0)).
  { unfold Capture.Start. rewrite Hidle0.
    destruct (Capture.WinDivertOpen env); [|reflexivity].
    destruct (Capture.set_QUEUE_LENGTH env); [|reflexivity].
    destruct (Capture.set_QUEUE_TIME env); [|reflexivity].
    destruct (Capture.set_QUEUE_SIZE env); reflexivity. }
  destruct (Capture.Start env (Main.params state) c0) as [result c1].
  cbn [fst snd] in *. subst result.
  exists (Main.apply_settings now (Main.simulation state) c1).
  split; [reflexivity|].
  rewrite apply_settings_bandwidth, Hbw, Hlimiting. cbn. now repeat split.
Qed.

Lemma ToggleCapture_seeds_bucket_from_previous_limit_witness :
  exists c,
    Main.capture
      (Main.ToggleCapture Scenario.willing 0 0 (Sample.at_instant 0)
         (Main.mkState None [] String.EmptyString Capture.CaptureParameters_default
            (Main.mkSettings false true true 0%Q false true true 0
               false true true 0%Q 1 false true true 0%Q 3
               false true true 0 50 true true true 56))) = Some c
    /\ BandwidthModule.available_bytes_
         (NetworkCapture.bandwidth_module_ (Capture.modules_ c))
       = (125000 / 2)%Q
    /\ BandwidthModule.max_burst_bytes_
         (NetworkCapture.bandwidth_module_ (Capture.modules_ c))
       = (inject_Z (Main.to_uint32 56) * 1000 / 8)%Q
    /\ BandwidthModule.enabled_
         (NetworkCapture.bandwidth_module_ (Capture.modules_ c)) = true.
Proof.
  exact (ToggleCapture_seeds_bucket_from_previous_limit Scenario.willing 0 0
           (Sample.at_instant 0)
           (Main.mkState None [] String.EmptyString Capture.CaptureParameters_default
              (Main.mkSettings false true true 0%Q false true true 0
                 false true true 0%Q 1 false true true 0%Q 3
                 false true true 0 50 true true true 56))
           I eq_refl eq_refl).
Defined.

(** X28.  The packet table holds the newest rows and never more than
    [visual_packet_buffer] of them: while a capture runs, the update at
    the end of [RenderUI] empties the ring into the table and keeps the
    last [visual_packet_buffer] rows of the old rows followed by the
    ring's. *)
Theorem packet_table_keeps_the_newest_rows
    (state : Main.ApplicationState) (c : Capture.t)
    (Hcapture : Main.capture state = Some c)
    (Hcapturing : Capture.IsCapturing c = true)
    (Hlimit : 0 <= Capture.visual_packet_buffer (Main.params state)) :
  let all := Main.state_packets state ++ Capture.packets_ c in
  let limit := Z.to_nat (Capture.visual_packet_buffer (Main.params state)) in
  Main.state_packets (Main.update_packets state) = skipn (length all - limit) all
  /\ (length (Main.state_packets (Main.update_packets state)) <= limit)%nat
  /\ Main.capture (Main.update_packets state) = Some (Capture.with_packets c []).
Proof.
  cbn zeta. unfold Main.update_packets. rewrite Hcapture, Hcapturing.
  unfold Capture.GetPackets.
  set (all := Main.state_packets state ++ Capture.packets_ c).
  set (n := Capture.visual_packet_buffer (Main.params state)) in *.
  cbn [Main.state_packets Main.capture].
  destruct (n <? Z.of_nat (length all)) eqn:E.
  - apply Z.ltb_lt in E.
    replace (Z.to_nat (Z.of_nat (length all) - n)) with (length all - Z.to_nat n)%nat
      by lia.
    repeat split. rewrite length_skipn. lia.
  - apply Z.ltb_ge in E.
    replace (length all - Z.to_nat n)%nat with 0%nat by lia.
    repeat split. lia.
Qed.

Lemma packet_table_keeps_the_newest_rows_witness :
  (length (Main.state_packets
             (Main.update_packets
                (Main.mkState
                   (Some (fold_left (fun c0 info => Capture.store_packet_info info c0)
                            [ParsePacket Scenario.length_prefixed 1 [x03; x0a; x0b]
                               (mkAddr false false 1);
                             ParsePacket Scenario.length_prefixed 2 [x02; x0c]
                               (mkAddr true false 1)]
                            Scenario.started))
                   [ParsePacket Scenario.length_prefixed 0 [x02; x0d]
                      (mkAddr true false 1)]
                   String.EmptyString
                   (Capture.mkParams 8192 2000 4194304 10 1 16384 2 1024 1500 65535)
                   Main.SimulationSettings_default)))
   <= Z.to_nat 2)%nat.
Proof.
  assert (Hlimit : 0 <= Capture.visual_packet_buffer
                          (Capture.mkParams 8192 2000 4194304 10 1 16384 2 1024
                             1500 65535))
    by (simpl; lia).
  exact (proj1 (proj2 (packet_table_keeps_the_newest_rows
           (Main.mkState
              (Some (fold_left (fun c0 info => Capture.store_packet_info info c0)
                       [ParsePacket Scenario.length_prefixed 1 [x03; x0a; x0b]
                          (mkAddr false false 1);
                        ParsePacket Scenario.length_prefixed 2 [x02; x0c]
                          (mkAddr true false 1)]
                       Scenario.started))
              [ParsePacket Scenario.length_prefixed 0 [x02; x0d] (mkAddr true false 1)]
              String.EmptyString
              (Capture.mkParams 8192 2000 4194304 10 1 16384 2 1024 1500 65535)
              Main.SimulationSettings_default)
           (fold_left (fun c0 info => Capture.store_packet_info info c0)
              [ParsePacket Scenario.length_prefixed 1 [x03; x0a; x0b]
                 (mkAddr false false 1);
               ParsePacket Scenario.length_prefixed 2 [x02; x0c]
                 (mkAddr true false 1)]
              Scenario.started)
           eq_refl eq_refl Hlimit))).
Defined.

(** ** The reorder buffer of a module that is switched off *)

Lemma apply_simulation_effects_keeps_disabled_reorder (clk : NetworkCapture.instants)
    (m : NetworkCapture.t) (batch : packets) (g : NetworkCapture.generators) :
  OutOfOrderModule.enabled_ (NetworkCapture.out_of_order_module_ m) = false ->
  NetworkCapture.out_of_order_module_
    (snd (fst (NetworkCapture.apply_simulation_effects clk m batch g)))
  = NetworkCapture.out_of_order_module_ m.
Proof.
  intros Hoff. unfold NetworkCapture.apply_simulation_effects.
  destruct (if PacketLossModule.IsEnabled _ then _ else _) as [sim1 r1].
  destruct (if DuplicateModule.IsEnabled _ then _ else _) as [sim2 r2].
  unfold OutOfOrderModule.IsEnabled. rewrite Hoff.
  destruct (if JitterModule.IsEnabled _ then _ else _) as [[sim4 jit] j4].
  destruct (if BandwidthModule.IsEnabled _ then _ else _) as [sim5 bw].
  destruct (if LatencyModule.IsEnabled _ then _ else _) as [sim6 lat].
  reflexivity.
Qed.

Lemma apply_keeps_disabled_reorder (c : Capture.t) (op : CaptureCalls.operation) :
  CaptureCalls.leaves_reorder_switch op = true ->
  OutOfOrderModule.enabled_
    (NetworkCapture.out_of_order_module_ (Capture.modules_ c)) = false ->
  OutOfOrderModule.enabled_
    (NetworkCapture.out_of_order_module_
       (Capture.modules_ (CaptureCalls.apply c op))) = false
  /\ OutOfOrderModule.packet_buffer_
       (NetworkCapture.out_of_order_module_
          (Capture.modules_ (CaptureCalls.apply c op)))
     = OutOfOrderModule.packet_buffer_
         (NetworkCapture.out_of_order_module_ (Capture.modules_ c)).
Proof.
  intros Hop Hoff.
  destruct op; try discriminate Hop; cbn [CaptureCalls.apply];
    try (split; [exact Hoff|reflexivity]).
  - (* Start *)
    unfold Capture.Start. destruct (Capture.IsCapturing c); [now split|].
    destruct (Capture.WinDivertOpen env); [|now split].
    destruct (Capture.set_QUEUE_LENGTH env); [|now split].
    destruct (Capture.set_QUEUE_TIME env); [|now split].
    destruct (Capture.set_QUEUE_SIZE env); now split.
  - unfold Capture.SetLatencyEnabled.
    destruct (_ && _ && _); split; first [exact Hoff|reflexivity].
  - unfold Capture.SetJitterEnabled.
    destruct (_ && _ && _); split; first [exact Hoff|reflexivity].
  - unfold Capture.SetBandwidthEnabled.
    destruct (_ && _ && _); split; first [exact Hoff|reflexivity].
  - (* a worker's turn *)
    unfold Capture.CaptureThreadBatch.
    destruct (Capture.addr_buffer r) as [|a0 rest0] eqn:Eaddr; [now split|].
    rewrite <- Eaddr. clear Eaddr a0 rest0.
    pose proof (convert_keeps_control parse clock current_time (Capture.packet_buffer r)
                  (Capture.recv_len r) (Capture.addr_buffer r) 0 0 0
                  (Capture.count_batch (Z.of_nat (length (Capture.addr_buffer r))) c))
      as Hk.
    cbn zeta in Hk.
    destruct (Capture.convert _ _ _ _ _ _ _ _ _ _) as [sims c2]. cbn [snd] in Hk.
    destruct Hk as (K1 & _).
    cbn [Capture.count_batch Capture.with_statistics Capture.modules_] in K1.
    pose proof (apply_simulation_effects_keeps_disabled_reorder clk
                  (Capture.modules_ c2) sims g) as Hm.
    assert (Hoff2 : OutOfOrderModule.enabled_
                      (NetworkCapture.out_of_order_module_ (Capture.modules_ c2))
                    = false) by (rewrite K1; exact Hoff).
    specialize (Hm Hoff2).
    destruct (NetworkCapture.apply_simulation_effects _ _ _ _) as [[out m'] g'].
    cbn [fst snd] in Hm. rewrite K1 in Hm.
    destruct out; [|destruct send_ok]; cbn; rewrite Hm; now split.
  - (* a worker's failed receive *)
    unfold Capture.CaptureThreadBatch_failed. destruct (_ || _); now split.
  - unfold Capture.LatencyReleaseThread.
    destruct (LatencyModule.GetReleasablePackets _ _) as [releasable m].
    match goal with
    | |- context [Capture.send_released ?x ?y] =>
        destruct (send_released_keeps_control x y) as (S1 & _)
    end.
    cbn zeta in S1. rewrite S1. now split.
  - unfold Capture.JitterReleaseThread.
    destruct (JitterModule.GetReleasablePackets _ _) as [releasable m].
    match goal with
    | |- context [Capture.send_released ?x ?y] =>
        destruct (send_released_keeps_control x y) as (S1 & _)
    end.
    cbn zeta in S1. rewrite S1. now split.
  - unfold Capture.BandwidthReleaseThread.
    destruct (BandwidthModule.GetReleasablePackets _ _) as [releasable m].
    match goal with
    | |- context [Capture.send_released ?x ?y] =>
        destruct (send_released_keeps_control x y) as (S1 & _)
    end.
    cbn zeta in S1. rewrite S1. now split.
Qed.

(** X29.  Packets in the buffer of a reorder module that is switched off
    stay there.  No release thread serves the reorder module and the
    worker skips a module that is off, so whatever calls are made and
    whatever turns the threads take, short of [Stop] and of
    [SetOutOfOrderEnabled], the buffer keeps the packets it held when the
    module was switched off. *)
Theorem switched_off_reorder_keeps_its_packets
    (c : Capture.t) (ops : list CaptureCalls.operation)
    (Hops : Forall (fun op => CaptureCalls.leaves_reorder_switch op = true) ops)
    (Hoff : OutOfOrderModule.enabled_
              (NetworkCapture.out_of_order_module_ (Capture.modules_ c)) = false) :
  OutOfOrderModule.packet_buffer_
    (NetworkCapture.out_of_order_module_
       (Capture.modules_ (fold_left CaptureCalls.apply ops c)))
  = OutOfOrderModule.packet_buffer_
      (NetworkCapture.out_of_order_module_ (Capture.modules_ c)).
Proof.
  revert c Hoff. induction Hops as [|op ops Hop _ IH]; intros c Hoff; [reflexivity|].
  cbn [fold_left].
  destruct (apply_keeps_disabled_reorder c op Hop Hoff) as [Hoff' Hbuf].
  now rewrite IH, Hbuf.
Qed.

Lemma switched_off_reorder_keeps_its_packets_witness :
  OutOfOrderModule.packet_buffer_
    (NetworkCapture.out_of_order_module_
       (Capture.modules_
          (fold_left CaptureCalls.apply
             [CaptureCalls.OpCaptureThreadBatch Scenario.length_prefixed (fun _ => 0)
                20000000 (Sample.at_instant 20000000) true Scenario.two_received
                Sample.generators;
              CaptureCalls.OpLatencyReleaseThread 30000000;
              CaptureCalls.OpSetLatencyEnabled true]
             Scenario.reorder_switched_off)))
  = [mkPacket [x03; x0a; x0b] (mkAddr false false 1) 0 0].
Proof.
  assert (Hops : Forall (fun op => CaptureCalls.leaves_reorder_switch op = true)
                   [CaptureCalls.OpCaptureThreadBatch Scenario.length_prefixed
                      (fun _ => 0) 20000000 (Sample.at_instant 20000000) true
                      Scenario.two_received Sample.generators;
                    CaptureCalls.OpLatencyReleaseThread 30000000;
                    CaptureCalls.OpSetLatencyEnabled true])
    by (repeat constructor).
  exact (switched_off_reorder_keeps_its_packets Scenario.reorder_switched_off
           [CaptureCalls.OpCaptureThreadBatch Scenario.length_prefixed (fun _ => 0)
              20000000 (Sample.at_instant 20000000) true Scenario.two_received
              Sample.generators;
            CaptureCalls.OpLatencyReleaseThread 30000000;
            CaptureCalls.OpSetLatencyEnabled true]
           Hops eq_refl).
Defined.
